(** * Lifting diary: date handling, ownership-scoped reads and writes

    A shallow embedding of the data layer of the workout diary
    ([lib/date-utils.ts], [data/workouts.ts], [src/data/workouts.ts],
    [src/db/queries], [lib/actions/workouts.ts] and the server actions
    under [app/dashboard/workout]), of the dashboard page that calls it
    ([app/dashboard/page.tsx]) and of the figures of a workout card
    ([app/dashboard/dashboard-content.tsx]), together with the properties
    the specification states about them and further properties the code
    shows. *)

From Stdlib Require Import ZArith List String Ascii Bool Lia.
From Stdlib Require Import Decimal DecimalString DecimalZ DecimalPos.
From Stdlib Require Import QArith Permutation Sorted.
Import ListNotations.

Open Scope string_scope.
Open Scope list_scope.
Open Scope Z_scope.

(** String concatenation, kept apart from list append. *)
Infix "+++" := String.append (right associativity, at level 60).

(** ** JavaScript strings and numbers

    Only the fragment of the language the diary code exercises: integral
    numbers are [Z] (every value that occurs stays far below 2^53, so the
    double arithmetic of the engine is exact), [NaN] and [undefined] in a
    numeric position are [None]. Texts are strings of one-byte characters
    without the NUL character, which a [text] column of the store cannot
    hold. *)

Module Js.

(** [String(n)] and the template literal [`${n}`] for an integral number. *)
Definition String_of (n : Z) : string := NilZero.string_of_int (Z.to_int n).

(** [Number(s)] on the strings that reach it here: a run of decimal digits
    (leading zeros allowed) is its value, the empty string is 0, anything
    else is [NaN]. *)
Definition Number (s : string) : option Z :=
  option_map Z.of_uint (NilEmpty.uint_of_string s).

Fixpoint repeat_char (c : ascii) (n : nat) : string :=
  match n with
  | O => EmptyString
  | S k => String c (repeat_char c k)
  end.

(** [s.padStart(n, c)] for a one-character filler. *)
Definition padStart (n : nat) (c : ascii) (s : string) : string :=
  repeat_char c (n - String.length s) +++ s.

(** [s.split(sep)] for a one-character separator. *)
Fixpoint split (sep : ascii) (s : string) : list string :=
  match s with
  | EmptyString => [EmptyString]
  | String c r =>
      if Ascii.eqb c sep then EmptyString :: split sep r
      else match split sep r with
           | h :: t => String c h :: t
           | [] => [String c EmptyString]
           end
  end.

(** Array index [a[i]]; [None] is [undefined]. *)
Definition index {A} (a : list A) (i : nat) : option A := nth_error a i.

(** JavaScript truthiness of an optional string ([undefined] and the empty
    string are falsy) as used by [x || fallback]. *)
Definition or_else (x : option string) (fallback : string) : string :=
  match x with
  | Some s => if String.eqb s EmptyString then fallback else s
  | None => fallback
  end.

End Js.

(** ** The [Date] object (ECMA-262, Date objects: time values, day and year
    numbers, [MakeDay], [MakeDate], [TimeClip], local time)

    A [Date] wraps a time value: milliseconds since the epoch in UTC, or
    [NaN] ([None]) for an invalid date. The host time zone is a fixed offset
    [tza] in milliseconds, added to go from UTC to local time. *)

Module JsDate.

Definition msPerDay : Z := 86400000.
Definition msPerHour : Z := 3600000.
Definition msPerMinute : Z := 60000.
Definition msPerSecond : Z := 1000.
Definition maxTime : Z := 8640000000000000.

Definition Day (t : Z) : Z := t / msPerDay.
Definition TimeWithinDay (t : Z) : Z := t mod msPerDay.

Definition isLeap (y : Z) : bool :=
  (y mod 4 =? 0) && (negb (y mod 100 =? 0) || (y mod 400 =? 0)).

Definition DaysInYear (y : Z) : Z := if isLeap y then 366 else 365.

Definition DayFromYear (y : Z) : Z :=
  365 * (y - 1970) + (y - 1969) / 4 - (y - 1901) / 100 + (y - 1601) / 400.

Definition TimeFromYear (y : Z) : Z := msPerDay * DayFromYear y.

(** The year a day number falls in: a first estimate from the mean length of
    a Gregorian year, corrected by at most one. *)
Definition YearFromDay (d : Z) : Z :=
  let y0 := 1970 + (400 * d) / 146097 in
  if d <? DayFromYear y0 then y0 - 1
  else if DayFromYear (y0 + 1) <=? d then y0 + 1
  else y0.

(** [YearFromTime(t)]: the largest [y] with [TimeFromYear(y) <= t]. *)
Definition YearFromTime (t : Z) : Z := YearFromDay (Day t).

Definition InLeapYear (t : Z) : Z :=
  if isLeap (YearFromTime t) then 1 else 0.

Definition DayWithinYear (t : Z) : Z := Day t - DayFromYear (YearFromTime t).

Definition MonthFromTime (t : Z) : Z :=
  let d := DayWithinYear t in
  let l := InLeapYear t in
  if d <? 31 then 0
  else if d <? 59 + l then 1
  else if d <? 90 + l then 2
  else if d <? 120 + l then 3
  else if d <? 151 + l then 4
  else if d <? 181 + l then 5
  else if d <? 212 + l then 6
  else if d <? 243 + l then 7
  else if d <? 273 + l then 8
  else if d <? 304 + l then 9
  else if d <? 334 + l then 10
  else 11.

Definition DateFromTime (t : Z) : Z :=
  let d := DayWithinYear t in
  let l := InLeapYear t in
  match MonthFromTime t with
  | 0 => d + 1
  | 1 => d - 30
  | 2 => d - 58 - l
  | 3 => d - 89 - l
  | 4 => d - 119 - l
  | 5 => d - 150 - l
  | 6 => d - 180 - l
  | 7 => d - 211 - l
  | 8 => d - 242 - l
  | 9 => d - 272 - l
  | 10 => d - 303 - l
  | _ => d - 333 - l
  end.

Definition HourFromTime (t : Z) : Z := (t / msPerHour) mod 24.
Definition MinFromTime (t : Z) : Z := (t / msPerMinute) mod 60.
Definition SecFromTime (t : Z) : Z := (t / msPerSecond) mod 60.
Definition msFromTime (t : Z) : Z := t mod msPerSecond.

(** Days of the year that precede month [mn] (0-based), [l] being 1 in a
    leap year. *)
Definition daysBeforeMonth (mn l : Z) : Z :=
  match mn with
  | 0 => 0
  | 1 => 31
  | 2 => 59 + l
  | 3 => 90 + l
  | 4 => 120 + l
  | 5 => 151 + l
  | 6 => 181 + l
  | 7 => 212 + l
  | 8 => 243 + l
  | 9 => 273 + l
  | 10 => 304 + l
  | _ => 334 + l
  end.

(** [MakeDay(year, month, date)]: the day number of the first of the month
    ([month] may overflow into neighbouring years) plus [date - 1]. *)
Definition MakeDay (year month date : Z) : Z :=
  let ym := year + month / 12 in
  let mn := month mod 12 in
  DayFromYear ym + daysBeforeMonth mn (if isLeap ym then 1 else 0) + date - 1.

Definition MakeTime (h m s ms : Z) : Z :=
  h * msPerHour + m * msPerMinute + s * msPerSecond + ms.

Definition MakeDate (day time : Z) : Z := day * msPerDay + time.

Definition TimeClip (t : Z) : option Z :=
  if Z.abs t <=? maxTime then Some t else None.

(** A [Date] object: its time value. *)
Definition Date : Type := option Z.

Section Host.

(** Offset of the host's local time from UTC, in milliseconds. *)
Variable tza : Z.

Definition LocalTime (t : Z) : Z := t + tza.
Definition UTC (t : Z) : Z := t - tza.

(** [new Date(year, month, day)]; a [NaN] argument gives an invalid date and
    a year from 0 to 99 means 1900 + year. *)
Definition newDate (year month day : option Z) : Date :=
  match year, month, day with
  | Some y, Some m, Some dt =>
      let yr := if (0 <=? y) && (y <=? 99) then 1900 + y else y in
      TimeClip (UTC (MakeDate (MakeDay yr m dt) (MakeTime 0 0 0 0)))
  | _, _, _ => None
  end.

Definition getFullYear (d : Date) : option Z :=
  option_map (fun t => YearFromTime (LocalTime t)) d.
Definition getMonth (d : Date) : option Z :=
  option_map (fun t => MonthFromTime (LocalTime t)) d.
Definition getDate (d : Date) : option Z :=
  option_map (fun t => DateFromTime (LocalTime t)) d.

End Host.

Definition pad (n : nat) (v : Z) : string :=
  Js.padStart n "0"%char (Js.String_of v).

(** [d.toISOString()]: the UTC fields as [YYYY-MM-DDTHH:mm:ss.sssZ], the year
    in the expanded form with a sign and six digits outside 0..9999. An
    invalid date throws a [RangeError] ([None]). *)
Definition toISOString (d : Date) : option string :=
  match d with
  | None => None
  | Some t =>
      let y := YearFromTime t in
      let ys := if (0 <=? y) && (y <=? 9999) then pad 4 y
                else (if y <? 0 then "-" else "+") +++ pad 6 (Z.abs y) in
      Some (ys +++ "-" +++ pad 2 (MonthFromTime t + 1) +++ "-" +++ pad 2 (DateFromTime t)
               +++ "T" +++ pad 2 (HourFromTime t) +++ ":" +++ pad 2 (MinFromTime t)
               +++ ":" +++ pad 2 (SecFromTime t) +++ "." +++ pad 3 (msFromTime t) +++ "Z")
  end.

(** [new Date(s)] for a string. The date-only form [YYYY-MM-DD] of the date
    time string format is midnight UTC of that day; a month outside 01..12
    or a day outside 01..31 is an illegal element and gives an invalid date.
    Other spellings are engine-specific and read as unrecognised here. *)
Definition parse (s : string) : Date :=
  match Js.split "-"%char s with
  | [y; m; d] =>
      if ((String.length y =? 4) && (String.length m =? 2)
          && (String.length d =? 2))%nat
      then match Js.Number y, Js.Number m, Js.Number d with
           | Some yv, Some mv, Some dv =>
               if (1 <=? mv) && (mv <=? 12) && (1 <=? dv) && (dv <=? 31)
               then TimeClip (MakeDate (MakeDay yv (mv - 1) dv) 0)
               else None
           | _, _, _ => None
           end
      else None
  | _ => None
  end.

End JsDate.

(** ** [lib/date-utils.ts] *)

Section DateUtils.

Variable tza : Z.

(** An optional number in a template literal or under [String(...)]:
    [NaN] prints as the text NaN. *)
Definition show (n : option Z) : string :=
  match n with
  | Some v => Js.String_of v
  | None => "NaN"
  end.

Definition formatDateForDb (date : JsDate.Date) : string :=
  let year := JsDate.getFullYear tza date in
  let month :=
    Js.padStart 2 "0"%char (show (option_map (fun m => m + 1) (JsDate.getMonth tza date))) in
  let day := Js.padStart 2 "0"%char (show (JsDate.getDate tza date)) in
  show year +++ "-" +++ month +++ "-" +++ day.

Definition parseDateFromDb (dateString : string) : JsDate.Date :=
  let parts := map Js.Number (Js.split "-"%char dateString) in
  let year := match Js.index parts 0 with Some v => v | None => None end in
  let month := match Js.index parts 1 with Some v => v | None => None end in
  let day := match Js.index parts 2 with Some v => v | None => None end in
  JsDate.newDate tza year (option_map (fun m => m - 1) month) day.

End DateUtils.

(** ** Schema ([src/db/schema])

    Rows as the application sees them. Timestamps are milliseconds; a
    [date] column reads back as its [YYYY-MM-DD] text; the [numeric(10,2)]
    weight is kept exactly, in hundredths. *)

Module Exercise.
Record t : Type := mk
  { id : Z; name : string; description : option string;
    createdAt : Z; updatedAt : Z }.
End Exercise.

Module Workout.
Record t : Type := mk
  { id : Z; userId : string; date : string; name : option string;
    durationMinutes : option Z; notes : option string;
    createdAt : Z; updatedAt : Z }.
End Workout.

Module WorkoutExercise.
Record t : Type := mk
  { id : Z; workoutId : Z; exerciseId : Z; order : Z;
    notes : option string; createdAt : Z }.
End WorkoutExercise.

Module SetRow.
Record t : Type := mk
  { id : Z; workoutExerciseId : Z; setNumber : Z; isBodyweight : bool;
    weight : option Z; reps : Z; rpe : option Z;
    notes : option string; createdAt : Z }.
End SetRow.

(** The values of an insert into [workouts] and the column assignments of an
    update ([None]: the key is absent or [undefined] and the column keeps
    its default, respectively its old value). *)
Module NewWorkout.
Record t : Type := mk
  { userId : string; date : string; name : option string;
    durationMinutes : option Z; notes : option string }.
End NewWorkout.

Module WorkoutUpdate.
Record t : Type := mk
  { name : option string; date : option string;
    durationMinutes : option Z; notes : option string }.
End WorkoutUpdate.

(** ** The relational store

    Tables are lists of rows in storage order; a statement without an
    [orderBy] on [workouts] yields its rows in that order, except for the
    distinct dates, which come in the order the engine arranges them (see
    [scan_rank] below). Rows that compare equal under an [orderBy] keep
    their storage order here and an updated row keeps its place; the engine
    leaves both open, and no property below depends on either. The engine
    rejects a statement with a date literal that is no calendar date or
    with a number outside the range of its [integer] column. *)

Record Database : Type := mkDatabase
  { workouts : list Workout.t;
    workoutExercises : list WorkoutExercise.t;
    exercises : list Exercise.t;
    sets : list SetRow.t;
    workouts_id_seq : Z }.

Module Pg.

(** A calendar date: year, month (1..12), day. *)
Definition CalDate : Type := (Z * Z * Z)%type.

Definition daysInMonth (y m : Z) : Z :=
  match m with
  | 2 => if JsDate.isLeap y then 29 else 28
  | 4 | 6 | 9 | 11 => 30
  | _ => 31
  end.

Definition valid_date (y m d : Z) : bool :=
  (1 <=? y) && (y <=? 5874897) && (1 <=? m) && (m <=? 12)
  && (1 <=? d) && (d <=? daysInMonth y m).

(** The range of an [integer] column or parameter. *)
Definition int4 (v : Z) : bool := (-2147483648 <=? v) && (v <=? 2147483647).

Definition opt_int4 (v : option Z) : bool :=
  match v with
  | Some n => int4 n
  | None => true
  end.

(** A field of one or two characters. *)
Definition short (s : string) : bool :=
  ((1 <=? String.length s) && (String.length s <=? 2))%nat.

(** A year written with one or two digits falls in 1970..2069. *)
Definition two_digit_year (z : Z) : Z := if z <? 70 then 2000 + z else 1900 + z.

(** Input of a [date] literal of three decimal fields separated by dashes,
    under the engine's default date style (ISO, MDY). A first field of three
    digits or more is the year, followed by the month and the day in one or
    two digits each. A first field of one or two digits is the month,
    followed by the day and the year. The engine's other spellings (no
    separator or another one, month names, an era, a time attached) are not
    modelled: such a text reads as rejected here. *)
Definition date_in (s : string) : option CalDate :=
  match Js.split "-"%char s with
  | [a; b; c] =>
      match Js.Number a, Js.Number b, Js.Number c with
      | Some x, Some y, Some z =>
          if (3 <=? String.length a)%nat
          then
            if short b && short c && valid_date x y z then Some (x, y, z) else None
          else
            let year := if (String.length c <=? 2)%nat then two_digit_year z else z in
            if short a && short b && (1 <=? String.length c)%nat && valid_date year x y
            then Some (year, x, y)
            else None
      | _, _, _ => None
      end
  | _ => None
  end.

(** Output of a [date] value. *)
Definition date_out (c : CalDate) : string :=
  let '(y, m, d) := c in
  JsDate.pad 4 y +++ "-" +++ JsDate.pad 2 m +++ "-" +++ JsDate.pad 2 d.

Definition date_eqb (a b : CalDate) : bool :=
  let '(y, m, d) := a in
  let '(y', m', d') := b in
  (y =? y') && (m =? m') && (d =? d').

Definition date_leb (a b : CalDate) : bool :=
  let '(y, m, d) := a in
  let '(y', m', d') := b in
  (y <? y') || ((y =? y') && ((m <? m') || ((m =? m') && (d <=? d')))).

(** Comparison of a stored date text with a literal. *)
Definition date_cmp (f : CalDate -> CalDate -> bool) (stored lit : string) : bool :=
  match date_in stored, date_in lit with
  | Some a, Some b => f a b
  | _, _ => false
  end.

End Pg.

(** *** Statements

    The [where] clause of a statement on [workouts] is a conjunction
    ([and(...)]) of comparisons of a column with a parameter. *)

Inductive Cond : Type :=
| eq_id (v : Z)
| eq_userId (v : string)
| eq_date (v : string)
| gte_date (v : string)
| lte_date (v : string).

Inductive OrderBy : Type :=
| desc_createdAt
| desc_date
| asc_date.

(** What [findMany] loads with each workout: its exercise entries, in the
    order asked for, each with its exercise and its sets if asked for. *)
Inductive EntryOrder : Type := asc_order.
Inductive SetOrder : Type := asc_setNumber.

Module With.
Record Sets : Type := mkSets
  { sets_orderBy : option SetOrder }.
Record WorkoutExercises : Type := mk
  { orderBy : option EntryOrder;
    exercise : bool;
    sets : option Sets }.
End With.

Inductive Statement : Type :=
| select_workouts (where_ : list Cond) (orderBy : option OrderBy) (limit : option Z)
| selectDistinct_date (where_ : list Cond) (orderBy : option OrderBy)
| select_exercise_data (workoutId : Z)
| findMany_workouts (where_ : list Cond) (orderBy : option OrderBy)
    (with_ : option With.WorkoutExercises)
| insert_workouts (values : NewWorkout.t)
| update_workouts (set : WorkoutUpdate.t) (where_ : list Cond)
| delete_workouts (where_ : list Cond).

Definition holds (c : Cond) (r : Workout.t) : bool :=
  match c with
  | eq_id v => Workout.id r =? v
  | eq_userId v => String.eqb (Workout.userId r) v
  | eq_date v => Pg.date_cmp Pg.date_eqb (Workout.date r) v
  | gte_date v => Pg.date_cmp (fun a b => Pg.date_leb b a) (Workout.date r) v
  | lte_date v => Pg.date_cmp Pg.date_leb (Workout.date r) v
  end.

Definition matches (where_ : list Cond) (r : Workout.t) : bool :=
  forallb (fun c => holds c r) where_.

(** A date parameter that is no calendar date makes the statement fail,
    and so does an id outside the range of the column. *)
Definition cond_ok (c : Cond) : bool :=
  match c with
  | eq_date v | gte_date v | lte_date v =>
      match Pg.date_in v with Some _ => true | None => false end
  | eq_id v => Pg.int4 v
  | eq_userId _ => true
  end.

Section Sorting.

Context {A : Type} (leb : A -> A -> bool).

Fixpoint insert_sorted (x : A) (l : list A) : list A :=
  match l with
  | [] => [x]
  | y :: t => if leb x y then x :: y :: t else y :: insert_sorted x t
  end.

(** A stable sort: elements that compare equal keep their order. *)
Definition stable_sort (l : list A) : list A :=
  fold_right insert_sorted [] l.

End Sorting.

Definition order_leb (o : OrderBy) (a b : Workout.t) : bool :=
  match o with
  | desc_createdAt => Workout.createdAt b <=? Workout.createdAt a
  | desc_date => Pg.date_cmp Pg.date_leb (Workout.date b) (Workout.date a)
  | asc_date => Pg.date_cmp Pg.date_leb (Workout.date a) (Workout.date b)
  end.

Definition order_rows (o : option OrderBy) (l : list Workout.t) : list Workout.t :=
  match o with
  | Some ob => stable_sort (order_leb ob) l
  | None => l
  end.

(** [.limit(n)]: the query builder leaves a negative limit out of the
    statement, and all rows come back. *)
Definition apply_limit {A} (limit : option Z) (l : list A) : list A :=
  match limit with
  | Some n => if n <? 0 then l else firstn (Z.to_nat n) l
  | None => l
  end.

(** [DISTINCT]: every value once. *)
Fixpoint distinct (l : list string) : list string :=
  match l with
  | [] => []
  | x :: t => x :: filter (fun y => negb (String.eqb x y)) (distinct t)
  end.

Definition date_text_order (o : OrderBy) (a b : string) : bool :=
  match o with
  | asc_date => Pg.date_cmp Pg.date_leb a b
  | _ => Pg.date_cmp Pg.date_leb b a
  end.

(** One row of
    [workoutExercises INNER JOIN exercises LEFT JOIN sets]. *)
Module Joined.
Record t : Type := mk
  { workoutExercise : WorkoutExercise.t;
    exercise : Exercise.t;
    set : option SetRow.t }.
End Joined.

Definition join_sets (db : Database) (we : WorkoutExercise.t) (e : Exercise.t)
    : list Joined.t :=
  match filter (fun s => WorkoutExercise.id we =? SetRow.workoutExerciseId s) (sets db) with
  | [] => [Joined.mk we e None]
  | ss => map (fun s => Joined.mk we e (Some s)) ss
  end.

Definition exercise_data (db : Database) (workoutId : Z) : list Joined.t :=
  flat_map
    (fun we =>
       flat_map (join_sets db we)
         (filter (fun e => WorkoutExercise.exerciseId we =? Exercise.id e) (exercises db)))
    (filter (fun we => WorkoutExercise.workoutId we =? workoutId) (workoutExercises db)).

(** The nested shape of the relational query API
    ([lib/types/workout]: [WorkoutWithDetails]). *)
Module WorkoutExerciseWithDetails.
Record t : Type := mk
  { row : WorkoutExercise.t;
    exercise : option Exercise.t;
    sets : list SetRow.t }.
End WorkoutExerciseWithDetails.

Module WorkoutWithDetails.
Record t : Type := mk
  { row : Workout.t;
    workoutExercises : list WorkoutExerciseWithDetails.t }.
End WorkoutWithDetails.

Definition order_entries (o : option EntryOrder) (l : list WorkoutExercise.t)
    : list WorkoutExercise.t :=
  match o with
  | Some asc_order =>
      stable_sort (fun a b => WorkoutExercise.order a <=? WorkoutExercise.order b) l
  | None => l
  end.

Definition order_sets (o : option SetOrder) (l : list SetRow.t) : list SetRow.t :=
  match o with
  | Some asc_setNumber =>
      stable_sort (fun a b => SetRow.setNumber a <=? SetRow.setNumber b) l
  | None => l
  end.

(** A workout with what the [with] option asks for; a relation that is not
    asked for is left out of the result. *)
Definition with_details (db : Database) (with_ : option With.WorkoutExercises)
    (w : Workout.t) : WorkoutWithDetails.t :=
  WorkoutWithDetails.mk w
    match with_ with
    | None => []
    | Some c =>
        map
          (fun we =>
             WorkoutExerciseWithDetails.mk we
               (if With.exercise c
                then find (fun e => Exercise.id e =? WorkoutExercise.exerciseId we)
                       (exercises db)
                else None)
               match With.sets c with
               | Some s =>
                   order_sets (With.sets_orderBy s)
                     (filter (fun s => SetRow.workoutExerciseId s =? WorkoutExercise.id we)
                        (sets db))
               | None => []
               end)
          (order_entries (With.orderBy c)
             (filter (fun we => WorkoutExercise.workoutId we =? Workout.id w)
                (workoutExercises db)))
    end.

(** A row of an insert: the sequence gives the id, [defaultNow()] the two
    timestamps, and the date is stored in its canonical text. *)
Definition inserted_row (db : Database) (now : Z) (v : NewWorkout.t) (c : Pg.CalDate)
    : Workout.t :=
  Workout.mk (workouts_id_seq db + 1) (NewWorkout.userId v) (Pg.date_out c)
    (NewWorkout.name v) (NewWorkout.durationMinutes v) (NewWorkout.notes v) now now.

Definition override {A} (new old : option A) : option A :=
  match new with
  | Some _ => new
  | None => old
  end.

Definition updated_row (u : WorkoutUpdate.t) (c : option Pg.CalDate) (r : Workout.t)
    : Workout.t :=
  Workout.mk (Workout.id r) (Workout.userId r)
    (match c with Some d => Pg.date_out d | None => Workout.date r end)
    (override (WorkoutUpdate.name u) (Workout.name r))
    (override (WorkoutUpdate.durationMinutes u) (Workout.durationMinutes r))
    (override (WorkoutUpdate.notes u) (Workout.notes r))
    (Workout.createdAt r) (Workout.updatedAt r).

Definition with_workouts (db : Database) (ws : list Workout.t) : Database :=
  mkDatabase ws (workoutExercises db) (exercises db) (sets db) (workouts_id_seq db).

(** Deleting workouts cascades to their exercises and on to the sets of
    those ([onDelete: 'cascade']). *)
Definition delete_cascade (db : Database) (where_ : list Cond) : Database :=
  let gone := map Workout.id (filter (matches where_) (workouts db)) in
  let is_gone := fun i => existsb (Z.eqb i) gone in
  let gone_we :=
    map WorkoutExercise.id
      (filter (fun we => is_gone (WorkoutExercise.workoutId we)) (workoutExercises db)) in
  mkDatabase
    (filter (fun r => negb (matches where_ r)) (workouts db))
    (filter (fun we => negb (is_gone (WorkoutExercise.workoutId we))) (workoutExercises db))
    (exercises db)
    (filter (fun s => negb (existsb (Z.eqb (SetRow.workoutExerciseId s)) gone_we)) (sets db))
    (workouts_id_seq db).

(** What each statement returns and the store it leaves, [None] when the
    engine rejects it. *)
Definition exec_select (db : Database) (where_ : list Cond)
    (orderBy : option OrderBy) (limit : option Z) : option (list Workout.t) :=
  if forallb cond_ok where_
  then Some (apply_limit limit (order_rows orderBy (filter (matches where_) (workouts db))))
  else None.

(** The distinct dates of the matching rows. With an [orderBy] they come
    sorted; without one they come as the engine arranges them, which is
    given by [rank]: lower ranks first. *)
Definition exec_selectDistinct_date (db : Database) (rank : string -> Z)
    (where_ : list Cond) (orderBy : option OrderBy) : option (list string) :=
  if forallb cond_ok where_
  then
    let ds := distinct (map Workout.date (filter (matches where_) (workouts db))) in
    Some (match orderBy with
          | Some ob => stable_sort (date_text_order ob) ds
          | None => stable_sort (fun a b => rank a <=? rank b) ds
          end)
  else None.

Definition exec_findMany (db : Database) (where_ : list Cond)
    (orderBy : option OrderBy) (with_ : option With.WorkoutExercises)
    : option (list WorkoutWithDetails.t) :=
  if forallb cond_ok where_
  then Some (map (with_details db with_)
               (order_rows orderBy (filter (matches where_) (workouts db))))
  else None.

Definition exec_insert (db : Database) (now : Z) (v : NewWorkout.t)
    : option (list Workout.t * Database) :=
  if Pg.opt_int4 (NewWorkout.durationMinutes v)
  then
    match Pg.date_in (NewWorkout.date v) with
    | Some c =>
        let r := inserted_row db now v c in
        Some ([r],
              mkDatabase (workouts db ++ [r]) (workoutExercises db) (exercises db)
                (sets db) (workouts_id_seq db + 1))
    | None => None
    end
  else None.

Definition exec_update (db : Database) (u : WorkoutUpdate.t) (where_ : list Cond)
    : option (list Workout.t * Database) :=
  let go := fun c : option Pg.CalDate =>
    Some (map (updated_row u c) (filter (matches where_) (workouts db)),
          with_workouts db
            (map (fun r => if matches where_ r then updated_row u c r else r)
               (workouts db))) in
  if forallb cond_ok where_ && Pg.opt_int4 (WorkoutUpdate.durationMinutes u)
  then match WorkoutUpdate.date u with
       | Some d => match Pg.date_in d with
                   | Some c => go (Some c)
                   | None => None
                   end
       | None => go None
       end
  else None.

Definition exec_delete (db : Database) (where_ : list Cond)
    : option (list Workout.t * Database) :=
  if forallb cond_ok where_
  then Some (filter (matches where_) (workouts db), delete_cascade db where_)
  else None.

(** ** Schema validation (the [zod] schemas of the server actions)

    An issue carries the message the action reports: the text given with
    the check, or the library's default for that kind of check. *)

Module Zod.

Inductive IssueKind : Type :=
| too_small (minimum : Z)
| too_big (maximum : Z)
| not_integer
| not_positive.

Inductive Message : Type :=
| Text (s : string)
| Default (k : IssueKind).

(** A finite JavaScript number as a fraction ([NaN] and the infinities,
    which these schemas reject as well, are left out). *)
Definition number : Type := Q.

Definition isInteger (n : number) : bool := Qnum n mod Zpos (Qden n) =? 0.
Definition isPositive (n : number) : bool := 0 <? Qnum n.
Definition toInteger (n : number) : Z := Qnum n / Zpos (Qden n).

Definition len (s : string) : Z := Z.of_nat (String.length s).

(** [z.string().min(n, msg)] *)
Definition min_ (n : Z) (msg : option string) (s : string) : list Message :=
  if len s <? n
  then [match msg with Some m => Text m | None => Default (too_small n) end]
  else [].

(** [z.string().max(n)] *)
Definition max_ (n : Z) (s : string) : list Message :=
  if n <? len s then [Default (too_big n)] else [].

(** [z.number().int().positive()] *)
Definition int_positive (n : number) : list Message :=
  (if isInteger n then [] else [Default not_integer])
  ++ (if isPositive n then [] else [Default not_positive]).

Definition optional {A} (check : A -> list Message) (x : option A) : list Message :=
  match x with
  | Some v => check v
  | None => []
  end.

End Zod.

(** ** Effects

    An operation runs in a world: what the identity provider resolves for
    the request, the host's time zone and clock, the store, the statements
    sent to the store so far and the paths revalidated so far. It returns
    or throws.

    Where a statement asks for no order, the order of its rows is the
    engine's choice. For the distinct dates of a statement it is given by
    [scan_rank]: the rank the engine gives each date text, lower ranks
    first. Nothing is assumed of it. *)

Inductive Exn : Type :=
| Error (message : string)
| RangeError (message : string)
| ZodError (issues : list Zod.Message)
| TypeError (message : string)
| DbError
| Redirect (url : string).

Record World : Type := mkWorld
  { session : option string;
    tza : Z;
    clock : Z;
    db : Database;
    log : list Statement;
    revalidated : list string;
    scan_rank : string -> Z }.

Inductive Outcome (A : Type) : Type :=
| Returned (a : A)
| Thrown (e : Exn).

Arguments Returned {A} a.
Arguments Thrown {A} e.

Definition M (A : Type) : Type := World -> Outcome A * World.

Definition ret {A} (a : A) : M A := fun w => (Returned a, w).

Definition throw {A} (e : Exn) : M A := fun w => (Thrown e, w).

Definition bind {A B} (m : M A) (k : A -> M B) : M B :=
  fun w =>
    match m w with
    | (Returned a, w') => k a w'
    | (Thrown e, w') => (Thrown e, w')
    end.

Definition try_catch {A} (m : M A) (handler : Exn -> M A) : M A :=
  fun w =>
    match m w with
    | (Returned a, w') => (Returned a, w')
    | (Thrown e, w') => handler e w'
    end.

Declare Scope m_scope.
Delimit Scope m_scope with M.
Notation "x <- m ;; k" := (bind m (fun x => k))
  (at level 61, m at next level, right associativity) : m_scope.
Notation "m ;;; k" := (bind m (fun _ => k))
  (at level 61, right associativity) : m_scope.
Open Scope m_scope.

Fixpoint mapM {A B} (f : A -> M B) (l : list A) : M (list B) :=
  match l with
  | [] => ret []
  | x :: t => y <- f x ;; ys <- mapM f t ;; ret (y :: ys)
  end.

(** [auth()] of the identity provider. *)
Definition auth : M (option string) := fun w => (Returned (session w), w).

Definition host_tza : M Z := fun w => (Returned (tza w), w).

(** [revalidatePath(path)] *)
Definition revalidatePath (path : string) : M unit :=
  fun w =>
    (Returned tt,
     mkWorld (session w) (tza w) (clock w) (db w) (log w) (revalidated w ++ [path])
       (scan_rank w)).

(** [redirect(url)] leaves by throwing. *)
Definition redirect {A} (url : string) : M A := throw (Redirect url).

(** Sending a statement: it is logged, then it returns its rows or the
    engine's rejection is thrown. *)
Definition send {A} (s : Statement) (run : World -> option (A * Database)) : M A :=
  fun w =>
    let logged := fun d =>
      mkWorld (session w) (tza w) (clock w) d (log w ++ [s]) (revalidated w)
        (scan_rank w) in
    match run w with
    | Some (a, d) => (Returned a, logged d)
    | None => (Thrown DbError, logged (db w))
    end.

Definition read_only {A} (w : World) (r : option A) : option (A * Database) :=
  option_map (fun a => (a, db w)) r.

Module Db.

Definition select (where_ : list Cond) (orderBy : option OrderBy) (limit : option Z)
    : M (list Workout.t) :=
  send (select_workouts where_ orderBy limit)
    (fun w => read_only w (exec_select (db w) where_ orderBy limit)).

Definition selectDistinct_date (where_ : list Cond) (orderBy : option OrderBy)
    : M (list string) :=
  send (selectDistinct_date where_ orderBy)
    (fun w =>
       read_only w (exec_selectDistinct_date (db w) (scan_rank w) where_ orderBy)).

Definition select_exercise_data (workoutId : Z) : M (list Joined.t) :=
  send (select_exercise_data workoutId)
    (fun w => Some (exercise_data (db w) workoutId, db w)).

Definition findMany (where_ : list Cond) (orderBy : option OrderBy)
    (with_ : option With.WorkoutExercises) : M (list WorkoutWithDetails.t) :=
  send (findMany_workouts where_ orderBy with_)
    (fun w => read_only w (exec_findMany (db w) where_ orderBy with_)).

Definition insert (values : NewWorkout.t) : M (list Workout.t) :=
  send (insert_workouts values) (fun w => exec_insert (db w) (clock w) values).

(** [.set(values)] refuses an object with no defined value before anything
    is sent. *)
Definition no_values (set : WorkoutUpdate.t) : bool :=
  match WorkoutUpdate.name set, WorkoutUpdate.date set,
        WorkoutUpdate.durationMinutes set, WorkoutUpdate.notes set with
  | None, None, None, None => true
  | _, _, _, _ => false
  end.

Definition update (set : WorkoutUpdate.t) (where_ : list Cond) : M (list Workout.t) :=
  if no_values set then throw (Error "No values to set")
  else send (update_workouts set where_) (fun w => exec_update (db w) set where_).

Definition delete (where_ : list Cond) : M (list Workout.t) :=
  send (delete_workouts where_) (fun w => exec_delete (db w) where_).

End Db.

(** [if (!userId) throw new Error("Unauthorized")]: [null] and the empty
    string are falsy. *)
Definition requireUser (userId : option string) : M string :=
  match userId with
  | Some u => if String.eqb u EmptyString then throw (Error "Unauthorized") else ret u
  | None => throw (Error "Unauthorized")
  end.

(** [const [row] = rows]: the first row, or [undefined]. *)
Definition first {A} (rows : list A) : option A := Js.index rows 0.

(** An insertion-ordered [Map] with numeric keys. *)
Module JsMap.

Definition t (V : Type) : Type := list (Z * V).

Fixpoint get {V} (k : Z) (m : t V) : option V :=
  match m with
  | [] => None
  | (k', v) :: r => if k =? k' then Some v else get k r
  end.

Definition has {V} (k : Z) (m : t V) : bool :=
  match get k m with
  | Some _ => true
  | None => false
  end.

(** [m.set(k, v)]: an existing key keeps its place, a new one goes last. *)
Fixpoint set {V} (k : Z) (v : V) (m : t V) : t V :=
  match m with
  | [] => [(k, v)]
  | (k', v') :: r => if k =? k' then (k, v) :: r else (k', v') :: set k v r
  end.

Definition values {V} (m : t V) : list V := map snd m.
Definition keys {V} (m : t V) : list Z := map fst m.

End JsMap.

(** ** [data/workouts.ts]: the read layer of the dashboard *)

Module SetView.
Record t : Type := mk
  { setNumber : Z; weight : option Z; reps : Z; rpe : option Z;
    isBodyweight : bool }.
End SetView.

Module ExerciseView.
Record t : Type := mk
  { id : Z; name : string; sets : list SetView.t }.
End ExerciseView.

Module WorkoutView.
Record t : Type := mk
  { id : Z; name : option string; date : JsDate.Date;
    durationMinutes : option Z; notes : option string;
    exercises : list ExerciseView.t }.
End WorkoutView.

Module Data.

(** The set pushed for a row. The weight text of a [numeric] column is never
    empty, so a stored weight always passes the truthiness test; the number
    [parseFloat] reads from it is kept as the exact decimal. *)
Definition setView (s : SetRow.t) : SetView.t :=
  SetView.mk (SetRow.setNumber s) (SetRow.weight s) (SetRow.reps s)
    (SetRow.rpe s) (SetRow.isBodyweight s).

(** The body of [workoutExercisesForWorkout.forEach(item => ...)]. *)
Definition addItem (exercisesMap : JsMap.t ExerciseView.t) (item : Joined.t)
    : JsMap.t ExerciseView.t :=
  let exerciseId := WorkoutExercise.exerciseId (Joined.workoutExercise item) in
  let m :=
    if negb (JsMap.has exerciseId exercisesMap)
    then JsMap.set exerciseId
           (ExerciseView.mk (Exercise.id (Joined.exercise item))
              (Exercise.name (Joined.exercise item)) [])
           exercisesMap
    else exercisesMap in
  match Joined.set item with
  | Some s =>
      match JsMap.get exerciseId m with
      | Some e =>
          JsMap.set exerciseId
            (ExerciseView.mk (ExerciseView.id e) (ExerciseView.name e)
               (ExerciseView.sets e ++ [setView s]))
            m
      | None => m
      end
  | None => m
  end.

(** [sets.sort((a, b) => a.setNumber - b.setNumber)] *)
Definition sortSets (e : ExerciseView.t) : ExerciseView.t :=
  ExerciseView.mk (ExerciseView.id e) (ExerciseView.name e)
    (stable_sort (fun a b => SetView.setNumber a - SetView.setNumber b <=? 0)
       (ExerciseView.sets e)).

(** Group the flat rows of one workout by exercise, sort each group's sets,
    and list the groups: [Array.from(exercisesMap.values())]. *)
Definition groupExercises (rows : list Joined.t) : list ExerciseView.t :=
  let exercisesMap := fold_left addItem rows [] in
  JsMap.values (map (fun kv => (fst kv, sortSets (snd kv))) exercisesMap).

Definition workoutView (allWorkoutExerciseData : list (Z * list Joined.t))
    (workout : Workout.t) : WorkoutView.t :=
  let workoutData :=
    find (fun item => fst item =? Workout.id workout) allWorkoutExerciseData in
  let workoutExercisesForWorkout :=
    match workoutData with
    | Some item => snd item
    | None => []
    end in
  WorkoutView.mk (Workout.id workout) (Workout.name workout)
    (JsDate.parse (Workout.date workout)) (Workout.durationMinutes workout)
    (Workout.notes workout) (groupExercises workoutExercisesForWorkout).

Definition getWorkoutsByDate (date : JsDate.Date) : M (list WorkoutView.t) :=
  session_user <- auth ;;
  userId <- requireUser session_user ;;
  z <- host_tza ;;
  let dateString := formatDateForDb z date in
  userWorkouts <-
    Db.select [eq_userId userId; eq_date dateString] (Some desc_createdAt) None ;;
  if (List.length userWorkouts =? 0)%nat then ret []
  else
    let workoutIds := map Workout.id userWorkouts in
    allWorkoutExerciseData <-
      mapM (fun workoutId =>
              data <- Db.select_exercise_data workoutId ;;
              ret (workoutId, data))
        workoutIds ;;
    ret (map (workoutView allWorkoutExerciseData) userWorkouts).

Definition getWorkoutDatesForMonth (year month : Z) : M (list JsDate.Date) :=
  session_user <- auth ;;
  userId <- requireUser session_user ;;
  z <- host_tza ;;
  let startDate := JsDate.newDate z (Some year) (Some month) (Some 1) in
  let endDate := JsDate.newDate z (Some year) (Some (month + 1)) (Some 0) in
  let startDateString := formatDateForDb z startDate in
  let endDateString := formatDateForDb z endDate in
  result <-
    Db.selectDistinct_date
      [eq_userId userId; gte_date startDateString; lte_date endDateString] None ;;
  ret (map (parseDateFromDb z) result).

End Data.

(** ** [src/data/workouts.ts]: the mutation helpers *)

Module SrcData.

Record CreateData : Type := mkCreateData
  { name : string; date : JsDate.Date;
    durationMinutes : option Z; notes : option string }.

Record UpdateData : Type := mkUpdateData
  { u_name : option string; u_date : option JsDate.Date;
    u_durationMinutes : option Z; u_notes : option string }.

(** [d.toISOString().split("T")[0]] *)
Definition isoDay (d : JsDate.Date) : M string :=
  match JsDate.toISOString d with
  | Some s => ret (hd EmptyString (Js.split "T"%char s))
  | None => throw (RangeError "Invalid time value")
  end.

Definition createWorkout (data : CreateData) : M (option Workout.t) :=
  session_user <- auth ;;
  userId <- requireUser session_user ;;
  day <- isoDay (date data) ;;
  rows <- Db.insert
            (NewWorkout.mk userId day (Some (name data)) (durationMinutes data)
               (notes data)) ;;
  ret (first rows).

Definition getRecentWorkouts (limit : option Z) : M (list Workout.t) :=
  let limit := match limit with Some n => n | None => 10 end in
  session_user <- auth ;;
  userId <- requireUser session_user ;;
  Db.select [eq_userId userId] (Some desc_date) (Some limit).

Definition getWorkoutById (workoutId : Z) : M (option Workout.t) :=
  session_user <- auth ;;
  userId <- requireUser session_user ;;
  rows <- Db.select [eq_id workoutId; eq_userId userId] None (Some 1) ;;
  ret (first rows).

Definition updateWorkout (workoutId : Z) (data : UpdateData) : M (option Workout.t) :=
  session_user <- auth ;;
  userId <- requireUser session_user ;;
  day <- match u_date data with
         | Some d => s <- isoDay d ;; ret (Some s)
         | None => ret None
         end ;;
  let updateData :=
    WorkoutUpdate.mk (u_name data) day (u_durationMinutes data) (u_notes data) in
  rows <- Db.update updateData [eq_id workoutId; eq_userId userId] ;;
  ret (first rows).

Definition deleteWorkout (workoutId : Z) : M (option Workout.t) :=
  session_user <- auth ;;
  userId <- requireUser session_user ;;
  rows <- Db.delete [eq_id workoutId; eq_userId userId] ;;
  ret (first rows).

End SrcData.

(** ** [src/db/queries]: reads that take the user as an argument *)

Module Queries.

Definition getWorkoutsByUserAndDate (userId date : string)
    : M (list WorkoutWithDetails.t) :=
  Db.findMany [eq_userId userId; eq_date date] (Some desc_createdAt)
    (Some (With.mk (Some asc_order) true (Some (With.mkSets (Some asc_setNumber))))).

Definition getWorkoutDatesForUser (userId startDate endDate : string)
    : M (list string) :=
  Db.selectDistinct_date
    [eq_userId userId; gte_date startDate; lte_date endDate] (Some asc_date).

End Queries.

(** ** [lib/actions/workouts.ts]: quick create from the dashboard *)

Module LibActions.

Definition createWorkout (date : string) (name : option string) : M unit :=
  session_user <- auth ;;
  userId <- requireUser session_user ;;
  rows <- Db.insert
            (NewWorkout.mk userId date (Some (Js.or_else name "Untitled Workout"))
               None None) ;;
  revalidatePath "/dashboard" ;;;
  match first rows with
  | Some newWorkout =>
      redirect ("/workout/" +++ Js.String_of (Workout.id newWorkout) +++ "/edit")
  | None => throw (TypeError "Cannot read properties of undefined")
  end.

End LibActions.

(** ** Server actions with schema validation
    ([app/dashboard/workout/new/actions.ts] and the actions of the edit
    page) *)

Inductive ActionResult (A : Type) : Type :=
| Success (data : A)
| Failure (error : Zod.Message).

Arguments Success {A} data.
Arguments Failure {A} error.

(** [schema.parse(input)]: the input back, or a [ZodError] with the issues
    in the order of the schema's keys and checks. *)
Definition zodParse {A} (issues : A -> list Zod.Message) (input : A) : M A :=
  match issues input with
  | [] => ret input
  | l => throw (ZodError l)
  end.

(** The [catch] block of an action: the first issue's message for a
    [ZodError], the action's own text for anything else. *)
Definition onError {A} (fallback : string) (e : Exn) : M (ActionResult A) :=
  match e with
  | ZodError (i :: _) => ret (Failure i)
  | ZodError [] => throw (TypeError "Cannot read properties of undefined")
  | _ => ret (Failure (Zod.Text fallback))
  end.

Module NewActions.

Record Input : Type := mkInput
  { name : string; date : string;
    durationMinutes : option Zod.number; notes : option string }.

Definition createWorkoutSchema (i : Input) : list Zod.Message :=
  (Zod.min_ 1 (Some "Workout name is required") (name i) ++ Zod.max_ 100 (name i))
  ++ Zod.min_ 1 (Some "Date is required") (date i)
  ++ Zod.optional Zod.int_positive (durationMinutes i)
  ++ Zod.optional (Zod.max_ 1000) (notes i).

Definition createWorkoutAction (input : Input)
    : M (ActionResult (option Workout.t)) :=
  try_catch
    (validatedData <- zodParse createWorkoutSchema input ;;
     workout <-
       SrcData.createWorkout
         (SrcData.mkCreateData (name validatedData)
            (JsDate.parse (date validatedData))
            (option_map Zod.toInteger (durationMinutes validatedData))
            (notes validatedData)) ;;
     revalidatePath "/dashboard" ;;;
     ret (Success workout))
    (onError "Failed to create workout").

End NewActions.

Module EditActions.

Record UpdateInput : Type := mkUpdateInput
  { id : Zod.number; name : string; date : string;
    durationMinutes : option Zod.number; notes : option string }.

Record DeleteInput : Type := mkDeleteInput
  { d_id : Zod.number }.

Definition updateWorkoutSchema (i : UpdateInput) : list Zod.Message :=
  Zod.int_positive (id i)
  ++ (Zod.min_ 1 (Some "Workout name is required") (name i) ++ Zod.max_ 100 (name i))
  ++ Zod.min_ 1 (Some "Date is required") (date i)
  ++ Zod.optional Zod.int_positive (durationMinutes i)
  ++ Zod.optional (Zod.max_ 1000) (notes i).

Definition deleteWorkoutSchema (i : DeleteInput) : list Zod.Message :=
  Zod.int_positive (d_id i).

Definition updateWorkoutAction (input : UpdateInput)
    : M (ActionResult Workout.t) :=
  try_catch
    (validatedData <- zodParse updateWorkoutSchema input ;;
     let id := Zod.toInteger (id validatedData) in
     workout <-
       SrcData.updateWorkout id
         (SrcData.mkUpdateData (Some (name validatedData))
            (Some (JsDate.parse (date validatedData)))
            (option_map Zod.toInteger (durationMinutes validatedData))
            (notes validatedData)) ;;
     match workout with
     | None => ret (Failure (Zod.Text "Workout not found or unauthorized"))
     | Some w =>
         revalidatePath "/dashboard" ;;;
         revalidatePath ("/dashboard/workout/" +++ Js.String_of id) ;;;
         ret (Success w)
     end)
    (onError "Failed to update workout").

Definition deleteWorkoutAction (input : DeleteInput)
    : M (ActionResult Workout.t) :=
  try_catch
    (validatedData <- zodParse deleteWorkoutSchema input ;;
     deleted <- SrcData.deleteWorkout (Zod.toInteger (d_id validatedData)) ;;
     match deleted with
     | None => ret (Failure (Zod.Text "Workout not found or unauthorized"))
     | Some w =>
         revalidatePath "/dashboard" ;;;
         ret (Success w)
     end)
    (onError "Failed to delete workout").

End EditActions.

(** ** [app/dashboard/page.tsx]: the dashboard page

    The server component reads the [date] search parameter, fetches the
    workouts of that day and the workout dates of its month, and hands the
    three to the client component. *)

Module Page.

Record Props : Type := mkProps
  { workouts : list WorkoutView.t;
    selectedDate : JsDate.Date;
    workoutDates : list JsDate.Date }.

(** [new Date()]: the host's clock. *)
Definition now : M JsDate.Date := fun w => (Returned (Some (clock w)), w).

(** [getWorkoutDatesForMonth(selectedDate.getFullYear(), selectedDate.getMonth())].
    Both arguments of an Invalid Date are [NaN]; both ends of the month are
    then Invalid Date as well. *)
Definition getWorkoutDatesForMonth (year month : option Z) : M (list JsDate.Date) :=
  match year, month with
  | Some y, Some m => Data.getWorkoutDatesForMonth y m
  | _, _ =>
      session_user <- auth ;;
      userId <- requireUser session_user ;;
      z <- host_tza ;;
      let startDate := JsDate.newDate z year month (Some 1) in
      let endDate :=
        JsDate.newDate z year (option_map (fun m => m + 1) month) (Some 0) in
      let startDateString := formatDateForDb z startDate in
      let endDateString := formatDateForDb z endDate in
      result <-
        Db.selectDistinct_date
          [eq_userId userId; gte_date startDateString; lte_date endDateString] None ;;
      ret (map (parseDateFromDb z) result)
  end.

(** [params.date ? parseDateFromDb(params.date) : new Date()]: an absent and
    an empty parameter are falsy. *)
Definition DashboardPage (date : option string) : M Props :=
  z <- host_tza ;;
  selectedDate <-
    match date with
    | Some s => if String.eqb s EmptyString then now else ret (parseDateFromDb z s)
    | None => now
    end ;;
  workouts <- Data.getWorkoutsByDate selectedDate ;;
  workoutDates <-
    getWorkoutDatesForMonth (JsDate.getFullYear z selectedDate)
      (JsDate.getMonth z selectedDate) ;;
  ret (mkProps workouts selectedDate workoutDates).

End Page.

(** ** [app/dashboard/dashboard-content.tsx]: the figures of a workout card *)

Module Content.

(** [workout.exercises.length] *)
Definition exerciseCount (workout : WorkoutView.t) : Z :=
  Z.of_nat (List.length (WorkoutView.exercises workout)).

(** [workout.exercises.reduce((sum, ex) => sum + ex.sets.length, 0)] *)
Definition totalSets (workout : WorkoutView.t) : Z :=
  fold_left (fun sum ex => sum + Z.of_nat (List.length (ExerciseView.sets ex)))
    (WorkoutView.exercises workout) 0.

End Content.

(** ** Notions used in the statements of the properties *)

(** The character [c] does not occur in [s]. *)
Fixpoint no_char (c : ascii) (s : string) : bool :=
  match s with
  | EmptyString => true
  | String a r => negb (Ascii.eqb a c) && no_char c r
  end.

(** The grouping key of a joined row and the set view it contributes. *)
Definition exerciseKey (r : Joined.t) : Z :=
  WorkoutExercise.exerciseId (Joined.workoutExercise r).

Definition setViews (r : Joined.t) : list SetView.t :=
  match Joined.set r with
  | Some s => [Data.setView s]
  | None => []
  end.

Definition rowsOf (k : Z) (rows : list Joined.t) : list Joined.t :=
  filter (fun r => exerciseKey r =? k) rows.

(** The join condition [eq(workoutExercises.exerciseId, exercises.id)]. *)
Definition joined (r : Joined.t) : Prop :=
  Exercise.id (Joined.exercise r) = exerciseKey r.

Definition bySetNumber (a b : SetView.t) : Prop :=
  SetView.setNumber a <= SetView.setNumber b.

(** What the map holds after the rows [rows] went through [addItem]: one
    key per exercise id seen, each entry named after a row of its group and
    holding the set views of its group in row order. *)
Definition grouped (rows : list Joined.t) (m : JsMap.t ExerciseView.t) : Prop :=
  NoDup (JsMap.keys m)
  /\ (forall k, In k (JsMap.keys m) <-> In k (map exerciseKey rows))
  /\ (forall k v, In (k, v) m ->
        ExerciseView.sets v = flat_map setViews (rowsOf k rows)
        /\ exists r, In r rows /\ exerciseKey r = k
             /\ ExerciseView.id v = Exercise.id (Joined.exercise r)
             /\ ExerciseView.name v = Exercise.name (Joined.exercise r)).

(** A world after more statements were sent, the store unchanged. *)
Definition logged (w : World) (l : list Statement) : World :=
  mkWorld (session w) (tza w) (clock w) (db w) (log w ++ l) (revalidated w)
    (scan_rank w).

(** The same request against another store. *)
Definition on_store (w : World) (d : Database) : World :=
  mkWorld (session w) (tza w) (clock w) d (log w) (revalidated w) (scan_rank w).

(** The rows [getWorkoutsByDate] builds its answer from. *)
Definition workoutsOn (u ds : string) (d : Database) : list Workout.t :=
  stable_sort (order_leb desc_createdAt)
    (filter (matches [eq_userId u; eq_date ds]) (workouts d)).

(** The local calendar date of a time value, as the store reads dates. *)
Definition localDay (offset t : Z) : Pg.CalDate :=
  (JsDate.YearFromTime (JsDate.LocalTime offset t),
   JsDate.MonthFromTime (JsDate.LocalTime offset t) + 1,
   JsDate.DateFromTime (JsDate.LocalTime offset t)).

(** A workout of user [u] dated [c]. *)
Definition ownedOn (u : string) (c : Pg.CalDate) (r : Workout.t) : Prop :=
  Workout.userId r = u /\ Pg.date_in (Workout.date r) = Some c.

(** Does a statement carry the ownership predicate for [u]: the comparison
    [eq(workouts.userId, u)] in its [where], or [u] as the owner of the row
    it inserts. *)
Definition is_owner_cond (u : string) (c : Cond) : bool :=
  match c with
  | eq_userId v => String.eqb v u
  | _ => false
  end.

Definition owner_scoped (u : string) (s : Statement) : bool :=
  match s with
  | select_workouts wh _ _ => existsb (is_owner_cond u) wh
  | selectDistinct_date wh _ => existsb (is_owner_cond u) wh
  | findMany_workouts wh _ _ => existsb (is_owner_cond u) wh
  | update_workouts _ wh => existsb (is_owner_cond u) wh
  | delete_workouts wh => existsb (is_owner_cond u) wh
  | insert_workouts v => String.eqb (NewWorkout.userId v) u
  | select_exercise_data _ => false
  end.

(** The part of the store that belongs to [u]: the workouts [u] owns, the
    exercises of those workouts, the sets of those exercises, and the shared
    exercise catalogue. *)
Definition visible (u : string) (d : Database) : Database :=
  let ws := filter (fun r => String.eqb (Workout.userId r) u) (workouts d) in
  let wes :=
    filter (fun we => existsb (fun r => Workout.id r =? WorkoutExercise.workoutId we) ws)
      (workoutExercises d) in
  let ss :=
    filter (fun s => existsb (fun we => WorkoutExercise.id we =? SetRow.workoutExerciseId s) wes)
      (sets d) in
  mkDatabase ws wes (exercises d) ss 0.


(** The rows an update or delete by [u] of workout [workoutId] may touch. *)
Definition targets (u : string) (workoutId : Z) (r : Workout.t) : bool :=
  matches [eq_id workoutId; eq_userId u] r.

(** The non-target rows of a table, in order. *)
Definition others (u : string) (workoutId : Z) (ws : list Workout.t) : list Workout.t :=
  filter (fun r => negb (targets u workoutId r)) ws.



(** The first rule of the create schema a request breaks, rule by rule in
    the order of the schema: name present, name at most 100 characters, date
    present, duration an integer, duration positive, notes at most 1000
    characters. *)
Definition durationViolation (n : option Zod.number) : option Zod.Message :=
  match n with
  | Some q =>
      if negb (Zod.isInteger q) then Some (Zod.Default Zod.not_integer)
      else if negb (Zod.isPositive q) then Some (Zod.Default Zod.not_positive)
      else None
  | None => None
  end.

Definition notesViolation (s : option string) : option Zod.Message :=
  match s with
  | Some t => if 1000 <? Zod.len t then Some (Zod.Default (Zod.too_big 1000)) else None
  | None => None
  end.

Definition payloadViolation (name date : string) (duration : option Zod.number)
    (notes : option string) : option Zod.Message :=
  if Zod.len name <? 1 then Some (Zod.Text "Workout name is required")
  else if 100 <? Zod.len name then Some (Zod.Default (Zod.too_big 100))
  else if Zod.len date <? 1 then Some (Zod.Text "Date is required")
  else match durationViolation duration with
       | Some m => Some m
       | None => notesViolation notes
       end.

Definition createViolation (i : NewActions.Input) : option Zod.Message :=
  payloadViolation (NewActions.name i) (NewActions.date i)
    (NewActions.durationMinutes i) (NewActions.notes i).

Definition updateViolation (i : EditActions.UpdateInput) : option Zod.Message :=
  match durationViolation (Some (EditActions.id i)) with
  | Some m => Some m
  | None =>
      payloadViolation (EditActions.name i) (EditActions.date i)
        (EditActions.durationMinutes i) (EditActions.notes i)
  end.

Definition deleteViolation (i : EditActions.DeleteInput) : option Zod.Message :=
  durationViolation (Some (EditActions.d_id i)).

(** A statement that only reads. *)
Definition is_select (s : Statement) : bool :=
  match s with
  | select_workouts _ _ _ => true
  | selectDistinct_date _ _ => true
  | select_exercise_data _ => true
  | findMany_workouts _ _ _ => true
  | insert_workouts _ => false
  | update_workouts _ _ => false
  | delete_workouts _ => false
  end.

(** An operation that, whatever it returns or throws, leaves the world as it
    found it but for read statements added to the log. *)
Definition only_reads {A} (m : M A) : Prop :=
  forall w, exists l, snd (m w) = logged w l /\ forallb is_select l = true.

(** The text a [date] column reads back as. *)
Definition canonical_date (s : string) : Prop :=
  exists y m d, Pg.valid_date y m d = true /\ s = Pg.date_out (y, m, d).

(** What the schema guarantees of a store: workout ids are unique and were
    drawn from the sequence, dates are calendar dates, every exercise entry
    belongs to a workout and every set to an exercise entry. *)
Definition well_formed (d : Database) : Prop :=
  NoDup (map Workout.id (workouts d))
  /\ (forall r, In r (workouts d) -> Workout.id r <= workouts_id_seq d)
  /\ (forall r, In r (workouts d) -> canonical_date (Workout.date r))
  /\ (forall we, In we (workoutExercises d) ->
        exists r, In r (workouts d) /\ Workout.id r = WorkoutExercise.workoutId we)
  /\ (forall s, In s (sets d) ->
        exists we, In we (workoutExercises d)
                   /\ WorkoutExercise.id we = SetRow.workoutExerciseId s).

(** The date text [a] is no later than [b]. *)
Definition not_after (a b : string) : Prop :=
  Pg.date_cmp Pg.date_leb a b = true.

(** What identifies a workout row and records its origin: the id, the
    owner and the two timestamps. *)
Definition row_identity (r : Workout.t) : Z * string * Z * Z :=
  (Workout.id r, Workout.userId r, Workout.createdAt r, Workout.updatedAt r).

(** An operation that keeps a property of the store. *)
Definition preserves (Inv : Database -> Prop) {A} (m : M A) : Prop :=
  forall w, Inv (db w) -> Inv (db (snd (m w))).

(** The errors the helpers throw themselves or pass on from the store. *)
Definition plain (e : Exn) : Prop :=
  match e with
  | Error _ | RangeError _ | DbError => True
  | _ => False
  end.

(** ** Sample data

    Two users. Alice has two workouts on 1 September 2025, the later one
    stored first, and one on 31 August; Bob has one on 1 September. Alice's
    first workout lists two exercises: a bench press with three sets stored
    out of order, and a row with no set yet. *)

Module Sample.

Definition push : Workout.t :=
  Workout.mk 1 "alice" "2025-09-01" (Some "Push") (Some 60) None 1000 1000.
Definition pull : Workout.t :=
  Workout.mk 2 "alice" "2025-09-01" (Some "Pull") None None 2000 2000.
Definition legs : Workout.t :=
  Workout.mk 3 "bob" "2025-09-01" (Some "Legs") None None 1500 1500.
Definition august : Workout.t :=
  Workout.mk 4 "alice" "2025-08-31" None None None 500 500.

Definition bench : Exercise.t := Exercise.mk 10 "Bench press" None 0 0.
Definition row : Exercise.t := Exercise.mk 11 "Barbell row" None 0 0.

Definition push_bench : WorkoutExercise.t := WorkoutExercise.mk 100 1 10 1 None 0.
Definition push_row : WorkoutExercise.t := WorkoutExercise.mk 101 1 11 2 None 0.
Definition legs_bench : WorkoutExercise.t := WorkoutExercise.mk 102 3 10 1 None 0.

Definition set_c : SetRow.t := SetRow.mk 1000 100 3 false (Some 8000) 5 None None 0.
Definition set_a : SetRow.t := SetRow.mk 1001 100 1 false (Some 6000) 8 None None 0.
Definition set_b : SetRow.t := SetRow.mk 1002 100 2 false None 6 (Some 8) None 0.
Definition set_bob : SetRow.t := SetRow.mk 1003 102 1 true None 12 None None 0.

Definition store : Database :=
  mkDatabase [pull; push; legs; august] [push_bench; push_row; legs_bench]
    [bench; row] [set_c; set_a; set_b; set_bob] 4.

(** The flat rows of Alice's first workout. *)
Definition push_rows : list Joined.t :=
  [ Joined.mk push_bench bench (Some set_c);
    Joined.mk push_bench bench (Some set_a);
    Joined.mk push_bench bench (Some set_b);
    Joined.mk push_row row None ].

(** September with the later day stored first. *)
Definition september : Database :=
  mkDatabase
    [ Workout.mk 1 "alice" "2025-09-15" (Some "Push") None None 1000 1000;
      Workout.mk 2 "alice" "2025-09-01" (Some "Pull") None None 2000 2000;
      Workout.mk 3 "alice" "2025-09-15" (Some "Legs") None None 3000 3000;
      Workout.mk 4 "alice" "2025-08-31" None None None 500 500;
      Workout.mk 5 "bob" "2025-09-07" None None None 700 700 ]
    [] [] [] 5.

(** A workout of Alice on each of the first twenty days of September 2025,
    stored in the order of the days. *)
Definition day_row (i : nat) : Workout.t :=
  Workout.mk (Z.of_nat i) "alice" ("2025-09-" +++ JsDate.pad 2 (Z.of_nat i))
    None None None (1000 * Z.of_nat i) (1000 * Z.of_nat i).

Definition twenty_days : Database :=
  mkDatabase (map day_row (seq 1 20)) [] [] [] 20.

(** An engine that yields the dates it is asked no order for by a hash of
    the day of the month. *)
Definition by_hash (s : string) : Z :=
  match Pg.date_in s with
  | Some (_, _, d) => (7 * d) mod 20
  | None => 0
  end.

(** A name of 101 characters. *)
Definition long_name : string := Js.repeat_char "x"%char 101.

(** 1 September 2025, noon UTC. *)
Definition noon : Z := 1756728000000.

(** A request by [user] on a host [offset] milliseconds from UTC, the
    engine leaving the rows it is asked no order for in storage order. *)
Definition world (user : option string) (offset : Z) (d : Database) : World :=
  mkWorld user offset 5000 d [] [] (fun _ => 0).

End Sample.

(** * Properties *)

Module JsFacts.
Import Js.

Lemma split_no_char sep s : no_char sep s = true -> split sep s = [s].
Proof.
  induction s as [|a r IH]; simpl; [reflexivity|].
  rewrite andb_true_iff, negb_true_iff. intros [Ha Hr].
  rewrite Ha, (IH Hr). reflexivity.
Qed.

Lemma split_app sep a b :
  no_char sep a = true -> split sep (a +++ String sep b) = a :: split sep b.
Proof.
  induction a as [|c r IH]; simpl.
  - intros _. rewrite Ascii.eqb_refl. reflexivity.
  - rewrite andb_true_iff, negb_true_iff. intros [Hc Hr].
    rewrite Hc, (IH Hr). reflexivity.
Qed.

Lemma split_app_sep sep a b :
  no_char sep a = true ->
  split sep (a +++ String sep EmptyString +++ b) = a :: split sep b.
Proof. apply split_app. Qed.

Lemma no_char_app c a b :
  no_char c (a +++ b) = no_char c a && no_char c b.
Proof.
  induction a as [|x r IH]; simpl; [reflexivity|].
  rewrite IH, andb_assoc. reflexivity.
Qed.

Lemma no_char_repeat c x n : Ascii.eqb x c = false -> no_char c (repeat_char x n) = true.
Proof. intros H. induction n; simpl; [reflexivity|]. rewrite H, IHn. reflexivity. Qed.

(** A string of decimal digits contains no other character. *)
Lemma digits_no_char c s d :
  uint_of_char c (Some Nil) = None ->
  NilEmpty.uint_of_string s = Some d -> no_char c s = true.
Proof.
  intros Hc. revert d. induction s as [|a r IH]; simpl; [reflexivity|].
  intros d H. destruct (NilEmpty.uint_of_string r) as [d'|] eqn:E; [|discriminate].
  rewrite (IH d' eq_refl), andb_true_r.
  destruct (Ascii.eqb_spec a c) as [->|]; [|reflexivity].
  exfalso. destruct c as [[|] [|] [|] [|] [|] [|] [|] [|]]; simpl in *; discriminate.
Qed.

Lemma Number_zero_prefix n s :
  Number (repeat_char "0" n +++ s) = Number s.
Proof.
  unfold Number. induction n as [|n IH]; simpl; [reflexivity|].
  destruct (NilEmpty.uint_of_string (repeat_char "0" n +++ s)) as [d|] eqn:E;
    destruct (NilEmpty.uint_of_string s) as [d'|]; simpl in *;
    try discriminate; try reflexivity.
  injection IH as IH. f_equal. unfold Z.of_uint in *. simpl. exact IH.
Qed.

Lemma String_of_nonneg n :
  0 <= n -> exists d, String_of n = NilEmpty.string_of_uint d /\ Z.of_uint d = n.
Proof.
  intros H. unfold String_of. destruct n as [|p|p]; [| |lia].
  - exists (D0 Nil). split; reflexivity.
  - exists (Pos.to_uint p). split.
    + simpl. unfold NilZero.string_of_uint.
      pose proof (DecimalPos.Unsigned.to_uint_nonnil p) as N.
      destruct (Pos.to_uint p); [contradiction|reflexivity..].
    + unfold Z.of_uint. rewrite DecimalPos.Unsigned.of_to. reflexivity.
Qed.

Lemma Number_String_of n : 0 <= n -> Number (String_of n) = Some n.
Proof.
  intros H. destruct (String_of_nonneg n H) as (d & E & V).
  unfold Number. rewrite E, NilEmpty.usu. simpl. rewrite V. reflexivity.
Qed.

Lemma Number_padStart k n : 0 <= n -> Number (padStart k "0" (String_of n)) = Some n.
Proof.
  intros H. unfold padStart. rewrite Number_zero_prefix. apply Number_String_of, H.
Qed.

Lemma length_app a b : String.length (a +++ b) = (String.length a + String.length b)%nat.
Proof. induction a as [|c a IH]; simpl; [reflexivity|]. rewrite IH. reflexivity. Qed.

Lemma length_repeat_char c n : String.length (repeat_char c n) = n.
Proof. induction n as [|n IH]; simpl; [reflexivity|]. rewrite IH. reflexivity. Qed.

Lemma length_padStart k c s :
  String.length (padStart k c s) = Nat.max k (String.length s).
Proof. unfold padStart. rewrite length_app, length_repeat_char. lia. Qed.

(** A number from 100 on prints with three digits or more. *)
Lemma String_of_wide n : 100 <= n -> (3 <= String.length (String_of n))%nat.
Proof.
  intros H. destruct (String_of_nonneg n ltac:(lia)) as (d & E & V). rewrite E.
  destruct (le_lt_dec 3 (String.length (NilEmpty.string_of_uint d))) as [L|L]; [exact L|].
  exfalso. assert (Z.of_uint d <= 99); [|lia]. clear - L.
  destruct d as [|d|d|d|d|d|d|d|d|d|d]; try (vm_compute; discriminate);
    destruct d as [|d|d|d|d|d|d|d|d|d|d]; try (vm_compute; discriminate);
    destruct d as [|d|d|d|d|d|d|d|d|d|d]; try (vm_compute; discriminate);
    simpl in L; lia.
Qed.

Lemma no_char_String_of c n :
  uint_of_char c (Some Nil) = None -> 0 <= n -> no_char c (String_of n) = true.
Proof.
  intros Hc H. destruct (String_of_nonneg n H) as (d & E & _).
  apply (digits_no_char c _ d Hc). rewrite E. apply NilEmpty.usu.
Qed.

Lemma no_char_padStart c k n :
  uint_of_char c (Some Nil) = None -> 0 <= n ->
  no_char c (padStart k "0" (String_of n)) = true.
Proof.
  intros Hc H. unfold padStart. rewrite no_char_app, no_char_String_of by assumption.
  rewrite no_char_repeat; [reflexivity|].
  destruct (Ascii.eqb_spec "0"%char c) as [<-|]; [discriminate|reflexivity].
Qed.

End JsFacts.

Module DateFacts.
Import JsDate.

Lemma YearFromDay_spec d :
  DayFromYear (YearFromDay d) <= d < DayFromYear (YearFromDay d + 1).
Proof.
  unfold YearFromDay.
  set (y0 := 1970 + 400 * d / 146097).
  destruct (Z.ltb_spec d (DayFromYear y0)) as [H|H].
  - unfold DayFromYear in *. subst y0.
    replace (1970 + 400 * d / 146097 - 1 + 1) with (1970 + 400 * d / 146097) by lia.
    Z.to_euclidean_division_equations; lia.
  - destruct (Z.leb_spec (DayFromYear (y0 + 1)) d) as [H1|H1].
    + unfold DayFromYear in *. subst y0.
      Z.to_euclidean_division_equations; lia.
    + lia.
Qed.

Lemma isLeap_spec y :
  isLeap y = true <-> (y mod 4 = 0 /\ (y mod 100 <> 0 \/ y mod 400 = 0)).
Proof.
  unfold isLeap.
  rewrite andb_true_iff, orb_true_iff, negb_true_iff, !Z.eqb_eq, Z.eqb_neq.
  tauto.
Qed.

Lemma DayFromYear_succ y : DayFromYear (y + 1) = DayFromYear y + DaysInYear y.
Proof.
  unfold DaysInYear.
  destruct (isLeap y) eqn:L.
  - apply isLeap_spec in L. unfold DayFromYear.
    Z.to_euclidean_division_equations; lia.
  - assert (N : ~ (y mod 4 = 0 /\ (y mod 100 <> 0 \/ y mod 400 = 0))).
    { rewrite <- isLeap_spec, L. discriminate. }
    unfold DayFromYear.
    Z.to_euclidean_division_equations; lia.
Qed.

Lemma DaysInYear_cases y : DaysInYear y = 365 \/ DaysInYear y = 366.
Proof. unfold DaysInYear. destruct (isLeap y); auto. Qed.

Lemma DayFromYear_mono a b : a <= b -> DayFromYear a <= DayFromYear b.
Proof.
  intros H. unfold DayFromYear. Z.to_euclidean_division_equations; lia.
Qed.

(** The year of a day is the only year whose days contain it. *)
Lemma YearFromDay_unique d y :
  DayFromYear y <= d < DayFromYear (y + 1) -> YearFromDay d = y.
Proof.
  intros H. pose proof (YearFromDay_spec d) as S.
  destruct (Z.lt_trichotomy (YearFromDay d) y) as [L|[E|L]]; [|exact E|].
  - pose proof (DayFromYear_mono (YearFromDay d + 1) y ltac:(lia)). lia.
  - pose proof (DayFromYear_mono (y + 1) (YearFromDay d) ltac:(lia)). lia.
Qed.

Lemma Day_of_day n : Day (n * msPerDay) = n.
Proof. unfold Day, msPerDay. apply Z.div_mul. discriminate. Qed.

Lemma Day_floor t : Day t * msPerDay <= t < Day t * msPerDay + msPerDay.
Proof. unfold Day, msPerDay. Z.to_euclidean_division_equations; lia. Qed.

Lemma DayWithinYear_range t :
  0 <= DayWithinYear t < DaysInYear (YearFromTime t).
Proof.
  unfold DayWithinYear, YearFromTime.
  pose proof (YearFromDay_spec (Day t)) as S.
  rewrite DayFromYear_succ in S. lia.
Qed.

Lemma MonthFromTime_range t : 0 <= MonthFromTime t <= 11.
Proof.
  unfold MonthFromTime.
  repeat match goal with |- context [if ?c then _ else _] => destruct c end; lia.
Qed.

(** Rebuilding the day number from the calendar fields of a time. *)
Ltac split_ltb :=
  repeat match goal with
         | |- context [?a <? ?b] => destruct (Z.ltb_spec a b)
         end.

Lemma MakeDay_fields t :
  MakeDay (YearFromTime t) (MonthFromTime t) (DateFromTime t) = Day t.
Proof.
  pose proof (DayWithinYear_range t) as R.
  pose proof (MonthFromTime_range t) as RM.
  unfold MakeDay.
  rewrite Z.div_small, Z.mod_small, Z.add_0_r by lia.
  clear RM.
  unfold DateFromTime, MonthFromTime, InLeapYear, DaysInYear in *.
  assert (E : Day t = DayFromYear (YearFromTime t) + DayWithinYear t)
    by (unfold DayWithinYear; lia).
  rewrite E. generalize dependent (DayWithinYear t). intros d R _.
  destruct (isLeap (YearFromTime t)); split_ltb; cbn [daysBeforeMonth]; lia.
Qed.

End DateFacts.

Module DateUtilsFacts.
Import Js JsDate JsFacts DateFacts.

Lemma DateFromTime_range t : 1 <= DateFromTime t <= 31.
Proof.
  pose proof (DayWithinYear_range t) as R.
  unfold DateFromTime, MonthFromTime, InLeapYear, DaysInYear in *.
  generalize dependent (DayWithinYear t). intros d R.
  destruct (isLeap (YearFromTime t)); split_ltb; lia.
Qed.

Lemma YearFromTime_day a b : Day a = Day b -> YearFromTime a = YearFromTime b.
Proof. unfold YearFromTime. intros ->. reflexivity. Qed.

Lemma MonthFromTime_day a b : Day a = Day b -> MonthFromTime a = MonthFromTime b.
Proof.
  intros H. unfold MonthFromTime, InLeapYear, DayWithinYear.
  rewrite (YearFromTime_day a b H), H. reflexivity.
Qed.

Lemma DateFromTime_day a b : Day a = Day b -> DateFromTime a = DateFromTime b.
Proof.
  intros H. unfold DateFromTime, InLeapYear, DayWithinYear.
  rewrite (MonthFromTime_day a b H), (YearFromTime_day a b H), H. reflexivity.
Qed.

Lemma dash_not_digit : uint_of_char "-" (Some Nil) = None.
Proof. reflexivity. Qed.

(** Parsing a text made of three non-negative decimal fields. *)
Lemma parseDateFromDb_fields tza y m d :
  0 <= y -> 0 <= m -> 0 <= d ->
  parseDateFromDb tza
    (String_of y +++ "-" +++ padStart 2 "0" (String_of m) +++ "-"
       +++ padStart 2 "0" (String_of d))
  = newDate tza (Some y) (Some (m - 1)) (Some d).
Proof.
  intros Hy Hm Hd. unfold parseDateFromDb.
  rewrite split_app_sep by (apply no_char_String_of; [apply dash_not_digit|assumption]).
  rewrite split_app_sep by (apply no_char_padStart; [apply dash_not_digit|assumption]).
  rewrite split_no_char by (apply no_char_padStart; [apply dash_not_digit|assumption]).
  cbn [map index nth_error].
  rewrite Number_String_of, !Number_padStart by assumption.
  reflexivity.
Qed.

Lemma formatDateForDb_valid tza t :
  formatDateForDb tza (Some t)
  = String_of (YearFromTime (LocalTime tza t)) +++ "-"
      +++ padStart 2 "0" (String_of (MonthFromTime (LocalTime tza t) + 1)) +++ "-"
      +++ padStart 2 "0" (String_of (DateFromTime (LocalTime tza t))).
Proof. reflexivity. Qed.

Lemma DayFromYear_100 : DayFromYear 100 = -683003.
Proof. reflexivity. Qed.

(** From a year of at least 100 on, the round trip lands on local midnight
    of the same day. *)
Lemma parse_format_midnight tza t :
  Z.abs t <= maxTime -> Z.abs tza <= msPerDay ->
  100 <= YearFromTime (LocalTime tza t) ->
  parseDateFromDb tza (formatDateForDb tza (Some t))
  = Some (Day (LocalTime tza t) * msPerDay - tza).
Proof.
  intros Ht Hz Hy.
  pose proof (MonthFromTime_range (LocalTime tza t)) as RM.
  pose proof (DateFromTime_range (LocalTime tza t)) as RD.
  rewrite formatDateForDb_valid, parseDateFromDb_fields by lia.
  unfold newDate.
  replace (MonthFromTime (LocalTime tza t) + 1 - 1)
    with (MonthFromTime (LocalTime tza t)) by lia.
  destruct (Z.leb_spec (YearFromTime (LocalTime tza t)) 99) as [L|_]; [lia|].
  rewrite andb_false_r, MakeDay_fields.
  unfold MakeDate, MakeTime, UTC, TimeClip.
  rewrite !Z.mul_0_l, !Z.add_0_r.
  pose proof (Day_floor (LocalTime tza t)) as F.
  pose proof (YearFromDay_spec (Day (LocalTime tza t))) as S.
  fold (YearFromTime (LocalTime tza t)) in S.
  pose proof (DayFromYear_mono 100 _ Hy) as M. rewrite DayFromYear_100 in M.
  destruct (Z.leb_spec (Z.abs (Day (LocalTime tza t) * msPerDay - tza)) maxTime) as [_|B];
    [reflexivity|].
  exfalso. unfold LocalTime, maxTime, msPerDay in *. lia.
Qed.

End DateUtilsFacts.

Module RoundTrip.
Import Js JsDate JsFacts DateFacts DateUtilsFacts.

(** C1 (as amended). For every valid [Date] whose local year is at least
    100, and every host offset of at most a day either way, parsing the text
    the local-field formatter produced gives a valid date with the same
    local year, month and day. *)
Theorem parseDateFromDb_formatDateForDb (tza t : Z) :
  Z.abs t <= maxTime -> Z.abs tza <= msPerDay ->
  100 <= YearFromTime (LocalTime tza t) ->
  let D := Some t in
  let D' := parseDateFromDb tza (formatDateForDb tza D) in
  getFullYear tza D' = getFullYear tza D
  /\ getMonth tza D' = getMonth tza D
  /\ getDate tza D' = getDate tza D.
Proof.
  intros Ht Hz Hy D D'. subst D D'.
  rewrite parse_format_midnight by assumption.
  assert (E : Day (LocalTime tza (Day (LocalTime tza t) * msPerDay - tza))
              = Day (LocalTime tza t)).
  { unfold LocalTime at 1.
    replace (Day (LocalTime tza t) * msPerDay - tza + tza)
      with (Day (LocalTime tza t) * msPerDay) by lia.
    apply Day_of_day. }
  cbn [getFullYear getMonth getDate option_map].
  rewrite (YearFromTime_day _ _ E), (MonthFromTime_day _ _ E), (DateFromTime_day _ _ E).
  repeat split; reflexivity.
Qed.

(** The round trip five hours west and fourteen hours east of UTC, late in
    the local evening of 1 September 2025. *)
Lemma parseDateFromDb_formatDateForDb_witness :
  (let D := Some 1756774800000 in
   let D' := parseDateFromDb (-18000000) (formatDateForDb (-18000000) D) in
   getFullYear (-18000000) D' = getFullYear (-18000000) D
   /\ getMonth (-18000000) D' = getMonth (-18000000) D
   /\ getDate (-18000000) D' = getDate (-18000000) D)
  /\
  (let D := Some 1756774800000 in
   let D' := parseDateFromDb 50400000 (formatDateForDb 50400000 D) in
   getFullYear 50400000 D' = getFullYear 50400000 D
   /\ getMonth 50400000 D' = getMonth 50400000 D
   /\ getDate 50400000 D' = getDate 50400000 D).
Proof.
  split.
  - apply (parseDateFromDb_formatDateForDb (-18000000) 1756774800000);
      vm_compute; intro H; discriminate H.
  - apply (parseDateFromDb_formatDateForDb 50400000 1756774800000);
      vm_compute; intro H; discriminate H.
Defined.

(** C1 as stated fails for a year below 100. Noon UTC of 15 June of the
    year 50 is a valid time value; it formats to the text 50-06-15, and
    that text parses to 15 June 1950. *)
Lemma roundtrip_fails_in_year_50 :
  let t := -60574996800000 in
  Z.abs t <= maxTime
  /\ getFullYear 0 (Some t) = Some 50
  /\ formatDateForDb 0 (Some t) = "50-06-15"
  /\ getFullYear 0 (parseDateFromDb 0 (formatDateForDb 0 (Some t))) = Some 1950
  /\ getFullYear 0 (parseDateFromDb 0 (formatDateForDb 0 (Some t)))
     <> getFullYear 0 (Some t).
Proof.
  vm_compute. repeat split; try reflexivity; intro H; discriminate H.
Qed.

End RoundTrip.

(** ** The stable sort *)

Lemma StronglySorted_weaken {A} (R R' : A -> A -> Prop) l :
  (forall a b, R a b -> R' a b) -> StronglySorted R l -> StronglySorted R' l.
Proof.
  intros W. induction 1 as [|x t S IH F]; constructor; [exact IH|].
  eapply Forall_impl; [|exact F]. intros b. apply W.
Qed.

Section SortFacts.

Context {A : Type} (leb : A -> A -> bool).
Hypothesis leb_total : forall a b, leb a b = true \/ leb b a = true.
Hypothesis leb_trans : forall a b c, leb a b = true -> leb b c = true -> leb a c = true.

Lemma insert_sorted_perm x l : Permutation (insert_sorted leb x l) (x :: l).
Proof.
  induction l as [|y t IH]; simpl; [reflexivity|].
  destruct (leb x y); [reflexivity|].
  rewrite IH. apply perm_swap.
Qed.

Lemma stable_sort_perm l : Permutation (stable_sort leb l) l.
Proof.
  induction l as [|x t IH]; simpl; [reflexivity|].
  rewrite insert_sorted_perm. constructor. exact IH.
Qed.

Lemma insert_sorted_strongly x l :
  StronglySorted (fun a b => leb a b = true) l ->
  StronglySorted (fun a b => leb a b = true) (insert_sorted leb x l).
Proof.
  induction 1 as [|y t S IH F]; simpl.
  - constructor; constructor.
  - destruct (leb x y) eqn:E.
    + constructor; [constructor; assumption|].
      constructor; [exact E|].
      eapply Forall_impl; [|exact F]. intros z Hz. eapply leb_trans; eassumption.
    + constructor; [exact IH|].
      rewrite insert_sorted_perm. constructor; [|exact F].
      destruct (leb_total x y) as [H|H]; [congruence|exact H].
Qed.

Lemma stable_sort_sorted l :
  StronglySorted (fun a b => leb a b = true) (stable_sort leb l).
Proof.
  induction l as [|x t IH]; simpl; [constructor|].
  apply insert_sorted_strongly, IH.
Qed.

End SortFacts.

(** ** The insertion-ordered map *)

Module JsMapFacts.
Import JsMap.

Section Facts.

Context {V : Type}.
Implicit Types (m : t V) (k : Z) (v : V).

Lemma get_In k v m : get k m = Some v -> In (k, v) m.
Proof.
  induction m as [|[k' v'] r IH]; simpl; [discriminate|].
  destruct (Z.eqb_spec k k') as [->|N].
  - intros [= ->]. left. reflexivity.
  - intros H. right. apply IH, H.
Qed.

Lemma In_get k v m : NoDup (keys m) -> In (k, v) m -> get k m = Some v.
Proof.
  induction m as [|[k' v'] r IH]; simpl; [contradiction|].
  intros ND [E|H].
  - injection E as -> ->. rewrite Z.eqb_refl. reflexivity.
  - inversion ND as [|? ? NI ND']; subst.
    destruct (Z.eqb_spec k k') as [->|N].
    + exfalso. apply NI. change k' with (fst (k', v)). apply in_map, H.
    + apply IH; assumption.
Qed.

Lemma has_keys k m : has k m = true <-> In k (keys m).
Proof.
  unfold has. induction m as [|[k' v'] r IH]; simpl.
  - split; [discriminate|contradiction].
  - destruct (Z.eqb_spec k k') as [->|N].
    + split; auto.
    + rewrite IH. split; [auto|]. intros [E|H]; [congruence|exact H].
Qed.

Lemma set_fresh k v m : ~ In k (keys m) -> set k v m = m ++ [(k, v)].
Proof.
  induction m as [|[k' v'] r IH]; simpl; [reflexivity|].
  intros N. destruct (Z.eqb_spec k k') as [->|_]; [tauto|].
  rewrite IH by tauto. reflexivity.
Qed.

Lemma keys_set_present k v m : In k (keys m) -> keys (set k v m) = keys m.
Proof.
  induction m as [|[k' v'] r IH]; simpl; [contradiction|].
  destruct (Z.eqb_spec k k') as [->|N]; [reflexivity|].
  intros [E|H]; [congruence|]. cbn [keys map fst]. f_equal. apply IH, H.
Qed.

Lemma In_set_present k v m k' v' :
  NoDup (keys m) -> In k (keys m) ->
  In (k', v') (set k v m) <-> (k' = k /\ v' = v) \/ (k' <> k /\ In (k', v') m).
Proof.
  induction m as [|[k0 v0] r IH]; simpl; [contradiction|].
  intros ND Hk. inversion ND as [|? ? NI ND']; subst.
  destruct (Z.eqb_spec k k0) as [->|N].
  - simpl. split.
    + intros [E|H]; [injection E as <- <-; auto|].
      right. split; [|auto]. intros ->. apply NI.
      change k0 with (fst (k0, v')). apply in_map, H.
    + intros [[-> ->]|[Hn [E|H]]]; [auto| |auto].
      injection E as <- _. congruence.
  - destruct Hk as [E|Hk]; [congruence|].
    simpl. rewrite (IH ND' Hk). split.
    + intros [E|[H|[Hn H]]]; [|auto|auto].
      injection E as <- <-. right. split; [congruence|auto].
    + intros [H|[Hn [E|H]]]; auto.
Qed.

End Facts.

End JsMapFacts.

Module GroupingFacts.
Import Data JsMapFacts.

Lemma filter_none {A} (f : A -> bool) l :
  (forall x, In x l -> f x = false) -> filter f l = [].
Proof.
  induction l as [|a t IH]; simpl; [reflexivity|].
  intros H. rewrite (H a) by auto. apply IH. auto.
Qed.

Lemma flat_map_none {A B} (f : A -> list B) l :
  (forall x, In x l -> f x = []) -> flat_map f l = [].
Proof.
  induction l as [|a t IH]; simpl; [reflexivity|].
  intros H. rewrite (H a) by auto. apply IH. auto.
Qed.

Lemma rowsOf_snoc k rows r :
  rowsOf k (rows ++ [r]) = rowsOf k rows ++ (if exerciseKey r =? k then [r] else []).
Proof. unfold rowsOf. rewrite filter_app. simpl. destruct (exerciseKey r =? k); reflexivity. Qed.

Lemma group_snoc k rows r :
  flat_map setViews (rowsOf k (rows ++ [r]))
  = flat_map setViews (rowsOf k rows) ++ (if exerciseKey r =? k then setViews r else []).
Proof.
  rewrite rowsOf_snoc, flat_map_app.
  destruct (exerciseKey r =? k); simpl; rewrite ?List.app_nil_r; reflexivity.
Qed.

Lemma grouped_nil : grouped [] [].
Proof.
  split; [constructor|]. split.
  - intros k. reflexivity.
  - intros k v [].
Qed.

(** First half of [addItem]: the group exists afterwards, its sets
    untouched. *)
Lemma ensure_group rows m r :
  grouped rows m ->
  let k0 := exerciseKey r in
  let m1 :=
    if negb (JsMap.has k0 m)
    then JsMap.set k0
           (ExerciseView.mk (Exercise.id (Joined.exercise r))
              (Exercise.name (Joined.exercise r)) []) m
    else m in
  NoDup (JsMap.keys m1)
  /\ (forall k, In k (JsMap.keys m1) <-> In k (map exerciseKey (rows ++ [r])))
  /\ (forall k v, In (k, v) m1 ->
        ExerciseView.sets v = flat_map setViews (rowsOf k rows)
        /\ exists r', In r' (rows ++ [r]) /\ exerciseKey r' = k
             /\ ExerciseView.id v = Exercise.id (Joined.exercise r')
             /\ ExerciseView.name v = Exercise.name (Joined.exercise r')).
Proof.
  intros (ND & K & E) k0 m1. subst m1.
  destruct (JsMap.has k0 m) eqn:H; simpl.
  - apply has_keys in H. split; [exact ND|]. split.
    + intros k. rewrite map_app, in_app_iff, <- K. simpl. fold k0.
      split; [auto|]. intros [?|[<-|[]]]; assumption.
    + intros k v I. destruct (E k v I) as (S & r' & I' & ?). split; [exact S|].
      exists r'. split; [apply in_or_app; auto|assumption].
  - assert (N : ~ In k0 (JsMap.keys m)).
    { rewrite <- has_keys, H. discriminate. }
    rewrite set_fresh by exact N. unfold JsMap.keys in *. rewrite map_app. simpl.
    split; [|split].
    + apply NoDup_app; [exact ND|repeat constructor; simpl; tauto|].
      intros x Hx [<-|[]]. exact (N Hx).
    + intros k. rewrite !map_app, !in_app_iff, K. reflexivity.
    + intros k v I. apply in_app_or in I. destruct I as [I|[I|[]]].
      * destruct (E k v I) as (S & r' & I' & ?). split; [exact S|].
        exists r'. split; [apply in_or_app; auto|assumption].
      * injection I as <- <-. simpl. split.
        -- assert (Z : rowsOf k0 rows = []).
           { unfold rowsOf. apply filter_none. intros x Hx.
             destruct (Z.eqb_spec (exerciseKey x) k0) as [Ek|]; [|reflexivity].
             exfalso. apply N, K. rewrite <- Ek. apply in_map, Hx. }
           rewrite Z. reflexivity.
        -- exists r. repeat split. apply in_or_app. right. left. reflexivity.
Qed.

Lemma addItem_grouped rows m r :
  grouped rows m -> grouped (rows ++ [r]) (addItem m r).
Proof.
  intros G. pose proof (ensure_group rows m r G) as (ND & K & E).
  unfold addItem. cbv zeta in *.
  fold (exerciseKey r) in *.
  set (m1 := if negb (JsMap.has (exerciseKey r) m) then _ else m) in *.
  clearbody m1. clear G m.
  assert (Hk0 : In (exerciseKey r) (JsMap.keys m1)).
  { apply K. rewrite map_app. apply in_or_app. right. left. reflexivity. }
  unfold setViews in *.
  destruct (Joined.set r) as [s|] eqn:Es.
  - destruct (JsMap.get (exerciseKey r) m1) as [e|] eqn:Eg.
    2:{ exfalso. apply has_keys in Hk0. unfold JsMap.has in Hk0.
        rewrite Eg in Hk0. discriminate. }
    split; [rewrite keys_set_present by exact Hk0; exact ND|]. split.
    + intros k. rewrite keys_set_present by exact Hk0. apply K.
    + intros k v I. apply (In_set_present _ _ _ _ _ ND Hk0) in I.
      rewrite group_snoc. unfold setViews. rewrite Es.
      destruct I as [[-> ->]|[Hn I]].
      * apply get_In in Eg. destruct (E _ _ Eg) as (S & R).
        rewrite Z.eqb_refl. simpl. rewrite S. split; [reflexivity|exact R].
      * destruct (E _ _ I) as (S & R).
        destruct (Z.eqb_spec (exerciseKey r) k) as [Ek|_]; [congruence|].
        rewrite List.app_nil_r. split; assumption.
  - split; [exact ND|]. split; [exact K|].
    intros k v I. destruct (E _ _ I) as (S & R).
    rewrite group_snoc. unfold setViews. rewrite Es.
    destruct (exerciseKey r =? k); rewrite List.app_nil_r; split; assumption.
Qed.

Lemma fold_addItem_grouped rows : grouped rows (fold_left addItem rows []).
Proof.
  induction rows as [|r rows IH] using rev_ind.
  - apply grouped_nil.
  - rewrite fold_left_app. simpl. apply addItem_grouped, IH.
Qed.

Lemma groupExercises_values rows :
  groupExercises rows = map sortSets (JsMap.values (fold_left addItem rows [])).
Proof.
  unfold groupExercises, JsMap.values. rewrite !map_map. reflexivity.
Qed.

Lemma bySetNumber_total a b :
  (SetView.setNumber a - SetView.setNumber b <=? 0) = true
  \/ (SetView.setNumber b - SetView.setNumber a <=? 0) = true.
Proof. rewrite !Z.leb_le. lia. Qed.

Lemma bySetNumber_trans a b c :
  (SetView.setNumber a - SetView.setNumber b <=? 0) = true ->
  (SetView.setNumber b - SetView.setNumber c <=? 0) = true ->
  (SetView.setNumber a - SetView.setNumber c <=? 0) = true.
Proof. rewrite !Z.leb_le. lia. Qed.

Lemma sortSets_sorted e : StronglySorted bySetNumber (ExerciseView.sets (sortSets e)).
Proof.
  simpl.
  eapply StronglySorted_weaken; [|apply stable_sort_sorted].
  - intros a b H. apply Z.leb_le in H. unfold bySetNumber. lia.
  - apply bySetNumber_total.
  - apply bySetNumber_trans.
Qed.

End GroupingFacts.

Module Grouping.
Import Data JsMapFacts GroupingFacts.

Lemma exercise_data_joined db workoutId : Forall joined (exercise_data db workoutId).
Proof.
  apply Forall_forall. intros r H. unfold exercise_data in H.
  apply in_flat_map in H. destruct H as (we & _ & H).
  apply in_flat_map in H. destruct H as (e & He & H).
  apply filter_In in He. destruct He as (_ & He). apply Z.eqb_eq in He.
  unfold join_sets in H.
  destruct (filter _ (sets db)) as [|s ss].
  - destruct H as [<-|[]]. unfold joined, exerciseKey. simpl. lia.
  - apply in_map_iff in H. destruct H as (s' & <- & _).
    unfold joined, exerciseKey. simpl. lia.
Qed.

Example push_rows_from_store : exercise_data Sample.store 1 = Sample.push_rows.
Proof. reflexivity. Qed.

(** The specification's grouping scenario: two exercises, the first with
    its three sets in order, the second with none. *)
Example groupExercises_push_rows :
  groupExercises Sample.push_rows =
  [ ExerciseView.mk 10 "Bench press"
      [ SetView.mk 1 (Some 6000) 8 None false;
        SetView.mk 2 None 6 (Some 8) false;
        SetView.mk 3 (Some 8000) 5 None false ];
    ExerciseView.mk 11 "Barbell row" [] ].
Proof. reflexivity. Qed.

(** C5. For all flat joined rows of a workout, the grouping yields exactly
    one exercise entry per distinct exercise id; an entry's sets are the
    views of the non-null sets of its rows and nothing else (a row without
    a set adds no entry to any set sequence); an exercise all of whose rows
    lack a set still appears, with an empty set sequence; and every set
    sequence is sorted by set number, ascending. *)
Theorem groupExercises_correct (rows : list Joined.t) :
  Forall joined rows ->
  let out := groupExercises rows in
  (NoDup (map ExerciseView.id out)
   /\ forall k, In k (map ExerciseView.id out) <-> In k (map exerciseKey rows))
  /\ (forall e, In e out ->
        Permutation (ExerciseView.sets e)
          (flat_map setViews (rowsOf (ExerciseView.id e) rows)))
  /\ (forall r, In r rows ->
        (forall r', In r' rows -> exerciseKey r' = exerciseKey r -> Joined.set r' = None) ->
        exists e, In e out /\ ExerciseView.id e = exerciseKey r
                  /\ ExerciseView.sets e = [])
  /\ (forall e, In e out -> StronglySorted bySetNumber (ExerciseView.sets e)).
Proof.
  intros J out. subst out. rewrite groupExercises_values.
  pose proof (fold_addItem_grouped rows) as (ND & K & E).
  set (m := fold_left addItem rows []) in *. clearbody m.
  assert (Hid : forall k v, In (k, v) m -> ExerciseView.id v = k).
  { intros k v I. destruct (E k v I) as (_ & r & Ir & Ek & Ei & _).
    rewrite Ei, <- Ek. rewrite Forall_forall in J. apply J, Ir. }
  assert (Hkeys : map ExerciseView.id (map sortSets (JsMap.values m)) = JsMap.keys m).
  { unfold JsMap.values, JsMap.keys. rewrite !map_map. apply map_ext_in.
    intros [k v] I. simpl. apply Hid, I. }
  assert (Hout : forall e, In e (map sortSets (JsMap.values m)) ->
                   exists k v, In (k, v) m /\ e = sortSets v).
  { intros e I. apply in_map_iff in I. destruct I as (v & <- & I).
    unfold JsMap.values in I. apply in_map_iff in I. destruct I as ([k v'] & <- & I).
    exists k, v'. split; [exact I|reflexivity]. }
  split; [|split; [|split]].
  - rewrite Hkeys. split; [exact ND|exact K].
  - intros e I. destruct (Hout e I) as (k & v & Im & ->).
    destruct (E k v Im) as (S & _). simpl. rewrite (Hid k v Im), <- S.
    apply stable_sort_perm.
  - intros r Ir Hnone.
    assert (Ik : In (exerciseKey r) (JsMap.keys m)) by (apply K, in_map, Ir).
    unfold JsMap.keys in Ik. apply in_map_iff in Ik. destruct Ik as ([k v] & Ek & Im).
    simpl in Ek. subst k. exists (sortSets v). split; [|split].
    + apply in_map. unfold JsMap.values. change v with (snd (exerciseKey r, v)).
      apply in_map, Im.
    + simpl. apply Hid, Im.
    + destruct (E _ v Im) as (S & _). simpl. rewrite S.
      replace (flat_map setViews (rowsOf (exerciseKey r) rows)) with (@nil SetView.t);
        [reflexivity|].
      symmetry. apply flat_map_none. intros x Hx.
      apply filter_In in Hx. destruct Hx as (Hx & Ek). apply Z.eqb_eq in Ek.
      unfold setViews. rewrite (Hnone x Hx Ek). reflexivity.
  - intros e I. destruct (Hout e I) as (k & v & _ & ->). apply sortSets_sorted.
Qed.

(** The grouping of the sample rows: the join condition holds for them. *)
Lemma groupExercises_correct_witness :
  let rows := Sample.push_rows in
  let out := groupExercises rows in
  (NoDup (map ExerciseView.id out)
   /\ forall k, In k (map ExerciseView.id out) <-> In k (map exerciseKey rows))
  /\ (forall e, In e out ->
        Permutation (ExerciseView.sets e)
          (flat_map setViews (rowsOf (ExerciseView.id e) rows)))
  /\ (forall r, In r rows ->
        (forall r', In r' rows -> exerciseKey r' = exerciseKey r -> Joined.set r' = None) ->
        exists e, In e out /\ ExerciseView.id e = exerciseKey r
                  /\ ExerciseView.sets e = [])
  /\ (forall e, In e out -> StronglySorted bySetNumber (ExerciseView.sets e)).
Proof.
  apply (groupExercises_correct Sample.push_rows).
  repeat constructor.
Defined.

End Grouping.

(** ** Running operations *)

Module RunFacts.

Lemma logged_nil w : logged w [] = w.
Proof. destruct w. unfold logged. simpl. rewrite List.app_nil_r. reflexivity. Qed.

Lemma logged_logged w a b : logged (logged w a) b = logged w (a ++ b).
Proof. unfold logged. simpl. rewrite List.app_assoc. reflexivity. Qed.

Lemma bind_returned {A B} (m : M A) (k : A -> M B) w a w' :
  m w = (Returned a, w') -> bind m k w = k a w'.
Proof. unfold bind. intros ->. reflexivity. Qed.

Lemma bind_thrown {A B} (m : M A) (k : A -> M B) w e w' :
  m w = (Thrown e, w') -> bind m k w = (Thrown e, w').
Proof. unfold bind. intros ->. reflexivity. Qed.

(** The caller check passes for a resolved, non-empty user id. *)
Lemma user_resolved {B} (k : string -> M B) w u :
  session w = Some u -> u <> EmptyString ->
  bind auth (fun s => bind (requireUser s) k) w = k u w.
Proof.
  intros S N. unfold bind at 1, auth. rewrite S. unfold requireUser.
  destruct (String.eqb_spec u EmptyString) as [E|_]; [contradiction|].
  reflexivity.
Qed.

(** It fails, before anything else, when no user is resolved. *)
Lemma user_missing {B} (k : string -> M B) w :
  session w = None ->
  bind auth (fun s => bind (requireUser s) k) w = (Thrown (Error "Unauthorized"), w).
Proof. intros S. unfold bind at 1, auth. rewrite S. reflexivity. Qed.

Lemma user_empty {B} (k : string -> M B) w :
  session w = Some EmptyString ->
  bind auth (fun s => bind (requireUser s) k) w = (Thrown (Error "Unauthorized"), w).
Proof. intros S. unfold bind at 1, auth. rewrite S. reflexivity. Qed.

Lemma select_exercise_data_all ids w :
  mapM (fun workoutId =>
          bind (Db.select_exercise_data workoutId)
            (fun data => ret (workoutId, data))) ids w
  = (Returned (map (fun i => (i, exercise_data (db w) i)) ids),
     logged w (map select_exercise_data ids)).
Proof.
  revert w. induction ids as [|i ids IH]; intros w; simpl.
  - unfold ret. rewrite logged_nil. reflexivity.
  - unfold bind at 1. unfold bind at 1. unfold Db.select_exercise_data, send. simpl.
    unfold ret at 1. unfold bind at 1.
    fold (logged w [select_exercise_data i]).
    rewrite IH. unfold ret. rewrite logged_logged. reflexivity.
Qed.

End RunFacts.

Module ReadFacts.
Import Data RunFacts.

Lemma select_ok w wh o :
  forallb cond_ok wh = true ->
  Db.select wh o None w
  = (Returned (order_rows o (filter (matches wh) (workouts (db w)))),
     logged w [select_workouts wh o None]).
Proof.
  intros H. unfold Db.select, send, read_only, exec_select. rewrite H. reflexivity.
Qed.

Lemma select_rejected w wh o l :
  forallb cond_ok wh = false ->
  Db.select wh o l w = (Thrown DbError, logged w [select_workouts wh o l]).
Proof.
  intros H. unfold Db.select, send, read_only, exec_select. rewrite H. reflexivity.
Qed.

(** What [getWorkoutsByDate] returns and sends for a resolved user and a
    date the store accepts. *)
Lemma getWorkoutsByDate_run w u date c :
  session w = Some u -> u <> EmptyString ->
  Pg.date_in (formatDateForDb (tza w) date) = Some c ->
  let ds := formatDateForDb (tza w) date in
  let rows := workoutsOn u ds (db w) in
  let ids := map Workout.id rows in
  getWorkoutsByDate date w
  = (Returned (map (workoutView (map (fun i => (i, exercise_data (db w) i)) ids)) rows),
     logged w (select_workouts [eq_userId u; eq_date ds] (Some desc_createdAt) None
               :: map select_exercise_data ids)).
Proof.
  intros S N D ds rows ids. unfold getWorkoutsByDate.
  rewrite (user_resolved _ w u S N).
  unfold bind at 1, host_tza. fold ds.
  erewrite bind_returned.
  2:{ apply select_ok. simpl. fold ds. unfold ds. rewrite D. reflexivity. }
  fold (workoutsOn u ds (db w)). fold rows. cbn [order_rows].
  change (stable_sort (order_leb desc_createdAt)
            (filter (matches [eq_userId u; eq_date ds]) (workouts (db w)))) with rows.
  destruct rows as [|r rs] eqn:E.
  - reflexivity.
  - cbn [List.length Nat.eqb]. fold ids.
    erewrite bind_returned by apply select_exercise_data_all.
    unfold ret. rewrite logged_logged. reflexivity.
Qed.

Lemma getWorkoutsByDate_rejected w u date :
  session w = Some u -> u <> EmptyString ->
  Pg.date_in (formatDateForDb (tza w) date) = None ->
  getWorkoutsByDate date w
  = (Thrown DbError,
     logged w [select_workouts [eq_userId u; eq_date (formatDateForDb (tza w) date)]
                 (Some desc_createdAt) None]).
Proof.
  intros S N D. unfold getWorkoutsByDate.
  rewrite (user_resolved _ w u S N).
  unfold bind at 1, host_tza.
  erewrite bind_thrown; [reflexivity|].
  apply select_rejected. simpl. rewrite D. reflexivity.
Qed.

End ReadFacts.

Module PgFacts.
Import Js JsDate JsFacts DateFacts DateUtilsFacts.

Lemma DateFromTime_le_month t :
  DateFromTime t <= Pg.daysInMonth (YearFromTime t) (MonthFromTime t + 1).
Proof.
  pose proof (DayWithinYear_range t) as R.
  unfold Pg.daysInMonth, DateFromTime, MonthFromTime, InLeapYear, DaysInYear in *.
  generalize dependent (DayWithinYear t). intros d R.
  destruct (isLeap (YearFromTime t)); split_ltb; simpl; lia.
Qed.

(** Years of valid time values stay far inside the store's date range. *)
Lemma YearFromTime_upper t : t <= maxTime + msPerDay -> YearFromTime t <= 275761.
Proof.
  intros H. unfold YearFromTime.
  pose proof (YearFromDay_spec (Day t)) as (S & _).
  pose proof (Day_floor t) as F.
  destruct (Z.le_gt_cases (YearFromDay (Day t)) 275761) as [L|G]; [exact L|].
  assert (M : DayFromYear 275762 <= DayFromYear (YearFromDay (Day t)))
    by (apply DayFromYear_mono; lia).
  assert (B : 100000002 <= DayFromYear 275762) by (vm_compute; discriminate).
  unfold maxTime, msPerDay in *. lia.
Qed.

Lemma daysInMonth_le y m : Pg.daysInMonth y m <= 31.
Proof.
  unfold Pg.daysInMonth. destruct (isLeap y);
    repeat match goal with
           | |- context [match ?p with _ => _ end] => destruct p
           end; lia.
Qed.

Lemma short_pad2_check n :
  forallb (fun i => Pg.short (padStart 2 "0" (String_of (Z.of_nat i)))) (seq 0 n) = true ->
  forall v, 0 <= v < Z.of_nat n -> Pg.short (padStart 2 "0" (String_of v)) = true.
Proof.
  intros H v Hv. rewrite forallb_forall in H.
  specialize (H (Z.to_nat v)). rewrite Z2Nat.id in H by lia.
  apply H, in_seq. lia.
Qed.

Lemma short_pad2 v : 0 <= v <= 99 -> Pg.short (padStart 2 "0" (String_of v)) = true.
Proof.
  intros H. apply (short_pad2_check (Z.to_nat 100)); [vm_compute; reflexivity|].
  rewrite Z2Nat.id; lia.
Qed.

(** A text of three decimal fields that form a calendar date, the year
    first and in three digits or more, is read as that date. *)
Lemma date_in_fields k y m d :
  (3 <= k)%nat \/ 100 <= y ->
  Pg.valid_date y m d = true ->
  Pg.date_in (padStart k "0" (String_of y) +++ "-" +++ padStart 2 "0" (String_of m)
                +++ "-" +++ padStart 2 "0" (String_of d))
  = Some (y, m, d).
Proof.
  intros W V. pose proof V as V'. unfold Pg.valid_date in V'.
  rewrite !andb_true_iff, !Z.leb_le in V'.
  assert (Dm : d <= 31).
  { destruct V' as (_ & Dd). pose proof (daysInMonth_le y m). lia. }
  unfold Pg.date_in.
  rewrite split_app_sep by (apply no_char_padStart; [apply dash_not_digit|lia]).
  rewrite split_app_sep by (apply no_char_padStart; [apply dash_not_digit|lia]).
  rewrite split_no_char by (apply no_char_padStart; [apply dash_not_digit|lia]).
  rewrite !Number_padStart by lia.
  assert (L : (3 <=? String.length (padStart k "0" (String_of y)))%nat = true).
  { apply Nat.leb_le. rewrite length_padStart.
    destruct W as [W|W]; [lia|]. pose proof (String_of_wide y W). lia. }
  rewrite L, !short_pad2, V by lia. reflexivity.
Qed.

Lemma padStart_0 s : padStart 0 "0" s = s.
Proof. reflexivity. Qed.

Lemma localDay_valid tza t :
  Z.abs t <= maxTime -> Z.abs tza <= msPerDay ->
  1 <= YearFromTime (LocalTime tza t) ->
  let '(y, m, d) := localDay tza t in Pg.valid_date y m d = true.
Proof.
  intros Ht Hz Hy. unfold localDay, Pg.valid_date.
  pose proof (MonthFromTime_range (LocalTime tza t)).
  pose proof (DateFromTime_range (LocalTime tza t)).
  pose proof (DateFromTime_le_month (LocalTime tza t)).
  pose proof (YearFromTime_upper (LocalTime tza t) ltac:(unfold LocalTime; lia)).
  rewrite !andb_true_iff, !Z.leb_le. lia.
Qed.

(** The store accepts what [formatDateForDb] prints for a valid date from
    the year 100 on, and reads it as the local calendar date. *)
Lemma date_in_formatDateForDb tza t :
  Z.abs t <= maxTime -> Z.abs tza <= msPerDay ->
  100 <= YearFromTime (LocalTime tza t) ->
  Pg.date_in (formatDateForDb tza (Some t)) = Some (localDay tza t).
Proof.
  intros Ht Hz Hy. pose proof (localDay_valid tza t Ht Hz ltac:(lia)) as V.
  rewrite formatDateForDb_valid.
  rewrite <- (padStart_0 (String_of (YearFromTime (LocalTime tza t)))).
  unfold localDay in *. apply date_in_fields; [right; exact Hy|exact V].
Qed.

(** The store reads calendar dates only. *)
Lemma date_in_valid s y m d :
  Pg.date_in s = Some (y, m, d) -> Pg.valid_date y m d = true.
Proof.
  unfold Pg.date_in.
  destruct (split "-" s) as [|a [|b [|c [|? ?]]]]; try discriminate.
  destruct (Number a) as [x|]; [|discriminate].
  destruct (Number b) as [y'|]; [|discriminate].
  destruct (Number c) as [z|]; [|discriminate].
  destruct (3 <=? String.length a)%nat.
  - destruct (Pg.short b && Pg.short c) ; [|discriminate]. cbn [andb].
    destruct (Pg.valid_date x y' z) eqn:V; [|discriminate].
    intros [= <- <- <-]. exact V.
  - destruct (Pg.short a && Pg.short b && (1 <=? String.length c)%nat); [|discriminate].
    cbn [andb].
    destruct (Pg.valid_date _ x y') eqn:V; [|discriminate].
    intros [= <- <- <-]. exact V.
Qed.

Lemma date_eqb_eq a b : Pg.date_eqb a b = true <-> a = b.
Proof.
  destruct a as [[y m] d], b as [[y' m'] d']. unfold Pg.date_eqb.
  rewrite !andb_true_iff, !Z.eqb_eq. split.
  - intros [[-> ->] ->]. reflexivity.
  - intros [= -> -> ->]. auto.
Qed.

(** Matching the owner and the date of a read. *)
Lemma matches_owner_date u ds c r :
  Pg.date_in ds = Some c ->
  matches [eq_userId u; eq_date ds] r = true <-> ownedOn u c r.
Proof.
  intros D. unfold matches, ownedOn. simpl. unfold Pg.date_cmp. rewrite D.
  rewrite andb_true_r, andb_true_iff, String.eqb_eq.
  destruct (Pg.date_in (Workout.date r)) as [a|].
  - rewrite date_eqb_eq. split; intros [? ?]; split; congruence.
  - split; intros [? ?]; discriminate.
Qed.

End PgFacts.

Module Ordering.
Import Data RunFacts ReadFacts PgFacts JsDate.

Lemma newest_first_total a b :
  order_leb desc_createdAt a b = true \/ order_leb desc_createdAt b a = true.
Proof. simpl. rewrite !Z.leb_le. lia. Qed.

Lemma newest_first_trans a b c :
  order_leb desc_createdAt a b = true -> order_leb desc_createdAt b c = true ->
  order_leb desc_createdAt a c = true.
Proof. simpl. rewrite !Z.leb_le. lia. Qed.

Lemma workoutsOn_sorted u ds d :
  StronglySorted (fun a b => Workout.createdAt b <= Workout.createdAt a)
    (workoutsOn u ds d).
Proof.
  eapply StronglySorted_weaken;
    [|apply stable_sort_sorted; [apply newest_first_total|apply newest_first_trans]].
  intros a b H. simpl in H. apply Z.leb_le in H. exact H.
Qed.

Lemma workoutsOn_In u ds c d r :
  Pg.date_in ds = Some c ->
  In r (workoutsOn u ds d) <-> In r (workouts d) /\ ownedOn u c r.
Proof.
  intros D. unfold workoutsOn. split.
  - intros H. apply (Permutation_in _ (stable_sort_perm _ _)) in H.
    apply filter_In in H. rewrite (matches_owner_date u ds c r D) in H. exact H.
  - intros H. apply (Permutation_in _ (Permutation_sym (stable_sort_perm _ _))).
    apply filter_In. rewrite (matches_owner_date u ds c r D). exact H.
Qed.

(** In a list sorted by falling key, an element with a larger key stands
    before one with a smaller key. *)
Lemma sorted_desc_before {A} (f : A -> Z) l x y :
  StronglySorted (fun a b => f b <= f a) l ->
  In x l -> In y l -> f y < f x ->
  exists pre mid post, l = pre ++ x :: mid ++ y :: post.
Proof.
  induction 1 as [|h t S IH F]; intros Hx Hy L; [contradiction|].
  rewrite Forall_forall in F.
  destruct Hx as [->|Hx].
  - destruct Hy as [->|Hy]; [lia|].
    apply in_split in Hy. destruct Hy as (mid & post & ->).
    exists [], mid, post. reflexivity.
  - destruct Hy as [->|Hy]; [specialize (F x Hx); lia|].
    destruct (IH Hx Hy L) as (pre & mid & post & ->).
    exists (h :: pre), mid, post. reflexivity.
Qed.

(** What a read returns for a resolved caller and a valid date from the year
    100 on: the views of the caller's rows of that local day, in falling
    creation time. *)
Lemma getWorkoutsByDate_rows (w : World) (u : string) (t : Z) :
  session w = Some u -> u <> EmptyString ->
  Z.abs t <= maxTime -> Z.abs (tza w) <= msPerDay ->
  100 <= YearFromTime (LocalTime (tza w) t) ->
  exists views rows,
    fst (getWorkoutsByDate (Some t) w) = Returned views
    /\ map WorkoutView.id views = map Workout.id rows
    /\ (forall r, In r rows <-> In r (workouts (db w)) /\ ownedOn u (localDay (tza w) t) r)
    /\ StronglySorted (fun a b => Workout.createdAt b <= Workout.createdAt a) rows.
Proof.
  intros S N Ht Hz Hy.
  pose proof (date_in_formatDateForDb (tza w) t Ht Hz Hy) as D.
  set (ds := formatDateForDb (tza w) (Some t)) in *.
  exists (map (workoutView
                 (map (fun i => (i, exercise_data (db w) i))
                    (map Workout.id (workoutsOn u ds (db w)))))
            (workoutsOn u ds (db w))),
         (workoutsOn u ds (db w)).
  split; [|split; [|split]].
  - rewrite (getWorkoutsByDate_run w u (Some t) _ S N D). reflexivity.
  - rewrite map_map. reflexivity.
  - intros r. apply workoutsOn_In, D.
  - apply workoutsOn_sorted.
Qed.

(** C9 (as amended). For every resolved caller and every valid date whose
    local year is 100 or later, when the caller has several workouts on
    that local day, [getWorkoutsByDate] returns them newest first: the views
    follow the caller's rows of the day in falling creation time, so of two
    such workouts the one created later is listed before the other. *)
Theorem getWorkoutsByDate_newest_first (w : World) (u : string) (t : Z) :
  session w = Some u -> u <> EmptyString ->
  Z.abs t <= maxTime -> Z.abs (tza w) <= msPerDay ->
  100 <= YearFromTime (LocalTime (tza w) t) ->
  forall W1 W2,
    In W1 (workouts (db w)) -> ownedOn u (localDay (tza w) t) W1 ->
    In W2 (workouts (db w)) -> ownedOn u (localDay (tza w) t) W2 ->
    Workout.createdAt W1 < Workout.createdAt W2 ->
    exists views rows pre mid post,
      fst (getWorkoutsByDate (Some t) w) = Returned views
      /\ map WorkoutView.id views = map Workout.id rows
      /\ (forall r, In r rows <->
                    In r (workouts (db w)) /\ ownedOn u (localDay (tza w) t) r)
      /\ StronglySorted (fun a b => Workout.createdAt b <= Workout.createdAt a) rows
      /\ map WorkoutView.id views = pre ++ Workout.id W2 :: mid ++ Workout.id W1 :: post.
Proof.
  intros S N Ht Hz Hy W1 W2 I1 O1 I2 O2 L.
  destruct (getWorkoutsByDate_rows w u t S N Ht Hz Hy) as (views & rows & F & E & M & St).
  destruct (sorted_desc_before Workout.createdAt rows W2 W1 St)
    as (pre & mid & post & Er).
  - apply M. auto.
  - apply M. auto.
  - exact L.
  - exists views, rows, (map Workout.id pre), (map Workout.id mid), (map Workout.id post).
    split; [exact F|]. split; [exact E|]. split; [exact M|]. split; [exact St|].
    rewrite E, Er, map_app. simpl. rewrite map_app. reflexivity.
Qed.

(** C9 as stated fails for a day of the years 1 to 99: the caller has two
    workouts on 15 June of the year 50, and the read of that day returns
    nothing. The date text it sends carries the year in two digits, a
    spelling the store reads month first and rejects, so the call throws. *)
Lemma first_century_day_is_not_listed :
  let early := Workout.mk 1 "alice" "0050-06-15" (Some "Early") None None 1000 1000 in
  let late := Workout.mk 2 "alice" "0050-06-15" (Some "Late") None None 2000 2000 in
  let w := Sample.world (Some "alice") 0 (mkDatabase [early; late] [] [] [] 2) in
  let t := MakeDay 50 5 15 * msPerDay + 12 * 3600000 in
  Z.abs t <= maxTime
  /\ ownedOn "alice" (localDay (tza w) t) early
  /\ ownedOn "alice" (localDay (tza w) t) late
  /\ formatDateForDb (tza w) (Some t) = "50-06-15"
  /\ fst (getWorkoutsByDate (Some t) w) = Thrown DbError
  /\ ~ exists views, fst (getWorkoutsByDate (Some t) w) = Returned views.
Proof.
  vm_compute. split; [intro H; discriminate H|].
  split; [split; reflexivity|]. split; [split; reflexivity|].
  split; [reflexivity|]. split; [reflexivity|].
  intros (views & H). discriminate H.
Qed.

End Ordering.

Module Authorization.
Import RunFacts.

(** C8 (as amended). When the identity provider resolves no caller, every
    operation of the read and write layers that resolves the caller itself
    (the two reads of the dashboard, the five helpers of the mutation layer
    and the quick-create action) throws the authorization error at once:
    the world is left as it was, so no statement reached the store, and the
    failure is an exception, not a returned value. *)
Theorem unauthenticated_throws_first (w : World) :
  session w = None ->
  (forall date, Data.getWorkoutsByDate date w = (Thrown (Error "Unauthorized"), w))
  /\ (forall year month,
        Data.getWorkoutDatesForMonth year month w = (Thrown (Error "Unauthorized"), w))
  /\ (forall data, SrcData.createWorkout data w = (Thrown (Error "Unauthorized"), w))
  /\ (forall limit, SrcData.getRecentWorkouts limit w = (Thrown (Error "Unauthorized"), w))
  /\ (forall workoutId,
        SrcData.getWorkoutById workoutId w = (Thrown (Error "Unauthorized"), w))
  /\ (forall workoutId data,
        SrcData.updateWorkout workoutId data w = (Thrown (Error "Unauthorized"), w))
  /\ (forall workoutId,
        SrcData.deleteWorkout workoutId w = (Thrown (Error "Unauthorized"), w))
  /\ (forall date name,
        LibActions.createWorkout date name w = (Thrown (Error "Unauthorized"), w)).
Proof.
  intros S. repeat split; intros; apply user_missing, S.
Qed.

Lemma unauthenticated_throws_first_witness :
  let w := Sample.world None 0 Sample.store in
  (forall date, Data.getWorkoutsByDate date w = (Thrown (Error "Unauthorized"), w))
  /\ (forall year month,
        Data.getWorkoutDatesForMonth year month w = (Thrown (Error "Unauthorized"), w))
  /\ (forall data, SrcData.createWorkout data w = (Thrown (Error "Unauthorized"), w))
  /\ (forall limit, SrcData.getRecentWorkouts limit w = (Thrown (Error "Unauthorized"), w))
  /\ (forall workoutId,
        SrcData.getWorkoutById workoutId w = (Thrown (Error "Unauthorized"), w))
  /\ (forall workoutId data,
        SrcData.updateWorkout workoutId data w = (Thrown (Error "Unauthorized"), w))
  /\ (forall workoutId,
        SrcData.deleteWorkout workoutId w = (Thrown (Error "Unauthorized"), w))
  /\ (forall date name,
        LibActions.createWorkout date name w = (Thrown (Error "Unauthorized"), w)).
Proof.
  apply (unauthenticated_throws_first (Sample.world None 0 Sample.store)).
  reflexivity.
Defined.

(** The server actions wrap the helpers in [try]/[catch]: there the same
    failure comes back as an ordinary failure result. *)
Lemma createWorkoutAction_unauthenticated w input :
  session w = None -> NewActions.createWorkoutSchema input = [] ->
  NewActions.createWorkoutAction input w
  = (Returned (Failure (Zod.Text "Failed to create workout")), w).
Proof.
  intros S V. unfold NewActions.createWorkoutAction, try_catch, zodParse.
  rewrite V. unfold bind at 1, ret at 1.
  rewrite (bind_thrown _ _ w (Error "Unauthorized") w); [reflexivity|].
  apply user_missing, S.
Qed.

(** C8 as stated fails for the other operations of the two layers. With
    no caller resolved, the two reads that take the user id as an argument
    do not consult the identity provider and return that user's data, and
    the validated server actions catch the error of their helper and
    return a failure value instead of throwing. *)
Lemma unauthenticated_operations_that_do_not_throw :
  let w := Sample.world None 0 Sample.store in
  session w = None
  /\ (exists found,
        fst (Queries.getWorkoutsByUserAndDate "alice" "2025-09-01" w) = Returned found
        /\ map WorkoutWithDetails.row found = [Sample.pull; Sample.push])
  /\ fst (Queries.getWorkoutDatesForUser "alice" "2025-08-01" "2025-09-30" w)
     = Returned ["2025-08-31"; "2025-09-01"]
  /\ fst (NewActions.createWorkoutAction
            (NewActions.mkInput "Leg day" "2025-09-01" None None) w)
     = Returned (Failure (Zod.Text "Failed to create workout"))
  /\ fst (EditActions.updateWorkoutAction
            (EditActions.mkUpdateInput (1 # 1) "Leg day" "2025-09-01" None None) w)
     = Returned (Failure (Zod.Text "Failed to update workout"))
  /\ fst (EditActions.deleteWorkoutAction (EditActions.mkDeleteInput (1 # 1)) w)
     = Returned (Failure (Zod.Text "Failed to delete workout")).
Proof.
  split; [reflexivity|].
  split; [eexists; split; vm_compute; reflexivity|].
  vm_compute. repeat split.
Qed.

End Authorization.

Module Ownership.
Import Data RunFacts ReadFacts PgFacts.

Lemma filter_filter_implied {A} (f g : A -> bool) l :
  (forall x, In x l -> f x = true -> g x = true) ->
  filter f (filter g l) = filter f l.
Proof.
  induction l as [|a t IH]; simpl; [reflexivity|].
  intros H. destruct (g a) eqn:G; simpl.
  - rewrite IH by auto. reflexivity.
  - destruct (f a) eqn:F.
    + rewrite (H a) in G by auto. discriminate.
    + apply IH. auto.
Qed.

Lemma flat_map_ext_In {A B} (f g : A -> list B) l :
  (forall x, In x l -> f x = g x) -> flat_map f l = flat_map g l.
Proof.
  induction l as [|a t IH]; simpl; [reflexivity|].
  intros H. rewrite (H a), IH by auto. reflexivity.
Qed.

Lemma matches_owner u wh r :
  matches (eq_userId u :: wh) r = true -> String.eqb (Workout.userId r) u = true.
Proof. unfold matches. simpl. rewrite andb_true_iff. tauto. Qed.

(** A read scoped to [u] sees the same workouts in the store and in the
    part of it that belongs to [u]. *)
Lemma owned_workouts_visible u wh d :
  filter (matches (eq_userId u :: wh)) (workouts (visible u d))
  = filter (matches (eq_userId u :: wh)) (workouts d).
Proof.
  simpl. apply filter_filter_implied. intros r _. apply matches_owner.
Qed.

(** The joined rows of a workout [u] owns come from [u]'s part alone. *)
Lemma exercise_data_visible u d r :
  In r (workouts d) -> Workout.userId r = u ->
  exercise_data (visible u d) (Workout.id r) = exercise_data d (Workout.id r).
Proof.
  intros I O. unfold exercise_data.
  set (wes := filter _ (workoutExercises (visible u d))).
  assert (Ewes : wes = filter (fun we => WorkoutExercise.workoutId we =? Workout.id r)
                         (workoutExercises d)).
  { subst wes. simpl. apply filter_filter_implied. intros we _ E.
    apply Z.eqb_eq in E. apply existsb_exists. exists r. split.
    - apply filter_In. split; [exact I|]. apply String.eqb_eq, O.
    - apply Z.eqb_eq. symmetry. exact E. }
  rewrite Ewes. apply flat_map_ext_In. intros we Iwe.
  change (exercises (visible u d)) with (exercises d).
  apply flat_map_ext_In. intros e _.
  unfold join_sets.
  assert (Es : filter (fun s => WorkoutExercise.id we =? SetRow.workoutExerciseId s)
                 (sets (visible u d))
               = filter (fun s => WorkoutExercise.id we =? SetRow.workoutExerciseId s)
                   (sets d)).
  { simpl. apply filter_filter_implied. intros s _ E. apply Z.eqb_eq in E.
    apply existsb_exists. exists we. split; [|apply Z.eqb_eq, E].
    apply filter_In in Iwe. destruct Iwe as (Iwe & Ew). apply Z.eqb_eq in Ew.
    apply filter_In. split; [exact Iwe|].
    apply existsb_exists. exists r. split.
    + apply filter_In. split; [exact I|]. apply String.eqb_eq, O.
    + apply Z.eqb_eq. symmetry. exact Ew. }
  rewrite Es. reflexivity.
Qed.

(** Workout rows of other users, whatever happens to them, are outside the
    caller's part of the store. *)
Lemma visible_ignores_foreign_workouts u d ws :
  filter (fun r => String.eqb (Workout.userId r) u) ws
  = filter (fun r => String.eqb (Workout.userId r) u) (workouts d) ->
  visible u (with_workouts d ws) = visible u d.
Proof. intros E. unfold visible. cbn [with_workouts workouts workoutExercises exercises sets].
  rewrite E. reflexivity.
Qed.

Lemma workoutsOn_owned u ds d r :
  In r (workoutsOn u ds d) -> In r (workouts d) /\ Workout.userId r = u.
Proof.
  unfold workoutsOn. intros H.
  apply (Permutation_in _ (stable_sort_perm _ _)) in H.
  apply filter_In in H. destruct H as (I & M). split; [exact I|].
  apply String.eqb_eq, (matches_owner u _ r M).
Qed.

Lemma workoutsOn_visible u ds d : workoutsOn u ds (visible u d) = workoutsOn u ds d.
Proof. unfold workoutsOn. rewrite owned_workouts_visible. reflexivity. Qed.

(** The answer computed on the whole store equals the answer computed on
    the caller's part of it. *)
Lemma getWorkoutsByDate_on_visible w u date :
  session w = Some u ->
  fst (getWorkoutsByDate date (on_store w (visible u (db w))))
  = fst (getWorkoutsByDate date w).
Proof.
  intros S.
  destruct (String.eqb_spec u EmptyString) as [->|N].
  - unfold getWorkoutsByDate. rewrite !user_empty by exact S. reflexivity.
  - destruct (Pg.date_in (formatDateForDb (tza w) date)) as [c|] eqn:D.
    + rewrite (getWorkoutsByDate_run w u date c S N D).
      rewrite (getWorkoutsByDate_run (on_store w (visible u (db w))) u date c S N D).
      cbn [fst on_store db tza]. rewrite workoutsOn_visible.
      do 3 f_equal. apply map_ext_in. intros i Hi.
      apply in_map_iff in Hi. destruct Hi as (r & <- & Hr).
      apply workoutsOn_owned in Hr. destruct Hr as (I & O).
      rewrite (exercise_data_visible u (db w) r I O). reflexivity.
    + rewrite (getWorkoutsByDate_rejected w u date S N D).
      rewrite (getWorkoutsByDate_rejected (on_store w (visible u (db w))) u date S N D).
      reflexivity.
Qed.

Lemma find_exercise_data (g : Z -> list Joined.t) ids i :
  In i ids ->
  find (fun item => fst item =? i) (map (fun j => (j, g j)) ids) = Some (i, g i).
Proof.
  induction ids as [|j t IH]; simpl; [contradiction|].
  destruct (Z.eqb_spec j i) as [->|N]; [reflexivity|].
  intros [E|H]; [contradiction|apply IH, H].
Qed.

Lemma workoutView_found (g : Z -> list Joined.t) ids r :
  In (Workout.id r) ids ->
  workoutView (map (fun j => (j, g j)) ids) r
  = WorkoutView.mk (Workout.id r) (Workout.name r) (JsDate.parse (Workout.date r))
      (Workout.durationMinutes r) (Workout.notes r) (groupExercises (g (Workout.id r))).
Proof.
  intros H. unfold workoutView. rewrite (find_exercise_data g ids _ H). reflexivity.
Qed.

(** C2 (as amended). For every caller and date, every workout view that
    [getWorkoutsByDate] returns is built from a workout row the caller owns
    and from the joined rows of that workout; the statement on [workouts]
    carries the ownership predicate and each other statement it sends reads
    the exercise rows of one workout the caller owns, selected by that
    workout's id; and the answer depends on the caller's part of the store
    only: whatever is added to or changed in the rest of the store, the
    caller observes the same result. *)
Theorem getWorkoutsByDate_owner_only (w : World) (u : string) (date : JsDate.Date) :
  session w = Some u ->
  (forall views, fst (getWorkoutsByDate date w) = Returned views ->
     forall v, In v views ->
       exists r, In r (workouts (db w)) /\ Workout.userId r = u
         /\ v = WorkoutView.mk (Workout.id r) (Workout.name r)
                  (JsDate.parse (Workout.date r)) (Workout.durationMinutes r)
                  (Workout.notes r)
                  (groupExercises (exercise_data (db w) (Workout.id r))))
  /\ (exists sent,
        log (snd (getWorkoutsByDate date w)) = log w ++ sent
        /\ forall s, In s sent ->
             owner_scoped u s = true
             \/ exists r, In r (workouts (db w)) /\ Workout.userId r = u
                  /\ s = select_exercise_data (Workout.id r))
  /\ (forall d', visible u d' = visible u (db w) ->
        fst (getWorkoutsByDate date (on_store w d')) = fst (getWorkoutsByDate date w)).
Proof.
  intros S. split; [|split].
  - destruct (String.eqb_spec u EmptyString) as [->|N].
    { unfold getWorkoutsByDate. rewrite user_empty by exact S. discriminate. }
    destruct (Pg.date_in (formatDateForDb (tza w) date)) as [c|] eqn:D.
    2:{ rewrite (getWorkoutsByDate_rejected w u date S N D). discriminate. }
    rewrite (getWorkoutsByDate_run w u date c S N D). cbn [fst].
    intros views [= <-] v Hv. apply in_map_iff in Hv. destruct Hv as (r & <- & Hr).
    pose proof (workoutsOn_owned _ _ _ _ Hr) as (I & O).
    exists r. split; [exact I|]. split; [exact O|].
    apply workoutView_found, in_map, Hr.
  - destruct (String.eqb_spec u EmptyString) as [->|N].
    { exists []. unfold getWorkoutsByDate. rewrite user_empty by exact S.
      rewrite List.app_nil_r. split; [reflexivity|]. intros s []. }
    destruct (Pg.date_in (formatDateForDb (tza w) date)) as [c|] eqn:D.
    + rewrite (getWorkoutsByDate_run w u date c S N D). cbn [snd logged log].
      eexists. split; [reflexivity|]. intros s [<-|Hs].
      * left. simpl. rewrite String.eqb_refl. reflexivity.
      * right. apply in_map_iff in Hs. destruct Hs as (i & <- & Hi).
        apply in_map_iff in Hi. destruct Hi as (r & <- & Hr).
        pose proof (workoutsOn_owned _ _ _ _ Hr) as (I & O).
        exists r. auto.
    + rewrite (getWorkoutsByDate_rejected w u date S N D). cbn [snd logged log].
      eexists. split; [reflexivity|]. intros s [<-|[]].
      left. simpl. rewrite String.eqb_refl. reflexivity.
  - intros d' V.
    rewrite <- (getWorkoutsByDate_on_visible w u date S).
    rewrite <- (getWorkoutsByDate_on_visible (on_store w d') u date S).
    cbn [on_store db session tza clock log revalidated]. rewrite V. reflexivity.
Qed.

End Ownership.

Module WriteFacts.
Import SrcData RunFacts.

Lemma targets_spec u workoutId r :
  targets u workoutId r = true <-> Workout.id r = workoutId /\ Workout.userId r = u.
Proof.
  unfold targets, matches. simpl.
  rewrite andb_true_r, andb_true_iff, Z.eqb_eq, String.eqb_eq. reflexivity.
Qed.


Lemma with_workouts_same d : with_workouts d (workouts d) = d.
Proof. destruct d. reflexivity. Qed.


Lemma map_no_target u workoutId (f : Workout.t -> Workout.t) ws :
  (forall r, In r ws -> targets u workoutId r = false) ->
  map (fun r => if targets u workoutId r then f r else r) ws = ws
  /\ filter (targets u workoutId) ws = []
  /\ others u workoutId ws = ws.
Proof.
  unfold others. induction ws as [|r t IH]; simpl; [auto|].
  intros H. rewrite (H r) by auto. simpl.
  destruct IH as (A & B & C); [auto|]. rewrite A, B, C. auto.
Qed.


(** The parameters of a statement on one workout of one user are accepted
    when the id is in the range of the column. *)
Lemma cond_ok_target u workoutId :
  forallb cond_ok [eq_id workoutId; eq_userId u] = Pg.int4 workoutId.
Proof. cbn [forallb cond_ok]. destruct (Pg.int4 workoutId); reflexivity. Qed.

Lemma exec_update_no_target u workoutId upd d :
  (forall r, In r (workouts d) -> targets u workoutId r = false) ->
  exec_update d upd [eq_id workoutId; eq_userId u]
  = if Pg.int4 workoutId && Pg.opt_int4 (WorkoutUpdate.durationMinutes upd)
    then match WorkoutUpdate.date upd with
         | Some s => match Pg.date_in s with
                     | Some _ => Some ([], d)
                     | None => None
                     end
         | None => Some ([], d)
         end
    else None.
Proof.
  intros H. unfold exec_update. rewrite cond_ok_target.
  change (matches [eq_id workoutId; eq_userId u]) with (targets u workoutId).
  assert (E : forall c,
             (map (updated_row upd c) (filter (targets u workoutId) (workouts d)),
              with_workouts d
                (map (fun r => if targets u workoutId r then updated_row upd c r else r)
                   (workouts d))) = ([], d)).
  { intros c. destruct (map_no_target u workoutId (updated_row upd c) _ H) as (A & B & _).
    rewrite A, B, with_workouts_same. reflexivity. }
  destruct (WorkoutUpdate.date upd) as [s|]; [destruct (Pg.date_in s)|];
    rewrite ?E; reflexivity.
Qed.


Lemma filter_all {A} (f : A -> bool) l :
  (forall x, In x l -> f x = true) -> filter f l = l.
Proof.
  induction l as [|a t IH]; simpl; [reflexivity|].
  intros H. rewrite (H a) by auto. rewrite IH by auto. reflexivity.
Qed.

Lemma delete_cascade_no_target u workoutId d :
  (forall r, In r (workouts d) -> targets u workoutId r = false) ->
  delete_cascade d [eq_id workoutId; eq_userId u] = d.
Proof.
  intros H. unfold delete_cascade.
  change (matches [eq_id workoutId; eq_userId u]) with (targets u workoutId).
  destruct (map_no_target u workoutId (fun r => r) _ H) as (_ & B & C).
  rewrite B. cbv zeta. cbn [map existsb negb]. unfold others in C. rewrite C.
  rewrite !filter_all by reflexivity.
  rewrite (GroupingFacts.filter_none (fun _ => false)) by reflexivity.
  cbn [map existsb negb]. rewrite filter_all by reflexivity.
  destruct d. reflexivity.
Qed.

End WriteFacts.

Module WriteRuns.
Import SrcData RunFacts WriteFacts.

(** The column assignments [updateWorkout] sends. *)
Lemma updateWorkout_run w u workoutId data :
  session w = Some u -> u <> EmptyString ->
  updateWorkout workoutId data w
  = match u_date data with
    | Some dt =>
        match JsDate.toISOString dt with
        | Some s =>
            bind (Db.update
                    (WorkoutUpdate.mk (u_name data)
                       (Some (hd EmptyString (Js.split "T" s)))
                       (u_durationMinutes data) (u_notes data))
                    [eq_id workoutId; eq_userId u])
              (fun rows => ret (first rows)) w
        | None => (Thrown (RangeError "Invalid time value"), w)
        end
    | None =>
        bind (Db.update
                (WorkoutUpdate.mk (u_name data) None (u_durationMinutes data)
                   (u_notes data))
                [eq_id workoutId; eq_userId u])
          (fun rows => ret (first rows)) w
    end.
Proof.
  intros S N. unfold updateWorkout. rewrite (user_resolved _ w u S N).
  destruct (u_date data) as [dt|]; [|reflexivity].
  unfold isoDay. destruct (JsDate.toISOString dt); reflexivity.
Qed.

Lemma update_sent w upd wh :
  bind (Db.update upd wh) (fun rows => ret (first rows)) w
  = if Db.no_values upd then (Thrown (Error "No values to set"), w)
    else match exec_update (db w) upd wh with
         | Some (rows, d) =>
             (Returned (first rows), on_store (logged w [update_workouts upd wh]) d)
         | None => (Thrown DbError, logged w [update_workouts upd wh])
         end.
Proof.
  unfold bind, Db.update, send.
  destruct (Db.no_values upd); [reflexivity|].
  destruct (exec_update (db w) upd wh) as [[rows d]|]; reflexivity.
Qed.

Lemma deleteWorkout_run w u workoutId :
  session w = Some u -> u <> EmptyString ->
  deleteWorkout workoutId w
  = if Pg.int4 workoutId
    then (Returned (first (filter (targets u workoutId) (workouts (db w)))),
          on_store (logged w [delete_workouts [eq_id workoutId; eq_userId u]])
            (delete_cascade (db w) [eq_id workoutId; eq_userId u]))
    else (Thrown DbError, logged w [delete_workouts [eq_id workoutId; eq_userId u]]).
Proof.
  intros S N. unfold deleteWorkout. rewrite (user_resolved _ w u S N).
  unfold bind, Db.delete, send, exec_delete. rewrite cond_ok_target.
  destruct (Pg.int4 workoutId); reflexivity.
Qed.




Lemma deleteWorkout_no_target w u workoutId :
  session w = Some u -> u <> EmptyString ->
  (forall r, In r (workouts (db w)) -> targets u workoutId r = false) ->
  db (snd (deleteWorkout workoutId w)) = db w
  /\ fst (deleteWorkout workoutId w)
     = if Pg.int4 workoutId then Returned None else Thrown DbError.
Proof.
  intros S N H. rewrite (deleteWorkout_run w u workoutId S N).
  destruct (Pg.int4 workoutId); [|simpl; auto].
  cbn [fst snd on_store db].
  rewrite (delete_cascade_no_target u workoutId (db w) H).
  destruct (map_no_target u workoutId (fun r => r) _ H) as (_ & B & _).
  rewrite B. auto.
Qed.

End WriteRuns.

Module IsoFacts.
Import Js JsDate JsFacts DateFacts DateUtilsFacts PgFacts.

Lemma daysInMonth_cases y m :
  1 <= m <= 12 ->
  (m = 1 /\ Pg.daysInMonth y m = 31) \/ (m = 2 /\ Pg.daysInMonth y m = if isLeap y then 29 else 28)
  \/ (m = 3 /\ Pg.daysInMonth y m = 31) \/ (m = 4 /\ Pg.daysInMonth y m = 30)
  \/ (m = 5 /\ Pg.daysInMonth y m = 31) \/ (m = 6 /\ Pg.daysInMonth y m = 30)
  \/ (m = 7 /\ Pg.daysInMonth y m = 31) \/ (m = 8 /\ Pg.daysInMonth y m = 31)
  \/ (m = 9 /\ Pg.daysInMonth y m = 30) \/ (m = 10 /\ Pg.daysInMonth y m = 31)
  \/ (m = 11 /\ Pg.daysInMonth y m = 30) \/ (m = 12 /\ Pg.daysInMonth y m = 31).
Proof.
  intros H.
  assert (C : m = 1 \/ m = 2 \/ m = 3 \/ m = 4 \/ m = 5 \/ m = 6 \/ m = 7
              \/ m = 8 \/ m = 9 \/ m = 10 \/ m = 11 \/ m = 12) by lia.
  repeat (destruct C as [->|C]; [tauto|]). subst m. tauto.
Qed.

(** The calendar fields of the day [MakeDay] builds from a calendar date are
    that date. *)
Lemma fields_of_MakeDay y m d t :
  1 <= m <= 12 -> 1 <= d <= Pg.daysInMonth y m ->
  Day t = MakeDay y (m - 1) d ->
  YearFromTime t = y /\ MonthFromTime t = m - 1 /\ DateFromTime t = d.
Proof.
  intros Hm Hd E.
  assert (Em : Day t = DayFromYear y
                       + daysBeforeMonth (m - 1) (if isLeap y then 1 else 0) + d - 1).
  { rewrite E. unfold MakeDay. rewrite Z.div_small, Z.mod_small, Z.add_0_r by lia.
    reflexivity. }
  clear E.
  assert (Ey : YearFromTime t = y).
  { unfold YearFromTime. apply YearFromDay_unique. rewrite Em, DayFromYear_succ.
    unfold DaysInYear.
    destruct (daysInMonth_cases y m Hm) as
      [[-> D]|[[-> D]|[[-> D]|[[-> D]|[[-> D]|[[-> D]|[[-> D]|[[-> D]|[[-> D]|
       [[-> D]|[[-> D]|[-> D]]]]]]]]]]]];
      rewrite D in Hd; destruct (isLeap y); simpl daysBeforeMonth; lia. }
  split; [exact Ey|].
  assert (Ew : DayWithinYear t
               = daysBeforeMonth (m - 1) (if isLeap y then 1 else 0) + d - 1).
  { unfold DayWithinYear. rewrite Ey, Em. lia. }
  unfold DateFromTime, MonthFromTime, InLeapYear. rewrite Ey, Ew.
  destruct (daysInMonth_cases y m Hm) as
    [[-> D]|[[-> D]|[[-> D]|[[-> D]|[[-> D]|[[-> D]|[[-> D]|[[-> D]|[[-> D]|
     [[-> D]|[[-> D]|[-> D]]]]]]]]]]]];
    rewrite D in Hd; destruct (isLeap y); simpl daysBeforeMonth;
    split_ltb; cbv beta iota; lia.
Qed.

Lemma split_nonempty sep s : split sep s <> [].
Proof.
  destruct s as [|c r]; simpl; [discriminate|].
  destruct (Ascii.eqb c sep); [discriminate|].
  destruct (split sep r); discriminate.
Qed.

(** The first piece of a split, when the text starts with a part free of
    the separator. *)
Lemma hd_split_app sep a b :
  no_char sep a = true ->
  hd EmptyString (split sep (a +++ b)) = a +++ hd EmptyString (split sep b).
Proof.
  induction a as [|c r IH]; simpl; [reflexivity|].
  rewrite andb_true_iff, negb_true_iff. intros [Hc Hr]. rewrite Hc.
  specialize (IH Hr). pose proof (split_nonempty sep (r +++ b)) as NE.
  destruct (split sep (r +++ b)) as [|h t]; [contradiction|].
  simpl in *. rewrite IH. reflexivity.
Qed.

Lemma append_nil_r s : s +++ EmptyString = s.
Proof. induction s as [|c r IH]; simpl; [reflexivity|]. rewrite IH. reflexivity. Qed.

Lemma T_not_digit : uint_of_char "T" (Some Nil) = None.
Proof. reflexivity. Qed.

(** The date part of an ISO text: what stands before the [T]. *)
Lemma hd_split_T y m d rest :
  0 <= y -> 0 <= m -> 0 <= d ->
  hd EmptyString
    (split "T" (pad 4 y +++ "-" +++ pad 2 m +++ "-" +++ pad 2 d +++ "T" +++ rest))
  = pad 4 y +++ "-" +++ pad 2 m +++ "-" +++ pad 2 d.
Proof.
  intros Hy Hm Hd. unfold pad.
  rewrite hd_split_app by (apply no_char_padStart; [apply T_not_digit|assumption]).
  rewrite (hd_split_app "T" "-") by reflexivity.
  rewrite hd_split_app by (apply no_char_padStart; [apply T_not_digit|assumption]).
  rewrite (hd_split_app "T" "-") by reflexivity.
  rewrite hd_split_app by (apply no_char_padStart; [apply T_not_digit|assumption]).
  simpl split. simpl hd. rewrite append_nil_r. reflexivity.
Qed.

(** The date [toISOString] prints for a time in the years 0 to 9999. *)
Lemma isoDay_utc t w :
  Z.abs t <= maxTime -> 0 <= YearFromTime t <= 9999 ->
  SrcData.isoDay (Some t) w = (Returned (Pg.date_out (localDay 0 t)), w).
Proof.
  intros Ht Hy. unfold SrcData.isoDay, toISOString.
  destruct (Z.leb_spec 0 (YearFromTime t)) as [_|L]; [|lia].
  destruct (Z.leb_spec (YearFromTime t) 9999) as [_|L]; [|lia].
  cbn [andb]. unfold ret.
  pose proof (MonthFromTime_range t). pose proof (DateFromTime_range t).
  rewrite hd_split_T by lia.
  unfold localDay, LocalTime, Pg.date_out. rewrite Z.add_0_r. reflexivity.
Qed.

(** Decimal widths, by running through the range. *)
Lemma pad_width_check n k :
  forallb (fun v => Nat.eqb (String.length (pad k (Z.of_nat v))) k) (seq 0 n) = true ->
  forall v, 0 <= v < Z.of_nat n -> String.length (pad k v) = k.
Proof.
  intros H v Hv. rewrite forallb_forall in H.
  specialize (H (Z.to_nat v)). rewrite Z2Nat.id in H by lia.
  apply Nat.eqb_eq, H, in_seq. lia.
Qed.

Lemma pad4_width v : 0 <= v <= 9999 -> String.length (pad 4 v) = 4%nat.
Proof.
  intros H. apply (pad_width_check (Z.to_nat 10000)); [vm_compute; reflexivity|].
  rewrite Z2Nat.id; lia.
Qed.

Lemma pad2_width v : 0 <= v <= 99 -> String.length (pad 2 v) = 2%nat.
Proof.
  intros H. apply (pad_width_check (Z.to_nat 100)); [vm_compute; reflexivity|].
  rewrite Z2Nat.id; lia.
Qed.

Lemma valid_date_bounds y m d :
  Pg.valid_date y m d = true ->
  1 <= y <= 5874897 /\ 1 <= m <= 12 /\ 1 <= d <= Pg.daysInMonth y m /\ d <= 31.
Proof.
  unfold Pg.valid_date. rewrite !andb_true_iff, !Z.leb_le. intros V.
  repeat split; try lia.
  destruct (daysInMonth_cases y m ltac:(lia)) as
    [[_ D]|[[_ D]|[[_ D]|[[_ D]|[[_ D]|[[_ D]|[[_ D]|[[_ D]|[[_ D]|
     [[_ D]|[[_ D]|[_ D]]]]]]]]]]]];
    rewrite D in V; try lia. destruct (isLeap y); lia.
Qed.

Lemma MakeDay_in_range y m d :
  Pg.valid_date y m d = true -> y <= 9999 ->
  Z.abs (MakeDay y (m - 1) d * msPerDay) <= maxTime.
Proof.
  intros V Hy. destruct (valid_date_bounds y m d V) as (By & Bm & Bd & _).
  pose proof (fields_of_MakeDay y m d (MakeDay y (m - 1) d * msPerDay)
                Bm Bd (Day_of_day _)) as (Ey & _).
  pose proof (YearFromDay_spec (Day (MakeDay y (m - 1) d * msPerDay))) as S.
  fold (YearFromTime (MakeDay y (m - 1) d * msPerDay)) in S.
  rewrite Ey, Day_of_day in S.
  pose proof (DayFromYear_mono 1 y ltac:(lia)).
  pose proof (DayFromYear_mono (y + 1) 10000 ltac:(lia)).
  assert (B1 : DayFromYear 1 = -719162) by reflexivity.
  assert (B2 : DayFromYear 10000 = 2932897) by reflexivity.
  unfold maxTime, msPerDay. lia.
Qed.

(** [new Date(text)] for the canonical text of a calendar date of the years
    1 to 9999: midnight UTC of that day. *)
Lemma parse_date_out y m d :
  Pg.valid_date y m d = true -> y <= 9999 ->
  parse (Pg.date_out (y, m, d)) = Some (MakeDay y (m - 1) d * msPerDay).
Proof.
  intros V Hy. destruct (valid_date_bounds y m d V) as (By & Bm & Bd & Bd').
  unfold parse, Pg.date_out, pad.
  rewrite split_app_sep by (apply no_char_padStart; [apply dash_not_digit|lia]).
  rewrite split_app_sep by (apply no_char_padStart; [apply dash_not_digit|lia]).
  rewrite split_no_char by (apply no_char_padStart; [apply dash_not_digit|lia]).
  fold (pad 4 y) (pad 2 m) (pad 2 d).
  rewrite pad4_width, !pad2_width by lia. cbn [Nat.eqb andb].
  unfold pad. rewrite !Number_padStart by lia.
  destruct (Z.leb_spec 1 m); [|lia]. destruct (Z.leb_spec m 12); [|lia].
  destruct (Z.leb_spec 1 d); [|lia]. destruct (Z.leb_spec d 31); [|lia].
  cbn [andb]. unfold MakeDate, TimeClip. rewrite Z.add_0_r.
  pose proof (MakeDay_in_range y m d V Hy) as B.
  destruct (Z.leb_spec (Z.abs (MakeDay y (m - 1) d * msPerDay)) maxTime) as [_|G];
    [reflexivity|lia].
Qed.

(** A calendar date of the years 1 to 9999 survives the trip the server
    actions send it on: text to [Date], [Date] to ISO day, ISO day to the
    store's date. *)
Lemma date_out_roundtrip y m d w :
  Pg.valid_date y m d = true -> y <= 9999 ->
  SrcData.isoDay (parse (Pg.date_out (y, m, d))) w
  = (Returned (Pg.date_out (y, m, d)), w)
  /\ Pg.date_in (Pg.date_out (y, m, d)) = Some (y, m, d).
Proof.
  intros V Hy. destruct (valid_date_bounds y m d V) as (By & Bm & Bd & _).
  split.
  - rewrite (parse_date_out y m d V Hy).
    pose proof (MakeDay_in_range y m d V Hy) as Ht.
    set (t := MakeDay y (m - 1) d * msPerDay) in *.
    pose proof (fields_of_MakeDay y m d t Bm Bd (Day_of_day _)) as (Ey & Em & Ed).
    rewrite isoDay_utc by (rewrite ?Ey; lia).
    unfold localDay, LocalTime. rewrite Z.add_0_r, Ey, Em, Ed.
    replace (m - 1 + 1) with m by lia. reflexivity.
  - unfold Pg.date_out, pad. apply date_in_fields; [left; lia|exact V].
Qed.

End IsoFacts.

Module ActionFacts.
Import SrcData EditActions RunFacts WriteFacts WriteRuns.

Lemma zodParse_ok {A} (issues : A -> list Zod.Message) input w :
  issues input = [] -> zodParse issues input w = (Returned input, w).
Proof. unfold zodParse. intros ->. reflexivity. Qed.

Lemma zodParse_issue {A} (issues : A -> list Zod.Message) input w m rest :
  issues input = m :: rest -> zodParse issues input w = (Thrown (ZodError (m :: rest)), w).
Proof. unfold zodParse. intros ->. reflexivity. Qed.

(** A well-formed update request goes to the helper; the action reports what
    the helper found. *)
Lemma updateWorkoutAction_valid input w :
  updateWorkoutSchema input = [] ->
  updateWorkoutAction input w
  = match updateWorkout (Zod.toInteger (id input))
            (mkUpdateData (Some (name input)) (Some (JsDate.parse (date input)))
               (option_map Zod.toInteger (durationMinutes input)) (notes input)) w with
    | (Returned None, w') =>
        (Returned (Failure (Zod.Text "Workout not found or unauthorized")), w')
    | (Returned (Some r), w') =>
        (Returned (Success r),
         snd (revalidatePath
                ("/dashboard/workout/" +++ Js.String_of (Zod.toInteger (id input)))
                (snd (revalidatePath "/dashboard" w'))))
    | (Thrown e, w') => onError "Failed to update workout" e w'
    end.
Proof.
  intros V. unfold updateWorkoutAction, try_catch.
  rewrite (bind_returned _ _ w input w (zodParse_ok _ _ _ V)).
  unfold bind at 1.
  destruct (updateWorkout _ _ w) as [[[r|]|e] w']; reflexivity.
Qed.

Lemma deleteWorkoutAction_valid input w :
  deleteWorkoutSchema input = [] ->
  deleteWorkoutAction input w
  = match deleteWorkout (Zod.toInteger (d_id input)) w with
    | (Returned None, w') =>
        (Returned (Failure (Zod.Text "Workout not found or unauthorized")), w')
    | (Returned (Some r), w') =>
        (Returned (Success r), snd (revalidatePath "/dashboard" w'))
    | (Thrown e, w') => onError "Failed to delete workout" e w'
    end.
Proof.
  intros V. unfold deleteWorkoutAction, try_catch.
  rewrite (bind_returned _ _ w input w (zodParse_ok _ _ _ V)).
  unfold bind at 1.
  destruct (deleteWorkout _ w) as [[[r|]|e] w']; reflexivity.
Qed.

(** A request that fails validation is answered with the first issue and
    touches nothing. *)
Lemma updateWorkoutAction_invalid input w m rest :
  updateWorkoutSchema input = m :: rest ->
  updateWorkoutAction input w = (Returned (Failure m), w).
Proof.
  intros V. unfold updateWorkoutAction, try_catch.
  rewrite (bind_thrown _ _ w _ w (zodParse_issue _ _ _ _ _ V)). reflexivity.
Qed.

Lemma deleteWorkoutAction_invalid input w m rest :
  deleteWorkoutSchema input = m :: rest ->
  deleteWorkoutAction input w = (Returned (Failure m), w).
Proof.
  intros V. unfold deleteWorkoutAction, try_catch.
  rewrite (bind_thrown _ _ w _ w (zodParse_issue _ _ _ _ _ V)). reflexivity.
Qed.



End ActionFacts.

Module StoredDate.
Import Js JsDate SrcData RunFacts WriteFacts WriteRuns ActionFacts IsoFacts PgFacts.

Lemma insert_sent w v c :
  Pg.opt_int4 (NewWorkout.durationMinutes v) = true ->
  Pg.date_in (NewWorkout.date v) = Some c ->
  bind (Db.insert v) (fun rows => ret (first rows)) w
  = (Returned (Some (inserted_row (db w) (clock w) v c)),
     on_store (logged w [insert_workouts v])
       (mkDatabase (workouts (db w) ++ [inserted_row (db w) (clock w) v c])
          (workoutExercises (db w)) (exercises (db w)) (sets (db w))
          (workouts_id_seq (db w) + 1))).
Proof.
  intros R D. unfold bind, Db.insert, send, exec_insert. rewrite R, D. reflexivity.
Qed.

Lemma createWorkout_run w u data day c :
  session w = Some u -> u <> EmptyString ->
  Pg.opt_int4 (durationMinutes data) = true ->
  isoDay (date data) w = (Returned day, w) -> Pg.date_in day = Some c ->
  exists row,
    fst (createWorkout data w) = Returned (Some row)
    /\ workouts (db (snd (createWorkout data w))) = workouts (db w) ++ [row]
    /\ Workout.date row = Pg.date_out c
    /\ Workout.userId row = u
    /\ Workout.name row = Some (name data).
Proof.
  intros S N R I D. unfold createWorkout. rewrite (user_resolved _ w u S N).
  rewrite (bind_returned _ _ w day w I).
  rewrite (insert_sent w _ c) by assumption.
  eexists. cbn [fst snd on_store db workouts]. repeat split; reflexivity.
Qed.

Lemma utc_day_accepted t :
  Z.abs t <= maxTime -> 1 <= YearFromTime t ->
  Pg.date_in (Pg.date_out (localDay 0 t)) = Some (localDay 0 t).
Proof.
  intros Ht Hy.
  pose proof (localDay_valid 0 t Ht ltac:(unfold msPerDay; lia)) as V.
  unfold LocalTime in V. rewrite Z.add_0_r in V. specialize (V Hy).
  unfold localDay in *. unfold Pg.date_out, pad. apply date_in_fields; [left; lia|exact V].
Qed.

Lemma In_updated u workoutId upd c ws r :
  In r (map (fun x => if targets u workoutId x then updated_row upd c x else x) ws) ->
  targets u workoutId r = true ->
  exists x, In x ws /\ r = updated_row upd c x.
Proof.
  intros I T. apply in_map_iff in I. destruct I as (x & E & Ix).
  destruct (targets u workoutId x) eqn:Tx.
  - exists x. auto.
  - subst r. congruence.
Qed.

(** For every valid [Date] in the years 1 to 9999 (UTC) and whatever the
    host's offset, [createWorkout] stores, and [updateWorkout] writes to
    every row it targets, the YYYY-MM-DD text of the date's UTC calendar
    fields: the day part of its ISO instant. *)
Lemma writes_store_the_utc_day (w : World) (u : string) (t : Z) :
  session w = Some u -> u <> EmptyString ->
  Z.abs t <= maxTime -> 1 <= YearFromTime t <= 9999 ->
  (forall nm dur nts,
     Pg.opt_int4 dur = true ->
     exists row,
       fst (createWorkout (mkCreateData nm (Some t) dur nts) w) = Returned (Some row)
       /\ workouts (db (snd (createWorkout (mkCreateData nm (Some t) dur nts) w)))
          = workouts (db w) ++ [row]
       /\ Workout.date row = Pg.date_out (localDay 0 t))
  /\ (forall workoutId nm dur nts r,
        Pg.int4 workoutId = true -> Pg.opt_int4 dur = true ->
        In r (workouts (db (snd (updateWorkout workoutId
                                   (mkUpdateData nm (Some (Some t)) dur nts) w)))) ->
        targets u workoutId r = true ->
        Workout.date r = Pg.date_out (localDay 0 t)).
Proof.
  intros S N Ht Hy.
  pose proof (utc_day_accepted t Ht ltac:(lia)) as A.
  split.
  - intros nm dur nts R.
    destruct (createWorkout_run w u (mkCreateData nm (Some t) dur nts)
                (Pg.date_out (localDay 0 t)) (localDay 0 t) S N R)
      as (row & F & W & D & _).
    + apply isoDay_utc; lia.
    + exact A.
    + exists row. auto.
  - intros workoutId nm dur nts r Ri Rd.
    rewrite (updateWorkout_run w u workoutId _ S N). cbn [u_date u_name u_durationMinutes u_notes].
    pose proof (isoDay_utc t w Ht ltac:(lia)) as I. unfold isoDay in I.
    destruct (toISOString (Some t)) as [s|]; [|discriminate].
    assert (I' : hd EmptyString (split "T" s) = Pg.date_out (localDay 0 t))
      by (unfold ret in I; injection I; auto).
    rewrite I', update_sent.
    assert (V : Db.no_values
                  (WorkoutUpdate.mk nm (Some (Pg.date_out (localDay 0 t))) dur nts) = false)
      by (unfold Db.no_values; cbn; destruct nm; reflexivity).
    rewrite V. unfold exec_update. rewrite cond_ok_target.
    cbn [WorkoutUpdate.date WorkoutUpdate.durationMinutes].
    rewrite A, Ri, Rd. cbn [andb snd on_store db with_workouts workouts].
    change (matches [eq_id workoutId; eq_userId u]) with (targets u workoutId).
    intros Ir T. destruct (In_updated _ _ _ _ _ _ Ir T) as (x & _ & ->). reflexivity.
Qed.

(** The create action and the helper fit together: the action turns the
    date text into midnight UTC of that day, the helper stores the UTC day
    of that instant, so a calendar date of the years 1 to 9999 is stored as
    the text that was sent, wherever the host is. *)
Lemma createWorkoutAction_keeps_the_date w u y m d nm dur nts :
  session w = Some u -> u <> EmptyString ->
  Pg.valid_date y m d = true -> y <= 9999 ->
  Pg.opt_int4 (option_map Zod.toInteger dur) = true ->
  NewActions.createWorkoutSchema
    (NewActions.mkInput nm (Pg.date_out (y, m, d)) dur nts) = [] ->
  exists row,
    fst (NewActions.createWorkoutAction
           (NewActions.mkInput nm (Pg.date_out (y, m, d)) dur nts) w)
    = Returned (Success (Some row))
    /\ Workout.date row = Pg.date_out (y, m, d).
Proof.
  intros S N V Hy R Sc.
  destruct (date_out_roundtrip y m d w V Hy) as (I & D).
  destruct (createWorkout_run w u
              (mkCreateData nm (parse (Pg.date_out (y, m, d)))
                 (option_map Zod.toInteger dur) nts)
              (Pg.date_out (y, m, d)) (y, m, d) S N R I D) as (row & F & _ & Dr & _).
  exists row. split; [|exact Dr].
  unfold NewActions.createWorkoutAction, try_catch.
  rewrite (bind_returned _ _ w _ w (zodParse_ok _ _ _ Sc)).
  cbn [NewActions.name NewActions.date NewActions.durationMinutes NewActions.notes].
  unfold bind at 1.
  destruct (createWorkout _ w) as [o w']. cbn [fst] in F. subst o. reflexivity.
Qed.

(** C4. The claim fails on a host west of UTC. Five hours west, at 20:00 on
    1 September 2025 local time (01:00 UTC on the 2nd), the local calendar
    date, which is what the read path sends to the store, is 2025-09-01,
    while [createWorkout] stores 2025-09-02 and [updateWorkout] writes
    2025-09-02 to the row it updates; the workout just created is then
    missing from what [getWorkoutsByDate] returns for that same [Date]. The
    same happens with the [Date] the create action builds from the text
    2025-09-01, midnight UTC: on that host its local calendar date is 31
    August, and the helper stores 2025-09-01. *)
Theorem evening_workout_is_stored_under_the_utc_day :
  let w := Sample.world (Some "alice") (-18000000) Sample.store in
  let t := 1756774800000 in
  let t0 := 1756684800000 in
  let created := createWorkout (mkCreateData "Late session" (Some t) None None) w in
  let updated := updateWorkout 1 (mkUpdateData None (Some (Some t)) None None) w in
  formatDateForDb (tza w) (Some t) = "2025-09-01"
  /\ (exists row,
        fst created = Returned (Some row)
        /\ Workout.id row = 5
        /\ Workout.date row = "2025-09-02")
  /\ (exists row,
        fst updated = Returned (Some row)
        /\ Workout.id row = 1
        /\ Workout.date row = "2025-09-02")
  /\ (exists views,
        fst (Data.getWorkoutsByDate (Some t) (snd created)) = Returned views
        /\ map WorkoutView.id views = [2; 1])
  /\ parse "2025-09-01" = Some t0
  /\ formatDateForDb (tza w) (Some t0) = "2025-08-31"
  /\ (exists row,
        fst (createWorkout (mkCreateData "Morning session" (Some t0) None None) w)
        = Returned (Some row)
        /\ Workout.date row = "2025-09-01").
Proof.
  split; [vm_compute; reflexivity|].
  split; [eexists; split; [vm_compute; reflexivity|split; reflexivity]|].
  split; [eexists; split; [vm_compute; reflexivity|split; reflexivity]|].
  split; [eexists; split; [vm_compute; reflexivity|reflexivity]|].
  split; [vm_compute; reflexivity|].
  split; [vm_compute; reflexivity|].
  eexists; split; [vm_compute; reflexivity|reflexivity].
Qed.

End StoredDate.

Module Indistinguishable.
Import SrcData EditActions RunFacts WriteFacts WriteRuns ActionFacts IsoFacts.









End Indistinguishable.

Module QuickCreate.
Import RunFacts.

Lemma or_else_nonempty x fallback :
  fallback <> EmptyString -> Js.or_else x fallback <> EmptyString.
Proof.
  intros F. unfold Js.or_else. destruct x as [s|]; [|exact F].
  destruct (String.eqb_spec s EmptyString); assumption.
Qed.

Lemma or_else_absent x fallback :
  x = None \/ x = Some EmptyString -> Js.or_else x fallback = fallback.
Proof. intros [->| ->]; reflexivity. Qed.

Lemma quick_create_run w u date name c :
  session w = Some u -> u <> EmptyString -> Pg.date_in date = Some c ->
  let v := NewWorkout.mk u date (Some (Js.or_else name "Untitled Workout")) None None in
  let row := inserted_row (db w) (clock w) v c in
  LibActions.createWorkout date name w
  = (Thrown (Redirect ("/workout/" +++ Js.String_of (Workout.id row) +++ "/edit")),
     mkWorld (session w) (tza w) (clock w)
       (mkDatabase (workouts (db w) ++ [row]) (workoutExercises (db w))
          (exercises (db w)) (sets (db w)) (workouts_id_seq (db w) + 1))
       (log w ++ [insert_workouts v]) (revalidated w ++ ["/dashboard"]) (scan_rank w)).
Proof.
  intros S N D v row. unfold LibActions.createWorkout.
  rewrite (user_resolved _ w u S N).
  unfold bind at 1, Db.insert, send, exec_insert. cbn [NewWorkout.date]. rewrite D.
  reflexivity.
Qed.

Lemma quick_create_rejected w u date name :
  session w = Some u -> u <> EmptyString -> Pg.date_in date = None ->
  db (snd (LibActions.createWorkout date name w)) = db w.
Proof.
  intros S N D. unfold LibActions.createWorkout.
  rewrite (user_resolved _ w u S N).
  unfold bind at 1, Db.insert, send, exec_insert. cbn [NewWorkout.date]. rewrite D.
  reflexivity.
Qed.

(** C10. For every call of the quick-create action, each workout row that
    the call adds to the store has a name that is neither null nor empty,
    and when the name argument is omitted or empty that stored name is the
    text Untitled Workout; for a resolved caller and a date the store
    accepts the call does add exactly one such row, by an insert that
    carries the name. *)
Theorem quick_create_stores_a_name (w : World) (date : string) (name : option string) :
  let w' := snd (LibActions.createWorkout date name w) in
  (forall r, In r (workouts (db w')) ->
     In r (workouts (db w))
     \/ exists n, Workout.name r = Some n /\ n <> EmptyString
          /\ (name = None \/ name = Some EmptyString -> n = "Untitled Workout"))
  /\ (forall u c, session w = Some u -> u <> EmptyString -> Pg.date_in date = Some c ->
        exists row,
          workouts (db w') = workouts (db w) ++ [row]
          /\ Workout.name row = Some (Js.or_else name "Untitled Workout")
          /\ In (insert_workouts
                   (NewWorkout.mk u date (Some (Js.or_else name "Untitled Workout"))
                      None None))
               (log w')).
Proof.
  intros w'. subst w'. split.
  - intros r.
    destruct (session w) as [u|] eqn:S.
    2:{ unfold LibActions.createWorkout. rewrite user_missing by exact S. auto. }
    destruct (String.eqb_spec u EmptyString) as [->|N].
    { unfold LibActions.createWorkout. rewrite user_empty by exact S. auto. }
    destruct (Pg.date_in date) as [c|] eqn:D.
    + rewrite (quick_create_run w u date name c S N D). cbn [snd db workouts].
      intros I. apply in_app_or in I. destruct I as [I|[<-|[]]]; [auto|].
      right. exists (Js.or_else name "Untitled Workout"). split; [reflexivity|].
      split; [apply or_else_nonempty; discriminate|apply or_else_absent].
    + rewrite (quick_create_rejected w u date name S N D). auto.
  - intros u c S N D. rewrite (quick_create_run w u date name c S N D).
    cbn [snd db workouts log]. eexists. split; [reflexivity|]. split; [reflexivity|].
    apply in_or_app. right. left. reflexivity.
Qed.

Example quick_create_untitled :
  let w' := snd (LibActions.createWorkout "2025-09-07" None
                   (Sample.world (Some "alice") 0 Sample.store)) in
  workouts (db w')
  = workouts Sample.store
    ++ [Workout.mk 5 "alice" "2025-09-07" (Some "Untitled Workout") None None 5000 5000].
Proof. vm_compute. reflexivity. Qed.

End QuickCreate.

Module Validation.
Import RunFacts ActionFacts NewActions.

Lemma hd_error_app {A} (a b : list A) :
  hd_error (a ++ b) = match hd_error a with Some x => Some x | None => hd_error b end.
Proof. destruct a; reflexivity. Qed.

Lemma int_positive_first n :
  hd_error (Zod.int_positive n) = durationViolation (Some n).
Proof.
  unfold Zod.int_positive, durationViolation.
  destruct (Zod.isInteger n), (Zod.isPositive n); reflexivity.
Qed.

Lemma payload_first name date duration notes :
  hd_error
    ((Zod.min_ 1 (Some "Workout name is required") name ++ Zod.max_ 100 name)
     ++ Zod.min_ 1 (Some "Date is required") date
     ++ Zod.optional Zod.int_positive duration
     ++ Zod.optional (Zod.max_ 1000) notes)
  = payloadViolation name date duration notes.
Proof.
  unfold payloadViolation, Zod.min_, Zod.max_.
  destruct (Z.ltb_spec (Zod.len name) 1) as [L|L]; [reflexivity|].
  destruct (Z.ltb_spec 100 (Zod.len name)) as [G|G]; [reflexivity|].
  destruct (Z.ltb_spec (Zod.len date) 1) as [D|D]; [reflexivity|].
  cbn [List.app]. rewrite hd_error_app.
  destruct duration as [q|]; cbn [Zod.optional].
  - rewrite int_positive_first.
    destruct (durationViolation (Some q)); [reflexivity|].
    destruct notes as [s|]; simpl; [destruct (1000 <? Zod.len s)|]; reflexivity.
  - simpl. destruct notes as [s|]; simpl; [destruct (1000 <? Zod.len s)|]; reflexivity.
Qed.

(** The schemas raise, first, the first rule broken. *)
Lemma createWorkoutSchema_first i :
  hd_error (createWorkoutSchema i) = createViolation i.
Proof. apply payload_first. Qed.

Lemma updateWorkoutSchema_first i :
  hd_error (EditActions.updateWorkoutSchema i) = updateViolation i.
Proof.
  unfold EditActions.updateWorkoutSchema, updateViolation.
  rewrite hd_error_app, int_positive_first, payload_first. reflexivity.
Qed.

Lemma deleteWorkoutSchema_first i :
  hd_error (EditActions.deleteWorkoutSchema i) = deleteViolation i.
Proof. apply int_positive_first. Qed.

Lemma createWorkoutAction_invalid input w m rest :
  createWorkoutSchema input = m :: rest ->
  createWorkoutAction input w = (Returned (Failure m), w).
Proof.
  intros V. unfold createWorkoutAction, try_catch.
  rewrite (bind_thrown _ _ w _ w (zodParse_issue _ _ _ _ _ V)). reflexivity.
Qed.

Lemma createWorkoutAction_valid input w :
  createWorkoutSchema input = [] ->
  createWorkoutAction input w
  = try_catch
      (bind
         (SrcData.createWorkout
            (SrcData.mkCreateData (name input) (JsDate.parse (date input))
               (option_map Zod.toInteger (durationMinutes input)) (notes input)))
         (fun workout => bind (revalidatePath "/dashboard")
                           (fun _ => ret (Success workout))))
      (onError "Failed to create workout") w.
Proof.
  intros V. unfold createWorkoutAction, try_catch.
  rewrite (bind_returned _ _ w input w (zodParse_ok _ _ _ V)). reflexivity.
Qed.

Lemma first_issue {A} (l : list A) m : hd_error l = Some m -> exists rest, l = m :: rest.
Proof. destruct l as [|x t]; [discriminate|]. intros [= ->]. exists t. reflexivity. Qed.

Lemma no_issue {A} (l : list A) : hd_error l = None -> l = [].
Proof. destruct l; [reflexivity|discriminate]. Qed.

(** C7 (as amended). On the three validated write paths (the create, update
    and delete server actions) the request is checked against the schema
    before anything else happens: name non-empty and at most 100 characters,
    date non-empty, duration a positive integer, notes at most 1000
    characters, id a positive integer. A request that breaks a rule is
    answered with the message of the first rule it breaks and the world is
    left untouched: no statement is sent and the identity provider is not
    even asked. A request that breaks none is handed to the ownership-scoped
    helper. *)
Theorem validation_precedes_the_helpers (w : World) :
  (forall input m, createViolation input = Some m ->
     createWorkoutAction input w = (Returned (Failure m), w))
  /\ (forall input m, updateViolation input = Some m ->
        EditActions.updateWorkoutAction input w = (Returned (Failure m), w))
  /\ (forall input m, deleteViolation input = Some m ->
        EditActions.deleteWorkoutAction input w = (Returned (Failure m), w))
  /\ (forall input, createViolation input = None ->
        createWorkoutAction input w
        = try_catch
            (bind
               (SrcData.createWorkout
                  (SrcData.mkCreateData (name input) (JsDate.parse (date input))
                     (option_map Zod.toInteger (durationMinutes input)) (notes input)))
               (fun workout => bind (revalidatePath "/dashboard")
                                 (fun _ => ret (Success workout))))
            (onError "Failed to create workout") w).
Proof.
  split; [|split; [|split]].
  - intros input m V. rewrite <- createWorkoutSchema_first in V.
    destruct (first_issue _ _ V) as (rest & E).
    apply (createWorkoutAction_invalid input w m rest E).
  - intros input m V. rewrite <- updateWorkoutSchema_first in V.
    destruct (first_issue _ _ V) as (rest & E).
    apply (updateWorkoutAction_invalid input w m rest E).
  - intros input m V. rewrite <- deleteWorkoutSchema_first in V.
    destruct (first_issue _ _ V) as (rest & E).
    apply (deleteWorkoutAction_invalid input w m rest E).
  - intros input V. rewrite <- createWorkoutSchema_first in V.
    apply createWorkoutAction_valid, no_issue, V.
Qed.

(** C7 as stated fails for the date rule: a date text that names no calendar
    date (month 13, day 45) is not caught by the schema, and the action
    answers with its generic failure instead of a validation message. *)
Lemma malformed_date_passes_validation :
  let input := mkInput "Leg day" "2025-13-45" None None in
  let w := Sample.world (Some "alice") 0 Sample.store in
  Pg.date_in (date input) = None
  /\ createWorkoutSchema input = []
  /\ createViolation input = None
  /\ fst (createWorkoutAction input w)
     = Returned (Failure (Zod.Text "Failed to create workout")).
Proof. vm_compute. repeat split; reflexivity. Qed.

(** The quick-create action of the dashboard validates nothing: a name of
    101 characters goes straight into the insert. *)
Example quick_create_is_not_validated :
  In (insert_workouts (NewWorkout.mk "alice" "2025-09-01" (Some Sample.long_name) None None))
    (log (snd (LibActions.createWorkout "2025-09-01" (Some Sample.long_name)
                 (Sample.world (Some "alice") 0 Sample.store))))
  /\ Zod.len Sample.long_name = 101.
Proof. vm_compute. split; [left|]; reflexivity. Qed.

End Validation.

Module Witnesses.
Import Data SrcData EditActions.

(** Alice reads 1 September 2025 on a host in UTC. *)
Lemma getWorkoutsByDate_owner_only_witness :
  let w := Sample.world (Some "alice") 0 Sample.store in
  let date := Some Sample.noon in
  (forall views, fst (getWorkoutsByDate date w) = Returned views ->
     forall v, In v views ->
       exists r, In r (workouts (db w)) /\ Workout.userId r = "alice"
         /\ v = WorkoutView.mk (Workout.id r) (Workout.name r)
                  (JsDate.parse (Workout.date r)) (Workout.durationMinutes r)
                  (Workout.notes r)
                  (groupExercises (exercise_data (db w) (Workout.id r))))
  /\ (exists sent,
        log (snd (getWorkoutsByDate date w)) = log w ++ sent
        /\ forall s, In s sent ->
             owner_scoped "alice" s = true
             \/ exists r, In r (workouts (db w)) /\ Workout.userId r = "alice"
                  /\ s = select_exercise_data (Workout.id r))
  /\ (forall d', visible "alice" d' = visible "alice" (db w) ->
        fst (getWorkoutsByDate date (on_store w d')) = fst (getWorkoutsByDate date w)).
Proof.
  apply (Ownership.getWorkoutsByDate_owner_only
           (Sample.world (Some "alice") 0 Sample.store) "alice" (Some Sample.noon)).
  reflexivity.
Defined.

(** C2 as stated fails on its second part: of the three statements Alice's
    read sends, the two that fetch the exercise rows select by workout id
    and carry no ownership predicate. *)
Lemma child_queries_lack_the_owner_predicate :
  let w := Sample.world (Some "alice") 0 Sample.store in
  log (snd (getWorkoutsByDate (Some Sample.noon) w))
  = [ select_workouts [eq_userId "alice"; eq_date "2025-09-01"] (Some desc_createdAt) None;
      select_exercise_data 2;
      select_exercise_data 1 ]
  /\ ~ Forall (fun s => owner_scoped "alice" s = true)
         (log (snd (getWorkoutsByDate (Some Sample.noon) w))).
Proof.
  split; [vm_compute; reflexivity|].
  intros F. rewrite Forall_forall in F.
  specialize (F (select_exercise_data 2)).
  assert (I : In (select_exercise_data 2)
                (log (snd (getWorkoutsByDate (Some Sample.noon)
                             (Sample.world (Some "alice") 0 Sample.store)))))
    by (vm_compute; auto).
  specialize (F I). discriminate F.
Qed.

(** Bob's rows change, Alice's answer does not. *)
Example bob_changes_nothing_for_alice :
  let d' :=
    mkDatabase
      [ Sample.pull; Sample.push;
        Workout.mk 3 "bob" "2025-09-01" (Some "Renamed") (Some 90) None 9000 9000;
        Workout.mk 7 "bob" "2025-09-01" None None None 9500 9500; Sample.august ]
      [ Sample.push_bench; Sample.push_row; Sample.legs_bench;
        WorkoutExercise.mk 103 7 11 1 None 0 ]
      [ Sample.bench; Sample.row ]
      [ Sample.set_c; Sample.set_a; Sample.set_b;
        SetRow.mk 1004 103 1 false (Some 10000) 3 None None 0 ] 7 in
  visible "alice" d' = visible "alice" Sample.store
  /\ fst (getWorkoutsByDate (Some Sample.noon) (Sample.world (Some "alice") 0 d'))
     = fst (getWorkoutsByDate (Some Sample.noon)
              (Sample.world (Some "alice") 0 Sample.store)).
Proof. vm_compute. split; reflexivity. Qed.

(** Alice reads 15 September 2025, a day with two workouts of which the
    one created first is also stored first: the one created later comes
    first in the answer. *)
Lemma getWorkoutsByDate_newest_first_witness :
  let w := Sample.world (Some "alice") 0 Sample.september in
  let t := Sample.noon + 14 * JsDate.msPerDay in
  let first := Workout.mk 1 "alice" "2025-09-15" (Some "Push") None None 1000 1000 in
  let second := Workout.mk 3 "alice" "2025-09-15" (Some "Legs") None None 3000 3000 in
  exists views rows pre mid post,
    fst (getWorkoutsByDate (Some t) w) = Returned views
    /\ map WorkoutView.id views = map Workout.id rows
    /\ (forall r, In r rows <->
                  In r (workouts (db w)) /\ ownedOn "alice" (localDay (tza w) t) r)
    /\ StronglySorted (fun a b => Workout.createdAt b <= Workout.createdAt a) rows
    /\ map WorkoutView.id views
       = pre ++ Workout.id second :: mid ++ Workout.id first :: post.
Proof.
  apply (Ordering.getWorkoutsByDate_newest_first
           (Sample.world (Some "alice") 0 Sample.september) "alice"
           (Sample.noon + 14 * JsDate.msPerDay)).
  - reflexivity.
  - discriminate.
  - vm_compute. intro H. discriminate H.
  - vm_compute. intro H. discriminate H.
  - vm_compute. intro H. discriminate H.
  - left. reflexivity.
  - split; vm_compute; reflexivity.
  - right. right. left. reflexivity.
  - split; vm_compute; reflexivity.
  - reflexivity.
Defined.

(** The specification's scenario: of Alice's two workouts of the day, the
    one created at 2000 is listed before the one created at 1000. *)
Example same_day_workouts_newest_first :
  option_map (map WorkoutView.id)
    (match fst (getWorkoutsByDate (Some Sample.noon)
                  (Sample.world (Some "alice") 0 Sample.store)) with
     | Returned views => Some views
     | Thrown _ => None
     end)
  = Some [2; 1].
Proof. vm_compute. reflexivity. Qed.


(** The specification's scenario, run: both calls answer alike. *)
Example update_of_foreign_and_of_missing_workout :
  let w := Sample.world (Some "alice") 0 Sample.store in
  fst (updateWorkoutAction (mkUpdateInput (3 # 1) "Mine now" "2025-09-05" None None) w)
  = Returned (Failure (Zod.Text "Workout not found or unauthorized"))
  /\ fst (updateWorkoutAction
            (mkUpdateInput (9999999 # 1) "Mine now" "2025-09-05" None None) w)
     = Returned (Failure (Zod.Text "Workout not found or unauthorized"))
  /\ db (snd (updateWorkoutAction
                (mkUpdateInput (3 # 1) "Mine now" "2025-09-05" None None) w))
     = Sample.store.
Proof. vm_compute. repeat split; reflexivity. Qed.

End Witnesses.

Module MonthDates.
Import Data Js JsDate JsFacts DateFacts DateUtilsFacts PgFacts IsoFacts RunFacts.

Lemma distinct_In l s : In s (distinct l) <-> In s l.
Proof.
  induction l as [|x t IH]; simpl; [reflexivity|].
  rewrite filter_In, IH, negb_true_iff, String.eqb_neq.
  destruct (string_dec x s) as [->|N]; tauto.
Qed.

Lemma distinct_NoDup l : NoDup (distinct l).
Proof.
  induction l as [|x t IH]; simpl; constructor.
  - rewrite filter_In, negb_true_iff, String.eqb_neq. tauto.
  - apply NoDup_filter, IH.
Qed.

(** The last day of a month is the day before the first of the next. *)
Lemma MakeDay_day_zero y m :
  0 <= m <= 11 -> MakeDay y (m + 1) 0 = MakeDay y m (Pg.daysInMonth y (m + 1)).
Proof.
  intros Hm. unfold MakeDay.
  assert (C : m = 0 \/ m = 1 \/ m = 2 \/ m = 3 \/ m = 4 \/ m = 5 \/ m = 6
              \/ m = 7 \/ m = 8 \/ m = 9 \/ m = 10 \/ m = 11) by lia.
  destruct C as [->|[->|[->|[->|[->|[->|[->|[->|[->|[->|[->| ->]]]]]]]]]]];
    repeat match goal with
           | |- context [?a / 12] =>
               let v := eval vm_compute in (a / 12) in change (a / 12) with v
           | |- context [?a mod 12] =>
               let v := eval vm_compute in (a mod 12) in change (a mod 12) with v
           | |- context [Pg.daysInMonth y ?a] =>
               let v := eval cbv in a in
               change (Pg.daysInMonth y a) with (Pg.daysInMonth y v);
               cbv beta iota delta [Pg.daysInMonth]
           end;
    cbv beta iota delta [daysBeforeMonth]; rewrite ?Z.add_0_r;
    rewrite ?DayFromYear_succ; unfold DaysInYear;
    destruct (isLeap y); try destruct (isLeap (y + 1)); lia.
Qed.

(** [new Date(year, month, day)] for a calendar date from the year 100 on,
    and what the formatter and the store make of it. *)
Lemma newDate_local z y m d :
  Z.abs z <= msPerDay -> 100 <= y <= 9999 -> 0 <= m <= 11 ->
  1 <= d <= Pg.daysInMonth y (m + 1) ->
  Pg.date_in (formatDateForDb z (Some (MakeDay y m d * msPerDay - z)))
  = Some (y, m + 1, d)
  /\ Z.abs (MakeDay y m d * msPerDay - z) <= maxTime.
Proof.
  intros Hz Hy Hm Hd.
  assert (V : Pg.valid_date y (m + 1) d = true).
  { unfold Pg.valid_date. rewrite !andb_true_iff, !Z.leb_le. lia. }
  pose proof (MakeDay_in_range y (m + 1) d V ltac:(lia)) as B.
  replace (m + 1 - 1) with m in B by lia.
  set (t := MakeDay y m d * msPerDay - z).
  assert (El : LocalTime z t = MakeDay y m d * msPerDay) by (unfold LocalTime, t; lia).
  pose proof (fields_of_MakeDay y (m + 1) d (LocalTime z t) ltac:(lia) Hd) as F.
  replace (m + 1 - 1) with m in F by lia.
  destruct F as (Fy & Fm & Fd); [rewrite El; apply Day_of_day|].
  assert (Bt : Z.abs t <= maxTime).
  { pose proof (DayFromYear_mono 100 y ltac:(lia)).
    pose proof (YearFromDay_spec (Day (LocalTime z t))) as S.
    fold (YearFromTime (LocalTime z t)) in S. rewrite Fy, El, Day_of_day in S.
    pose proof (DayFromYear_mono (y + 1) 10000 ltac:(lia)).
    assert (B1 : DayFromYear 100 = -683003) by reflexivity.
    assert (B2 : DayFromYear 10000 = 2932897) by reflexivity.
    unfold t, maxTime, msPerDay in *. lia. }
  split; [|exact Bt].
  rewrite (date_in_formatDateForDb z t Bt Hz) by (rewrite Fy; lia).
  unfold localDay. rewrite Fy, Fm, Fd. reflexivity.
Qed.

Lemma newDate_value z y m d :
  ~ (0 <= y <= 99) -> Z.abs (MakeDay y m d * msPerDay - z) <= maxTime ->
  newDate z (Some y) (Some m) (Some d) = Some (MakeDay y m d * msPerDay - z).
Proof.
  intros Hy B. unfold newDate, MakeDate, MakeTime, UTC, TimeClip.
  destruct (Z.leb_spec 0 y), (Z.leb_spec y 99); try lia; cbn [andb];
    rewrite !Z.mul_0_l, !Z.add_0_r;
    (destruct (Z.leb_spec (Z.abs (MakeDay y m d * msPerDay - z)) maxTime);
     [reflexivity|lia]).
Qed.

Lemma rank_total (rank : string -> Z) a b :
  (rank a <=? rank b) = true \/ (rank b <=? rank a) = true.
Proof. rewrite !Z.leb_le. lia. Qed.

Lemma rank_trans (rank : string -> Z) a b c :
  (rank a <=? rank b) = true -> (rank b <=? rank c) = true -> (rank a <=? rank c) = true.
Proof. rewrite !Z.leb_le. lia. Qed.

(** However the engine arranges them, the distinct values are the values
    of the rows, each once. *)
Lemma arranged_In (rank : string -> Z) l s :
  In s (stable_sort (fun a b => rank a <=? rank b) (distinct l)) <-> In s l.
Proof.
  rewrite <- (distinct_In l s).
  split; apply Permutation_in;
    [apply stable_sort_perm|apply Permutation_sym, stable_sort_perm].
Qed.

Lemma arranged_NoDup (rank : string -> Z) l :
  NoDup (stable_sort (fun a b => rank a <=? rank b) (distinct l)).
Proof.
  eapply Permutation_NoDup; [apply Permutation_sym, stable_sort_perm|].
  apply distinct_NoDup.
Qed.

(** The statement the month query sends for a resolved caller, a year from
    100 to 9999 and a month from 0 to 11, and what comes back: the bounds
    are the first and the last day of the month, no order is asked for, and
    the distinct dates come as the engine arranges them. *)
Lemma getWorkoutDatesForMonth_run w u year month :
  session w = Some u -> u <> EmptyString -> Z.abs (tza w) <= msPerDay ->
  100 <= year <= 9999 -> 0 <= month <= 11 ->
  exists s1 s2,
    Pg.date_in s1 = Some (year, month + 1, 1)
    /\ Pg.date_in s2 = Some (year, month + 1, Pg.daysInMonth year (month + 1))
    /\ getWorkoutDatesForMonth year month w
       = (Returned
            (map (parseDateFromDb (tza w))
               (stable_sort (fun a b => scan_rank w a <=? scan_rank w b)
                  (distinct
                     (map Workout.date
                        (filter (matches [eq_userId u; gte_date s1; lte_date s2])
                           (workouts (db w))))))),
          logged w [selectDistinct_date [eq_userId u; gte_date s1; lte_date s2] None]).
Proof.
  intros S N Hz Hy Hm.
  assert (Hdim : 28 <= Pg.daysInMonth year (month + 1) <= 31).
  { destruct (daysInMonth_cases year (month + 1) ltac:(lia)) as
      [[_ D]|[[_ D]|[[_ D]|[[_ D]|[[_ D]|[[_ D]|[[_ D]|[[_ D]|[[_ D]|
       [[_ D]|[[_ D]|[_ D]]]]]]]]]]]];
      rewrite D; try lia. destruct (isLeap year); lia. }
  destruct (newDate_local (tza w) year month 1 Hz Hy Hm ltac:(lia)) as (D1 & B1).
  destruct (newDate_local (tza w) year month (Pg.daysInMonth year (month + 1))
              Hz Hy Hm ltac:(lia)) as (D2 & B2).
  rewrite <- MakeDay_day_zero in D2, B2 by exact Hm.
  unfold getWorkoutDatesForMonth. rewrite (user_resolved _ w u S N).
  unfold bind at 1, host_tza.
  rewrite (newDate_value (tza w) year month 1) by (lia || exact B1).
  rewrite (newDate_value (tza w) year (month + 1) 0) by (lia || exact B2).
  set (s1 := formatDateForDb (tza w) (Some (MakeDay year month 1 * msPerDay - tza w))) in *.
  set (s2 := formatDateForDb (tza w)
               (Some (MakeDay year (month + 1) 0 * msPerDay - tza w))) in *.
  exists s1, s2. split; [exact D1|]. split; [exact D2|].
  unfold bind, Db.selectDistinct_date, send, read_only, exec_selectDistinct_date.
  cbn [forallb cond_ok]. rewrite D1, D2. reflexivity.
Qed.

(** The dates between two bounds among the caller's rows. *)
Lemma month_rows_In u s1 s2 c1 c2 (d : Database) s :
  Pg.date_in s1 = Some c1 -> Pg.date_in s2 = Some c2 ->
  In s (map Workout.date
          (filter (matches [eq_userId u; gte_date s1; lte_date s2]) (workouts d)))
  <-> exists r c, In r (workouts d) /\ Workout.userId r = u
        /\ Workout.date r = s /\ Pg.date_in s = Some c
        /\ Pg.date_leb c1 c = true /\ Pg.date_leb c c2 = true.
Proof.
  intros D1 D2. rewrite in_map_iff. split.
  - intros (r & <- & Hr). apply filter_In in Hr. destruct Hr as (I & M).
    unfold matches in M. cbn [forallb holds] in M.
    rewrite !andb_true_iff, String.eqb_eq in M. destruct M as (O & G & L & _).
    unfold Pg.date_cmp in G, L. rewrite D1 in G. rewrite D2 in L.
    destruct (Pg.date_in (Workout.date r)) as [c|] eqn:Dr; [|discriminate].
    exists r, c. auto 10.
  - intros (r & c & I & O & <- & Dr & G & L). exists r. split; [reflexivity|].
    apply filter_In. split; [exact I|].
    unfold matches. cbn [forallb holds]. unfold Pg.date_cmp. rewrite D1, D2, Dr.
    rewrite G, L. rewrite (proj2 (String.eqb_eq _ _) O). reflexivity.
Qed.

(** What the month query returns for a resolved caller, a year from 100 to
    9999 and a month from 0 to 11: each date of the caller's workouts
    between the first and the last day of the month, once. *)
Lemma getWorkoutDatesForMonth_dates w u year month :
  session w = Some u -> u <> EmptyString -> Z.abs (tza w) <= msPerDay ->
  100 <= year <= 9999 -> 0 <= month <= 11 ->
  exists ds,
    fst (getWorkoutDatesForMonth year month w)
    = Returned (map (parseDateFromDb (tza w)) ds)
    /\ NoDup ds
    /\ forall s, In s ds <->
         exists r c, In r (workouts (db w)) /\ Workout.userId r = u
           /\ Workout.date r = s /\ Pg.date_in s = Some c
           /\ Pg.date_leb (year, month + 1, 1) c = true
           /\ Pg.date_leb c (year, month + 1, Pg.daysInMonth year (month + 1)) = true.
Proof.
  intros S N Hz Hy Hm.
  destruct (getWorkoutDatesForMonth_run w u year month S N Hz Hy Hm)
    as (s1 & s2 & D1 & D2 & R).
  rewrite R. eexists. split; [reflexivity|]. split.
  - apply arranged_NoDup.
  - intros s. rewrite arranged_In. apply month_rows_In; assumption.
Qed.

(** C6. For a resolved caller, a year from 100 to 9999 and a month from 0
    to 11, [getWorkoutDatesForMonth] returns each date of the caller's
    workouts between the first and the last local day of the month exactly
    once, but not in an order of its own: the statement it sends asks for
    none, and the dates come back as the engine arranges them, whatever
    that arrangement is. They are ascending only where the engine happens
    to yield them so. *)
Theorem month_dates_come_in_the_engine_order (w : World) (u : string) (year month : Z) :
  session w = Some u -> u <> EmptyString -> Z.abs (tza w) <= msPerDay ->
  100 <= year <= 9999 -> 0 <= month <= 11 ->
  exists ds lo hi,
    fst (getWorkoutDatesForMonth year month w)
    = Returned (map (parseDateFromDb (tza w)) ds)
    /\ NoDup ds
    /\ (forall s, In s ds <->
          exists r c, In r (workouts (db w)) /\ Workout.userId r = u
            /\ Workout.date r = s /\ Pg.date_in s = Some c
            /\ Pg.date_leb (year, month + 1, 1) c = true
            /\ Pg.date_leb c (year, month + 1, Pg.daysInMonth year (month + 1)) = true)
    /\ StronglySorted (fun a b => scan_rank w a <= scan_rank w b) ds
    /\ log (snd (getWorkoutDatesForMonth year month w))
       = log w ++ [selectDistinct_date [eq_userId u; gte_date lo; lte_date hi] None].
Proof.
  intros S N Hz Hy Hm.
  destruct (getWorkoutDatesForMonth_run w u year month S N Hz Hy Hm)
    as (s1 & s2 & D1 & D2 & R).
  rewrite R. eexists. exists s1, s2. split; [reflexivity|]. split; [|split; [|split]].
  - apply arranged_NoDup.
  - intros s. rewrite arranged_In. apply month_rows_In; assumption.
  - eapply StronglySorted_weaken;
      [|apply stable_sort_sorted; [apply rank_total|apply rank_trans]].
    intros a b H. apply Z.leb_le in H. exact H.
  - reflexivity.
Qed.

(** Alice has a workout on each of the first twenty days of September 2025,
    and the engine yields dates by a hash of the day. *)
Lemma month_dates_come_in_the_engine_order_witness :
  let w := mkWorld (Some "alice") 0 5000 Sample.twenty_days [] [] Sample.by_hash in
  let u := "alice" in
  let year := 2025 in
  let month := 8 in
  exists ds lo hi,
    fst (getWorkoutDatesForMonth year month w)
    = Returned (map (parseDateFromDb (tza w)) ds)
    /\ NoDup ds
    /\ (forall s, In s ds <->
          exists r c, In r (workouts (db w)) /\ Workout.userId r = u
            /\ Workout.date r = s /\ Pg.date_in s = Some c
            /\ Pg.date_leb (year, month + 1, 1) c = true
            /\ Pg.date_leb c (year, month + 1, Pg.daysInMonth year (month + 1)) = true)
    /\ StronglySorted (fun a b => scan_rank w a <= scan_rank w b) ds
    /\ log (snd (getWorkoutDatesForMonth year month w))
       = log w ++ [selectDistinct_date [eq_userId u; gte_date lo; lte_date hi] None].
Proof.
  apply (month_dates_come_in_the_engine_order
           (mkWorld (Some "alice") 0 5000 Sample.twenty_days [] [] Sample.by_hash)
           "alice" 2025 8).
  - reflexivity.
  - discriminate.
  - vm_compute. intro H. discriminate H.
  - lia.
  - lia.
Defined.

(** With that engine the month query does not return the twenty dates in
    ascending order: the 20th comes first and the 3rd second. The
    range-taking sibling [getWorkoutDatesForUser] sends the same statement
    with an [orderBy] and returns them ascending. *)
Example hashed_month_dates_are_not_ascending :
  let w := mkWorld (Some "alice") 0 5000 Sample.twenty_days [] [] Sample.by_hash in
  (exists rest,
     fst (getWorkoutDatesForMonth 2025 8 w)
     = Returned (parseDateFromDb 0 "2025-09-20" :: parseDateFromDb 0 "2025-09-03" :: rest))
  /\ log (snd (getWorkoutDatesForMonth 2025 8 w))
     = [selectDistinct_date
          [eq_userId "alice"; gte_date "2025-09-01"; lte_date "2025-09-30"] None]
  /\ fst (Queries.getWorkoutDatesForUser "alice" "2025-09-01" "2025-09-30" w)
     = Returned (map (fun i => Workout.date (Sample.day_row i)) (seq 1 20)).
Proof.
  split; [eexists; vm_compute; reflexivity|]. vm_compute. split; reflexivity.
Qed.

(** The specification's month-boundary scenario: with workouts on 31 August
    and 1 September, month 8 (September) yields 1 September only. *)
Example month_boundary :
  fst (getWorkoutDatesForMonth 2025 8 (Sample.world (Some "alice") 0 Sample.store))
  = Returned [parseDateFromDb 0 "2025-09-01"].
Proof. vm_compute. reflexivity. Qed.

End MonthDates.

(** ** Sorting with an order that is total on part of the rows only *)

Section SortOn.

Context {A : Type} (leb : A -> A -> bool) (P : A -> Prop).
Hypothesis leb_total : forall a b, P a -> P b -> leb a b = true \/ leb b a = true.
Hypothesis leb_trans :
  forall a b c, P a -> P b -> P c -> leb a b = true -> leb b c = true -> leb a c = true.

Lemma insert_sorted_on x l :
  P x -> Forall P l ->
  StronglySorted (fun a b => leb a b = true) l ->
  StronglySorted (fun a b => leb a b = true) (insert_sorted leb x l).
Proof.
  intros Px Pl S. induction S as [|y t S IH F]; simpl.
  - constructor; constructor.
  - pose proof (Forall_inv Pl) as Py. pose proof (Forall_inv_tail Pl) as Pt.
    destruct (leb x y) eqn:E.
    + constructor; [constructor; assumption|].
      constructor; [exact E|].
      rewrite Forall_forall in *. intros z Hz.
      apply (leb_trans x y z); auto.
    + constructor; [apply IH, Pt|].
      rewrite insert_sorted_perm. constructor; [|exact F].
      destruct (leb_total x y Px Py) as [H|H]; [congruence|exact H].
Qed.

Lemma stable_sort_on l :
  Forall P l -> StronglySorted (fun a b => leb a b = true) (stable_sort leb l).
Proof.
  induction l as [|x t IH]; simpl; intros F; [constructor|].
  apply insert_sorted_on.
  - exact (Forall_inv F).
  - rewrite stable_sort_perm. exact (Forall_inv_tail F).
  - apply IH, (Forall_inv_tail F).
Qed.

End SortOn.

(** ** The order of calendar dates *)

Module DateOrder.

Lemma date_leb_total a b : Pg.date_leb a b = true \/ Pg.date_leb b a = true.
Proof.
  destruct a as [[y m] d], b as [[y' m'] d']. unfold Pg.date_leb.
  rewrite !orb_true_iff, !andb_true_iff, !orb_true_iff, !andb_true_iff,
    !Z.ltb_lt, !Z.eqb_eq, !Z.leb_le. lia.
Qed.

Lemma date_leb_trans a b c :
  Pg.date_leb a b = true -> Pg.date_leb b c = true -> Pg.date_leb a c = true.
Proof.
  destruct a as [[y m] d], b as [[y' m'] d'], c as [[y'' m''] d'']. unfold Pg.date_leb.
  rewrite !orb_true_iff, !andb_true_iff, !orb_true_iff, !andb_true_iff,
    !Z.ltb_lt, !Z.eqb_eq, !Z.leb_le. lia.
Qed.

Lemma date_leb_antisym a b :
  Pg.date_leb a b = true -> Pg.date_leb b a = true -> a = b.
Proof.
  destruct a as [[y m] d], b as [[y' m'] d']. unfold Pg.date_leb.
  rewrite !orb_true_iff, !andb_true_iff, !orb_true_iff, !andb_true_iff,
    !Z.ltb_lt, !Z.eqb_eq, !Z.leb_le. intros H1 H2.
  assert (y = y' /\ m = m' /\ d = d') as (-> & -> & ->) by lia. reflexivity.
Qed.

(** On texts the store reads as dates, [not_after] is a total preorder. *)
Lemma not_after_total a b :
  Pg.date_in a <> None -> Pg.date_in b <> None -> not_after a b \/ not_after b a.
Proof.
  unfold not_after, Pg.date_cmp. intros Ha Hb.
  destruct (Pg.date_in a) as [x|]; [|congruence].
  destruct (Pg.date_in b) as [y|]; [|congruence].
  apply date_leb_total.
Qed.

Lemma not_after_trans a b c : not_after a b -> not_after b c -> not_after a c.
Proof.
  unfold not_after, Pg.date_cmp.
  destruct (Pg.date_in a) as [x|]; [|discriminate].
  destruct (Pg.date_in b) as [y|]; [|discriminate].
  destruct (Pg.date_in c) as [z|]; [|discriminate].
  apply date_leb_trans.
Qed.

End DateOrder.

(** ** Runs of the read helpers *)

Module ReadRuns.
Import SrcData RunFacts WriteFacts.

Lemma select_run w wh o l :
  forallb cond_ok wh = true ->
  Db.select wh o l w
  = (Returned (apply_limit l (order_rows o (filter (matches wh) (workouts (db w))))),
     logged w [select_workouts wh o l]).
Proof.
  intros H. unfold Db.select, send, read_only, exec_select. rewrite H. reflexivity.
Qed.

Lemma first_firstn_1 {A} (l : list A) : first (firstn (Z.to_nat 1) l) = hd_error l.
Proof. destruct l; reflexivity. Qed.

Lemma getWorkoutById_run w u workoutId :
  session w = Some u -> u <> EmptyString -> Pg.int4 workoutId = true ->
  getWorkoutById workoutId w
  = (Returned (hd_error (filter (targets u workoutId) (workouts (db w)))),
     logged w [select_workouts [eq_id workoutId; eq_userId u] None (Some 1)]).
Proof.
  intros S N R. unfold getWorkoutById. rewrite (user_resolved _ w u S N).
  erewrite bind_returned
    by (apply select_run; rewrite cond_ok_target; exact R).
  unfold ret. cbn [apply_limit order_rows Z.ltb Z.compare].
  rewrite first_firstn_1. reflexivity.
Qed.

(** An id beyond the range of the id column is rejected by the store. *)
Lemma getWorkoutById_out_of_range w u workoutId :
  session w = Some u -> u <> EmptyString -> Pg.int4 workoutId = false ->
  getWorkoutById workoutId w
  = (Thrown DbError,
     logged w [select_workouts [eq_id workoutId; eq_userId u] None (Some 1)]).
Proof.
  intros S N R. unfold getWorkoutById. rewrite (user_resolved _ w u S N).
  unfold bind, Db.select, send, read_only, exec_select.
  rewrite cond_ok_target, R. reflexivity.
Qed.


Lemma hd_error_filter_None {A} (f : A -> bool) l :
  hd_error (filter f l) = None <-> forall x, In x l -> f x = false.
Proof.
  split.
  - intros H x I. destruct (f x) eqn:E; [|reflexivity].
    assert (I' : In x (filter f l)) by (apply filter_In; auto).
    destruct (filter f l); [contradiction|discriminate].
  - intros H. rewrite (GroupingFacts.filter_none f l H). reflexivity.
Qed.

Lemma hd_error_In {A} (l : list A) x : hd_error l = Some x -> In x l.
Proof. destruct l; [discriminate|]. intros [= ->]. left. reflexivity. Qed.

End ReadRuns.

(** ** The read helpers of [src/data/workouts.ts] *)

Module StoreReads.
Import SrcData RunFacts WriteFacts ReadRuns DateOrder.

(** [getWorkoutById]. For a resolved caller and an id in the range of the
    id column the lookup sends one select and changes nothing. What it
    returns is a stored row with the id asked for that the caller owns; it
    returns [undefined] exactly when the store holds no such row, so a
    workout of somebody else is answered like one that does not exist. *)
Theorem getWorkoutById_finds_own_row (w : World) (u : string) (workoutId : Z) :
  session w = Some u -> u <> EmptyString -> Pg.int4 workoutId = true ->
  exists res,
    getWorkoutById workoutId w
    = (Returned res,
       logged w [select_workouts [eq_id workoutId; eq_userId u] None (Some 1)])
    /\ (forall r, res = Some r ->
          In r (workouts (db w)) /\ Workout.id r = workoutId /\ Workout.userId r = u)
    /\ (res = None <->
        forall r, In r (workouts (db w)) ->
          Workout.id r = workoutId -> Workout.userId r <> u).
Proof.
  intros S N R. eexists. split; [apply (getWorkoutById_run w u workoutId S N R)|].
  split.
  - intros r H. apply hd_error_In, filter_In in H. destruct H as (I & T).
    apply targets_spec in T. tauto.
  - rewrite hd_error_filter_None. split.
    + intros H r I E Eu.
      assert (T : targets u workoutId r = true) by (apply targets_spec; auto).
      rewrite (H r I) in T. discriminate.
    + intros H r I. destruct (targets u workoutId r) eqn:T; [|reflexivity].
      apply targets_spec in T. destruct T as (E & Eu). exfalso. exact (H r I E Eu).
Qed.

(** Alice looks up her own workout 1, Bob's workout 3 and a workout 9 that
    does not exist. *)
Lemma getWorkoutById_finds_own_row_witness :
  let w := Sample.world (Some "alice") 0 Sample.store in
  (fst (getWorkoutById 1 w) = Returned (Some Sample.push)
   /\ fst (getWorkoutById 3 w) = Returned None
   /\ fst (getWorkoutById 9 w) = Returned None)
  /\ exists res,
       getWorkoutById 3 w
       = (Returned res,
          logged w [select_workouts [eq_id 3; eq_userId "alice"] None (Some 1)])
       /\ (forall r, res = Some r ->
             In r (workouts (db w)) /\ Workout.id r = 3 /\ Workout.userId r = "alice")
       /\ (res = None <->
           forall r, In r (workouts (db w)) ->
             Workout.id r = 3 -> Workout.userId r <> "alice").
Proof.
  split; [repeat split; reflexivity|].
  apply (getWorkoutById_finds_own_row
           (Sample.world (Some "alice") 0 Sample.store) "alice" 3).
  - reflexivity.
  - discriminate.
  - reflexivity.
Defined.




End StoreReads.

(** ** Operations that only read *)

Module ReadOnly.
Import RunFacts.

Lemma only_reads_ret {A} (a : A) : only_reads (ret a).
Proof. intros w. exists []. rewrite logged_nil. auto. Qed.

Lemma only_reads_throw {A} e : only_reads (@throw A e).
Proof. intros w. exists []. rewrite logged_nil. auto. Qed.

Lemma only_reads_bind {A B} (m : M A) (k : A -> M B) :
  only_reads m -> (forall a, only_reads (k a)) -> only_reads (bind m k).
Proof.
  intros Hm Hk w. unfold bind. destruct (Hm w) as (l & E & F).
  destruct (m w) as [[a|e] w']; cbn [snd] in E; subst w'.
  - destruct (Hk a (logged w l)) as (l' & E' & F').
    exists (l ++ l'). rewrite E', logged_logged, forallb_app, F, F'. auto.
  - exists l. auto.
Qed.

Lemma only_reads_auth : only_reads auth.
Proof. intros w. exists []. rewrite logged_nil. auto. Qed.

Lemma only_reads_host_tza : only_reads host_tza.
Proof. intros w. exists []. rewrite logged_nil. auto. Qed.

Lemma only_reads_now : only_reads Page.now.
Proof. intros w. exists []. rewrite logged_nil. auto. Qed.

Lemma only_reads_requireUser s : only_reads (requireUser s).
Proof.
  unfold requireUser. destruct s as [u|]; [destruct (String.eqb u EmptyString)|];
    auto using @only_reads_ret, @only_reads_throw.
Qed.

Lemma only_reads_send {A} s (r : World -> option A) :
  is_select s = true -> only_reads (send s (fun w => read_only w (r w))).
Proof.
  intros H w. exists [s]. unfold send, read_only.
  destruct (r w); simpl; rewrite H; auto.
Qed.

Lemma only_reads_select wh o l : only_reads (Db.select wh o l).
Proof. apply (only_reads_send (select_workouts wh o l)). reflexivity. Qed.

Lemma only_reads_selectDistinct wh o : only_reads (Db.selectDistinct_date wh o).
Proof. apply (only_reads_send (selectDistinct_date wh o)). reflexivity. Qed.

Lemma only_reads_findMany wh o c : only_reads (Db.findMany wh o c).
Proof. apply (only_reads_send (findMany_workouts wh o c)). reflexivity. Qed.

Lemma only_reads_exercise_data i : only_reads (Db.select_exercise_data i).
Proof. intros w. exists [select_exercise_data i]. auto. Qed.

Lemma only_reads_mapM {A B} (f : A -> M B) l :
  (forall a, only_reads (f a)) -> only_reads (mapM f l).
Proof.
  intros H. induction l as [|x t IH]; simpl.
  - apply only_reads_ret.
  - apply only_reads_bind; [apply H|]. intros y.
    apply only_reads_bind; [exact IH|]. intros ys. apply only_reads_ret.
Qed.

Create HintDb reads.

#[local] Hint Resolve only_reads_ret only_reads_throw only_reads_auth
  only_reads_host_tza only_reads_now only_reads_requireUser only_reads_select
  only_reads_selectDistinct only_reads_findMany only_reads_exercise_data : reads.

Ltac reads :=
  repeat first
    [ solve [auto with reads]
    | apply only_reads_mapM; intro
    | apply only_reads_bind; [|intro] ].

Lemma only_reads_getWorkoutsByDate date : only_reads (Data.getWorkoutsByDate date).
Proof.
  unfold Data.getWorkoutsByDate. reads.
  match goal with |- only_reads (if ?c then _ else _) => destruct c end; reads.
Qed.

Lemma only_reads_getWorkoutDatesForMonth y m :
  only_reads (Data.getWorkoutDatesForMonth y m).
Proof. unfold Data.getWorkoutDatesForMonth. reads. Qed.

#[local] Hint Resolve only_reads_getWorkoutsByDate
  only_reads_getWorkoutDatesForMonth : reads.

(** The read helpers and the dashboard page never write. Whatever the
    session and the arguments, and whether they return or throw, each of
    them leaves the store and the revalidated paths as they were and sends
    select statements only. *)
Theorem reads_never_write :
  (forall date, only_reads (Data.getWorkoutsByDate date))
  /\ (forall year month, only_reads (Data.getWorkoutDatesForMonth year month))
  /\ (forall limit, only_reads (SrcData.getRecentWorkouts limit))
  /\ (forall workoutId, only_reads (SrcData.getWorkoutById workoutId))
  /\ (forall userId date, only_reads (Queries.getWorkoutsByUserAndDate userId date))
  /\ (forall userId startDate endDate,
        only_reads (Queries.getWorkoutDatesForUser userId startDate endDate))
  /\ (forall date, only_reads (Page.DashboardPage date)).
Proof.
  repeat split; intros.
  - apply only_reads_getWorkoutsByDate.
  - apply only_reads_getWorkoutDatesForMonth.
  - unfold SrcData.getRecentWorkouts. reads.
  - unfold SrcData.getWorkoutById. reads.
  - apply only_reads_findMany.
  - apply only_reads_selectDistinct.
  - unfold Page.DashboardPage.
    apply only_reads_bind; [reads|intros z].
    apply only_reads_bind;
      [destruct date as [s|]; [destruct (String.eqb s EmptyString)|]; reads|].
    intros selectedDate.
    apply only_reads_bind; [reads|intros ws].
    apply only_reads_bind; [|reads].
    unfold Page.getWorkoutDatesForMonth.
    destruct (JsDate.getFullYear z selectedDate);
      [destruct (JsDate.getMonth z selectedDate)|]; reads.
Qed.

End ReadOnly.

(** ** What the write statements do to the tables *)

Module TableFacts.
Import SrcData RunFacts WriteFacts PgFacts.

Lemma existsb_eqb_map {A} (f : A -> Z) i l :
  existsb (Z.eqb i) (map f l) = true <-> exists x, In x l /\ f x = i.
Proof.
  rewrite existsb_exists. split.
  - intros (y & I & E). apply in_map_iff in I. destruct I as (x & <- & I).
    apply Z.eqb_eq in E. eauto.
  - intros (x & I & <-). exists (f x). split; [apply in_map, I|apply Z.eqb_refl].
Qed.

Lemma negb_true_not b (P : Prop) : (b = true <-> P) -> (negb b = true <-> ~ P).
Proof.
  intros H. rewrite <- H. destruct b; simpl; split; intros X.
  - discriminate.
  - exfalso. apply X. reflexivity.
  - discriminate.
  - reflexivity.
Qed.

(** The rows a delete leaves: the workouts that do not match, the exercise
    entries of no deleted workout, the sets of no deleted exercise entry. *)
Lemma delete_cascade_spec d wh :
  let d' := delete_cascade d wh in
  let deleted := fun i =>
    exists r, In r (workouts d) /\ matches wh r = true /\ Workout.id r = i in
  (forall r, In r (workouts d') <-> In r (workouts d) /\ matches wh r = false)
  /\ (forall we, In we (workoutExercises d') <->
        In we (workoutExercises d) /\ ~ deleted (WorkoutExercise.workoutId we))
  /\ (forall s, In s (sets d') <->
        In s (sets d)
        /\ ~ exists we, In we (workoutExercises d)
                        /\ deleted (WorkoutExercise.workoutId we)
                        /\ WorkoutExercise.id we = SetRow.workoutExerciseId s)
  /\ exercises d' = exercises d
  /\ workouts_id_seq d' = workouts_id_seq d.
Proof.
  intros d' deleted. unfold d', delete_cascade. cbn [workouts workoutExercises sets exercises workouts_id_seq].
  assert (G : forall i,
             existsb (Z.eqb i) (map Workout.id (filter (matches wh) (workouts d))) = true
             <-> deleted i).
  { intros i. rewrite existsb_eqb_map. unfold deleted. split.
    - intros (r & I & E). apply filter_In in I. destruct I. eauto.
    - intros (r & I & M & E). exists r. split; [apply filter_In; auto|exact E]. }
  repeat split.
  - apply filter_In in H. tauto.
  - apply filter_In in H. destruct H as (_ & H). destruct (matches wh r); [discriminate|reflexivity].
  - intros (I & M). apply filter_In. rewrite M. auto.
  - apply filter_In in H. tauto.
  - apply filter_In in H. destruct H as (_ & H).
    apply (negb_true_not _ _ (G _)) in H. exact H.
  - intros (I & M). apply filter_In. split; [exact I|].
    apply (negb_true_not _ _ (G _)). exact M.
  - apply filter_In in H. tauto.
  - apply filter_In in H. destruct H as (_ & H).
    intros (we & I & D & E). apply negb_true_iff in H.
    assert (T : existsb (Z.eqb (SetRow.workoutExerciseId s))
                  (map WorkoutExercise.id
                     (filter (fun we => existsb (Z.eqb (WorkoutExercise.workoutId we))
                                          (map Workout.id
                                             (filter (matches wh) (workouts d))))
                        (workoutExercises d))) = true).
    { apply existsb_eqb_map. exists we. split; [|exact E].
      apply filter_In. split; [exact I|]. apply G, D. }
    congruence.
  - intros (I & M). apply filter_In. split; [exact I|].
    apply negb_true_iff. apply not_true_is_false. intros T.
    apply existsb_eqb_map in T. destruct T as (we & Iw & E).
    apply filter_In in Iw. destruct Iw as (Iw & Gw). apply G in Gw.
    apply M. exists we. auto.
Qed.

Lemma NoDup_map_filter {A B} (f : A -> B) (g : A -> bool) l :
  NoDup (map f l) -> NoDup (map f (filter g l)).
Proof.
  induction l as [|x t IH]; simpl; [auto|].
  intros H. inversion H as [|? ? Nx Nt]; subst.
  destruct (g x); [|auto]. simpl. constructor; [|auto].
  intros I. apply Nx. apply in_map_iff in I. destruct I as (y & E & I).
  apply filter_In in I. apply in_map_iff. exists y. tauto.
Qed.

(** What an update leaves untouched in every row. *)
Lemma updated_rows_identity (g : Workout.t -> bool) upd c ws :
  let ws' := map (fun r => if g r then updated_row upd c r else r) ws in
  map Workout.id ws' = map Workout.id ws
  /\ map Workout.userId ws' = map Workout.userId ws
  /\ map Workout.createdAt ws' = map Workout.createdAt ws
  /\ map Workout.updatedAt ws' = map Workout.updatedAt ws.
Proof.
  cbv zeta. rewrite !map_map.
  repeat split; apply map_ext; intros r; destruct (g r); reflexivity.
Qed.

Lemma exec_update_identity d upd wh rows d' :
  exec_update d upd wh = Some (rows, d') ->
  map Workout.id (workouts d') = map Workout.id (workouts d)
  /\ map Workout.userId (workouts d') = map Workout.userId (workouts d)
  /\ map Workout.createdAt (workouts d') = map Workout.createdAt (workouts d)
  /\ map Workout.updatedAt (workouts d') = map Workout.updatedAt (workouts d)
  /\ workoutExercises d' = workoutExercises d /\ exercises d' = exercises d
  /\ sets d' = sets d /\ workouts_id_seq d' = workouts_id_seq d.
Proof.
  unfold exec_update.
  destruct (forallb cond_ok wh && Pg.opt_int4 _); [|discriminate].
  destruct (WorkoutUpdate.date upd) as [s|]; [destruct (Pg.date_in s)|];
    try discriminate; intros [= <- <-]; cbn [with_workouts workouts workoutExercises
                                             exercises sets workouts_id_seq];
    match goal with
    | |- context [map (fun r => if matches wh r then updated_row upd ?c r else r)] =>
        destruct (updated_rows_identity (matches wh) upd c (workouts d))
          as (A & B & C & D)
    end; rewrite A, B, C, D; repeat split; reflexivity.
Qed.

(** The rows an update returns are the target rows with the payload written
    over them. *)
Lemma exec_update_rows d upd wh rows d' :
  exec_update d upd wh = Some (rows, d') ->
  exists c,
    rows = map (updated_row upd c) (filter (matches wh) (workouts d))
    /\ workouts d'
       = map (fun r => if matches wh r then updated_row upd c r else r) (workouts d)
    /\ (WorkoutUpdate.date upd = None -> c = None)
    /\ (forall s, WorkoutUpdate.date upd = Some s -> exists k, c = Some k /\ Pg.date_in s = Some k).
Proof.
  unfold exec_update.
  destruct (forallb cond_ok wh && Pg.opt_int4 _); [|discriminate].
  destruct (WorkoutUpdate.date upd) as [s|]; [destruct (Pg.date_in s) as [k|] eqn:K|];
    try discriminate; intros [= <- <-].
  - exists (Some k). repeat split; try discriminate.
    intros s' [= <-]. eauto.
  - exists None. repeat split; auto. discriminate.
Qed.

Lemma exec_update_row_identity d upd wh rows d' :
  exec_update d upd wh = Some (rows, d') ->
  map row_identity (workouts d') = map row_identity (workouts d).
Proof.
  intros E. destruct (exec_update_rows d upd wh rows d' E) as (c & _ & W & _).
  rewrite W, map_map. apply map_ext. intros r.
  destruct (matches wh r); reflexivity.
Qed.

End TableFacts.

(** ** The store's invariants under the writes *)

Module Invariant.
Import SrcData RunFacts WriteFacts PgFacts TableFacts.

Lemma canonical_date_in s c : Pg.date_in s = Some c -> canonical_date (Pg.date_out c).
Proof.
  destruct c as [[y m] d]. intros H. exists y, m, d.
  split; [exact (date_in_valid s y m d H)|reflexivity].
Qed.

Lemma exec_insert_well_formed d now v rows d' :
  well_formed d -> exec_insert d now v = Some (rows, d') -> well_formed d'.
Proof.
  intros (U & B & C & RW & RS). unfold exec_insert.
  destruct (Pg.opt_int4 (NewWorkout.durationMinutes v)); [|discriminate].
  destruct (Pg.date_in (NewWorkout.date v)) as [c|] eqn:D; [|discriminate].
  intros [= <- <-]. unfold well_formed.
  cbn [workouts workoutExercises sets workouts_id_seq].
  split; [|split; [|split; [|split]]].
  - rewrite map_app. cbn [map inserted_row Workout.id].
    apply (Permutation_NoDup (Permutation_cons_append _ _)).
    constructor; [|exact U].
    intros I. apply in_map_iff in I. destruct I as (r & E & I).
    specialize (B r I). lia.
  - intros r I. apply in_app_or in I. destruct I as [I|[<-|[]]].
    + specialize (B r I). lia.
    + cbn [inserted_row Workout.id]. lia.
  - intros r I. apply in_app_or in I. destruct I as [I|[<-|[]]].
    + apply C, I.
    + cbn [inserted_row Workout.date]. exact (canonical_date_in _ _ D).
  - intros we I. destruct (RW we I) as (r & Ir & E). exists r.
    split; [apply in_or_app; auto|exact E].
  - exact RS.
Qed.

Lemma exec_update_well_formed d upd wh rows d' :
  well_formed d -> exec_update d upd wh = Some (rows, d') -> well_formed d'.
Proof.
  intros (U & B & C & RW & RS) E.
  destruct (exec_update_identity d upd wh rows d' E)
    as (Ei & _ & _ & _ & Ew & _ & Es & Eq).
  destruct (exec_update_rows d upd wh rows d' E) as (c & _ & W & Cn & Cs).
  unfold well_formed. rewrite Ei, Ew, Es, Eq.
  split; [exact U|]. split; [|split; [|split]].
  - intros r I. assert (I' : In (Workout.id r) (map Workout.id (workouts d')))
      by (apply in_map, I).
    rewrite Ei in I'. apply in_map_iff in I'. destruct I' as (r0 & <- & I0).
    apply B, I0.
  - intros r I. rewrite W in I. apply in_map_iff in I. destruct I as (r0 & <- & I0).
    destruct (matches wh r0); [|apply C, I0].
    destruct c as [k|]; cbn [updated_row Workout.date]; [|apply C, I0].
    destruct (WorkoutUpdate.date upd) as [s|] eqn:Ds.
    + destruct (Cs s eq_refl) as (k' & [= <-] & K). exact (canonical_date_in _ _ K).
    + specialize (Cn eq_refl). discriminate.
  - intros we I. destruct (RW we I) as (r & Ir & Er).
    assert (I' : In (Workout.id r) (map Workout.id (workouts d')))
      by (rewrite Ei; apply in_map, Ir).
    apply in_map_iff in I'. destruct I' as (r' & E' & I'). exists r'.
    split; [exact I'|congruence].
  - exact RS.
Qed.

Lemma exec_delete_well_formed d wh rows d' :
  well_formed d -> exec_delete d wh = Some (rows, d') -> well_formed d'.
Proof.
  intros (U & B & C & RW & RS). unfold exec_delete.
  destruct (forallb cond_ok wh); [|discriminate]. intros [= <- <-].
  destruct (delete_cascade_spec d wh) as (Sw & Se & Ss & _ & Sq).
  unfold well_formed. rewrite Sq.
  split; [|split; [|split; [|split]]].
  - unfold delete_cascade. cbn [workouts]. apply NoDup_map_filter, U.
  - intros r I. apply Sw in I. apply B, I.
  - intros r I. apply Sw in I. apply C, I.
  - intros we I. apply Se in I. destruct I as (I & ND).
    destruct (RW we I) as (r & Ir & Er). exists r. split; [|exact Er].
    apply Sw. split; [exact Ir|].
    destruct (matches wh r) eqn:M; [|reflexivity].
    exfalso. apply ND. exists r. auto.
  - intros s I. apply Ss in I. destruct I as (I & ND).
    destruct (RS s I) as (we & Iw & Ew). exists we. split; [|exact Ew].
    apply Se. split; [exact Iw|].
    intros D. apply ND. exists we. auto.
Qed.

(** Operations that keep a property of the store. *)
Section Preserved.

Variable Inv : Database -> Prop.

Lemma preserves_ret {A} (a : A) : preserves Inv (ret a).
Proof. intros w H. exact H. Qed.

Lemma preserves_throw {A} e : preserves Inv (@throw A e).
Proof. intros w H. exact H. Qed.

Lemma preserves_bind {A B} (m : M A) (k : A -> M B) :
  preserves Inv m -> (forall a, preserves Inv (k a)) -> preserves Inv (bind m k).
Proof.
  intros Hm Hk w H. unfold bind. specialize (Hm w H).
  destruct (m w) as [[a|e] w']; cbn [snd] in *; [apply Hk, Hm|exact Hm].
Qed.

Lemma preserves_try_catch {A} (m : M A) (h : Exn -> M A) :
  preserves Inv m -> (forall e, preserves Inv (h e)) -> preserves Inv (try_catch m h).
Proof.
  intros Hm Hh w H. unfold try_catch. specialize (Hm w H).
  destruct (m w) as [[a|e] w']; cbn [snd] in *; [exact Hm|apply Hh, Hm].
Qed.

Lemma preserves_auth : preserves Inv auth.
Proof. intros w H. exact H. Qed.

Lemma preserves_requireUser s : preserves Inv (requireUser s).
Proof.
  unfold requireUser. destruct s as [u|]; [destruct (String.eqb u EmptyString)|];
    intros w H; exact H.
Qed.

Lemma preserves_revalidatePath p : preserves Inv (revalidatePath p).
Proof. intros w H. exact H. Qed.

Lemma preserves_isoDay d : preserves Inv (isoDay d).
Proof. unfold isoDay. destruct (JsDate.toISOString d); intros w H; exact H. Qed.

Lemma preserves_zodParse {A} (issues : A -> list Zod.Message) input :
  preserves Inv (zodParse issues input).
Proof. unfold zodParse. destruct (issues input); intros w H; exact H. Qed.

Lemma preserves_onError {A} fallback e : preserves Inv (@onError A fallback e).
Proof. destruct e as [| |[|i l]| | |]; intros w H; exact H. Qed.

Lemma preserves_send {A} s (run : World -> option (A * Database)) :
  (forall w a d, Inv (db w) -> run w = Some (a, d) -> Inv d) ->
  preserves Inv (send s run).
Proof.
  intros R w H. unfold send. destruct (run w) as [[a d]|] eqn:E; cbn [snd db].
  - exact (R w a d H E).
  - exact H.
Qed.

End Preserved.

Lemma well_formed_insert v : preserves well_formed (Db.insert v).
Proof.
  apply preserves_send. intros w a d H E. exact (exec_insert_well_formed _ _ _ _ _ H E).
Qed.

Lemma well_formed_update upd wh : preserves well_formed (Db.update upd wh).
Proof.
  unfold Db.update. destruct (Db.no_values upd); [apply preserves_throw|].
  apply preserves_send. intros w a d H E. exact (exec_update_well_formed _ _ _ _ _ H E).
Qed.

Lemma well_formed_delete wh : preserves well_formed (Db.delete wh).
Proof.
  apply preserves_send. intros w a d H E. exact (exec_delete_well_formed _ _ _ _ H E).
Qed.

Create HintDb keeps.

#[local] Hint Resolve preserves_ret preserves_throw preserves_auth
  preserves_requireUser preserves_revalidatePath preserves_isoDay
  preserves_zodParse preserves_onError well_formed_insert well_formed_update
  well_formed_delete : keeps.

Ltac keeps :=
  repeat first
    [ solve [auto with keeps]
    | apply preserves_try_catch; [|intro]
    | apply preserves_bind; [|intro]
    | match goal with
      | |- preserves _ (match ?x with _ => _ end) => destruct x
      end ].

Lemma well_formed_createWorkout data : preserves well_formed (createWorkout data).
Proof. unfold createWorkout. keeps. Qed.

Lemma well_formed_updateWorkout i data : preserves well_formed (updateWorkout i data).
Proof. unfold updateWorkout. keeps. Qed.

Lemma well_formed_deleteWorkout i : preserves well_formed (deleteWorkout i).
Proof. unfold deleteWorkout. keeps. Qed.

#[local] Hint Resolve well_formed_createWorkout well_formed_updateWorkout
  well_formed_deleteWorkout : keeps.

(** Every write keeps the store well formed. From a store with unique
    workout ids drawn from the sequence, calendar dates, and no exercise
    entry or set without its parent, each mutation helper and each server
    action leaves such a store again, whatever the session and the request
    and whether the call succeeds, fails or throws. *)
Theorem writes_keep_the_store_well_formed (w : World) :
  well_formed (db w) ->
  (forall data, well_formed (db (snd (createWorkout data w))))
  /\ (forall workoutId data, well_formed (db (snd (updateWorkout workoutId data w))))
  /\ (forall workoutId, well_formed (db (snd (deleteWorkout workoutId w))))
  /\ (forall date name, well_formed (db (snd (LibActions.createWorkout date name w))))
  /\ (forall input, well_formed (db (snd (NewActions.createWorkoutAction input w))))
  /\ (forall input, well_formed (db (snd (EditActions.updateWorkoutAction input w))))
  /\ (forall input, well_formed (db (snd (EditActions.deleteWorkoutAction input w)))).
Proof.
  intros H. split; [|split; [|split; [|split; [|split; [|split]]]]].
  - intros data. apply well_formed_createWorkout, H.
  - intros workoutId data. apply well_formed_updateWorkout, H.
  - intros workoutId. apply well_formed_deleteWorkout, H.
  - intros dt nm. revert w H.
    change (preserves well_formed (LibActions.createWorkout dt nm)).
    unfold LibActions.createWorkout, redirect. keeps.
  - intros input. revert w H.
    change (preserves well_formed (NewActions.createWorkoutAction input)).
    unfold NewActions.createWorkoutAction. keeps.
  - intros input. revert w H.
    change (preserves well_formed (EditActions.updateWorkoutAction input)).
    unfold EditActions.updateWorkoutAction. keeps.
  - intros input. revert w H.
    change (preserves well_formed (EditActions.deleteWorkoutAction input)).
    unfold EditActions.deleteWorkoutAction. keeps.
Qed.

Lemma sample_store_well_formed : well_formed Sample.store.
Proof.
  unfold well_formed. split; [|split; [|split; [|split]]].
  - simpl. repeat constructor; simpl; intuition discriminate.
  - intros r I. simpl in I.
    repeat (destruct I as [<-|I]; [vm_compute; discriminate|]). contradiction.
  - intros r I. simpl in I.
    destruct I as [<-|[<-|[<-|[<-|[]]]]];
      [exists 2025, 9, 1|exists 2025, 9, 1|exists 2025, 9, 1|exists 2025, 8, 31];
      split; reflexivity.
  - intros we I. simpl in I.
    destruct I as [<-|[<-|[<-|[]]]];
      [exists Sample.push|exists Sample.push|exists Sample.legs];
      (split; [simpl; tauto|reflexivity]).
  - intros s I. simpl in I.
    destruct I as [<-|[<-|[<-|[<-|[]]]]];
      [exists Sample.push_bench|exists Sample.push_bench|exists Sample.push_bench
      |exists Sample.legs_bench];
      (split; [simpl; tauto|reflexivity]).
Defined.

(** The sample store is well formed, and stays so under Alice's writes. *)
Lemma writes_keep_the_store_well_formed_witness :
  let w := Sample.world (Some "alice") 0 Sample.store in
  well_formed (db w)
  /\ ((forall data, well_formed (db (snd (createWorkout data w))))
      /\ (forall workoutId data, well_formed (db (snd (updateWorkout workoutId data w))))
      /\ (forall workoutId, well_formed (db (snd (deleteWorkout workoutId w))))
      /\ (forall date name,
            well_formed (db (snd (LibActions.createWorkout date name w))))
      /\ (forall input, well_formed (db (snd (NewActions.createWorkoutAction input w))))
      /\ (forall input, well_formed (db (snd (EditActions.updateWorkoutAction input w))))
      /\ (forall input,
            well_formed (db (snd (EditActions.deleteWorkoutAction input w))))).
Proof.
  split; [exact sample_store_well_formed|].
  apply (writes_keep_the_store_well_formed
           (Sample.world (Some "alice") 0 Sample.store)).
  exact sample_store_well_formed.
Defined.

End Invariant.

(** ** The mutation helpers of [src/data/workouts.ts] *)

Module StoreWrites.
Import JsDate SrcData RunFacts WriteFacts WriteRuns PgFacts IsoFacts StoredDate
  TableFacts ReadRuns.

(** The caller check, for any session. *)
Lemma session_cases w :
  (exists u, session w = Some u /\ u <> EmptyString)
  \/ (forall B (k : string -> M B),
        bind auth (fun s => bind (requireUser s) k) w
        = (Thrown (Error "Unauthorized"), w)).
Proof.
  destruct (session w) as [u|] eqn:S.
  - destruct (String.eqb_spec u EmptyString) as [->|N].
    + right. intros B k. apply user_empty, S.
    + left. eauto.
  - right. intros B k. apply user_missing, S.
Qed.




(** When a delete finds its row, the ids it removes are the one asked for. *)
Lemma deleted_ids u workoutId ws r :
  hd_error (filter (targets u workoutId) ws) = Some r ->
  forall i,
    (exists x, In x ws /\ matches [eq_id workoutId; eq_userId u] x = true
               /\ Workout.id x = i)
    <-> i = workoutId.
Proof.
  intros H i. apply hd_error_In, filter_In in H. destruct H as (I & T).
  split.
  - intros (x & _ & M & E). apply (targets_spec u workoutId x) in M. lia.
  - intros ->. exists r. split; [exact I|]. split; [exact T|].
    apply targets_spec in T. tauto.
Qed.

(** [deleteWorkout]. For a resolved caller and an id in the range of the id
    column, the delete leaves exactly the workouts that are not the
    caller's workout with that id; looking the id up afterwards, or
    deleting it again, finds nothing. When a row is returned, it was the
    caller's stored workout with that id, and the delete took its exercise
    entries and their sets with it and no other entry or set. *)
Theorem deleteWorkout_removes_the_workout (w : World) (u : string) (workoutId : Z) :
  session w = Some u -> u <> EmptyString -> Pg.int4 workoutId = true ->
  fst (getWorkoutById workoutId (snd (deleteWorkout workoutId w))) = Returned None
  /\ fst (deleteWorkout workoutId (snd (deleteWorkout workoutId w))) = Returned None
  /\ (forall r, In r (workouts (db (snd (deleteWorkout workoutId w)))) <->
        In r (workouts (db w))
        /\ ~ (Workout.id r = workoutId /\ Workout.userId r = u))
  /\ (forall r, fst (deleteWorkout workoutId w) = Returned (Some r) ->
        (In r (workouts (db w)) /\ Workout.id r = workoutId /\ Workout.userId r = u)
        /\ (forall we, In we (workoutExercises (db (snd (deleteWorkout workoutId w)))) <->
              In we (workoutExercises (db w))
              /\ WorkoutExercise.workoutId we <> workoutId)
        /\ (forall s, In s (sets (db (snd (deleteWorkout workoutId w)))) <->
              In s (sets (db w))
              /\ ~ exists we, In we (workoutExercises (db w))
                              /\ WorkoutExercise.workoutId we = workoutId
                              /\ WorkoutExercise.id we = SetRow.workoutExerciseId s)).
Proof.
  intros S N R.
  rewrite (deleteWorkout_run w u workoutId S N), R. cbn [fst snd].
  set (wh := [eq_id workoutId; eq_userId u]).
  set (w' := on_store (logged w [delete_workouts wh]) (delete_cascade (db w) wh)).
  assert (S' : session w' = Some u) by exact S.
  destruct (delete_cascade_spec (db w) wh) as (Sw & Se & Ss & _ & _).
  assert (Gone : forall r, In r (workouts (db w')) -> targets u workoutId r = false).
  { intros r I. apply Sw in I. apply I. }
  split; [|split; [|split]].
  - rewrite (getWorkoutById_run w' u workoutId S' N R). cbn [fst].
    destruct (map_no_target u workoutId (fun r => r) _ Gone) as (_ & F & _).
    rewrite F. reflexivity.
  - destruct (deleteWorkout_no_target w' u workoutId S' N Gone) as (_ & F).
    rewrite F, R. reflexivity.
  - intros r. change (db w') with (delete_cascade (db w) wh). rewrite Sw.
    change (matches wh r) with (targets u workoutId r).
    split; intros (I & T); (split; [exact I|]).
    + intros T'. apply targets_spec in T'. congruence.
    + destruct (targets u workoutId r) eqn:E; [|reflexivity].
      exfalso. apply T, targets_spec, E.
  - intros r [= H]. unfold first, Js.index in H.
    assert (H' : hd_error (filter (targets u workoutId) (workouts (db w))) = Some r).
    { destruct (filter (targets u workoutId) (workouts (db w))); [discriminate|exact H]. }
    pose proof (deleted_ids u workoutId (workouts (db w)) r H') as G.
    split; [|split].
    + apply hd_error_In, filter_In in H'. destruct H' as (I & T).
      apply targets_spec in T. tauto.
    + intros we. change (db w') with (delete_cascade (db w) wh).
      split.
      * intros I. apply Se in I. destruct I as (I & M). split; [exact I|].
        intros E. apply M. apply G, E.
      * intros (I & M). apply Se. split; [exact I|].
        intros D. apply M. apply G, D.
    + intros s. change (db w') with (delete_cascade (db w) wh).
      split.
      * intros I. apply Ss in I. destruct I as (I & M). split; [exact I|].
        intros (we & Iw & Ew & Es). apply M. exists we.
        split; [exact Iw|]. split; [apply G, Ew|exact Es].
      * intros (I & M). apply Ss. split; [exact I|].
        intros (we & Iw & Ew & Es). apply M. exists we.
        split; [exact Iw|]. split; [apply G, Ew|exact Es].
Qed.

(** Alice deletes her workout 1, which has two exercise entries and three
    sets. *)
Lemma deleteWorkout_removes_the_workout_witness :
  let w := Sample.world (Some "alice") 0 Sample.store in
  (fst (deleteWorkout 1 w) = Returned (Some Sample.push)
   /\ workoutExercises (db (snd (deleteWorkout 1 w))) = [Sample.legs_bench]
   /\ sets (db (snd (deleteWorkout 1 w))) = [Sample.set_bob])
  /\ fst (getWorkoutById 1 (snd (deleteWorkout 1 w))) = Returned None
  /\ fst (deleteWorkout 1 (snd (deleteWorkout 1 w))) = Returned None
  /\ (forall r, In r (workouts (db (snd (deleteWorkout 1 w)))) <->
        In r (workouts (db w)) /\ ~ (Workout.id r = 1 /\ Workout.userId r = "alice"))
  /\ (forall r, fst (deleteWorkout 1 w) = Returned (Some r) ->
        (In r (workouts (db w)) /\ Workout.id r = 1 /\ Workout.userId r = "alice")
        /\ (forall we, In we (workoutExercises (db (snd (deleteWorkout 1 w)))) <->
              In we (workoutExercises (db w)) /\ WorkoutExercise.workoutId we <> 1)
        /\ (forall s, In s (sets (db (snd (deleteWorkout 1 w)))) <->
              In s (sets (db w))
              /\ ~ exists we, In we (workoutExercises (db w))
                              /\ WorkoutExercise.workoutId we = 1
                              /\ WorkoutExercise.id we = SetRow.workoutExerciseId s)).
Proof.
  split; [repeat split; reflexivity|].
  apply (deleteWorkout_removes_the_workout
           (Sample.world (Some "alice") 0 Sample.store) "alice" 1).
  - reflexivity.
  - discriminate.
  - reflexivity.
Defined.

(** [updateWorkout] never touches what identifies a row. Whatever the
    session, the id and the payload, and whether the call returns or
    throws, the store holds the same workouts by id, owner and both
    timestamps as before, none added and none removed; the other tables and
    the id sequence are as before. *)
Theorem updateWorkout_keeps_identity (w : World) (workoutId : Z) (data : UpdateData) :
  Permutation
    (map row_identity (workouts (db (snd (updateWorkout workoutId data w)))))
    (map row_identity (workouts (db w)))
  /\ workoutExercises (db (snd (updateWorkout workoutId data w)))
     = workoutExercises (db w)
  /\ exercises (db (snd (updateWorkout workoutId data w))) = exercises (db w)
  /\ sets (db (snd (updateWorkout workoutId data w))) = sets (db w)
  /\ workouts_id_seq (db (snd (updateWorkout workoutId data w)))
     = workouts_id_seq (db w).
Proof.
  assert (Same : forall w' : World,
            db w' = db w ->
            Permutation (map row_identity (workouts (db w')))
              (map row_identity (workouts (db w)))
            /\ workoutExercises (db w') = workoutExercises (db w)
            /\ exercises (db w') = exercises (db w)
            /\ sets (db w') = sets (db w)
            /\ workouts_id_seq (db w') = workouts_id_seq (db w)).
  { intros w' ->. repeat split; reflexivity. }
  destruct (session_cases w) as [(u & S & N)|U].
  - rewrite (updateWorkout_run w u workoutId data S N).
    destruct (u_date data) as [dt|]; [destruct (toISOString dt) as [s|]|];
      try (apply Same; reflexivity);
      rewrite update_sent;
      match goal with
      | |- context [Db.no_values ?upd] => destruct (Db.no_values upd)
      end;
      try (apply Same; reflexivity);
      match goal with
      | |- context [exec_update ?d ?upd ?wh] =>
          destruct (exec_update d upd wh) as [[rows d1]|] eqn:E;
          [|apply Same; reflexivity]
      end;
      cbn [snd on_store db];
      destruct (exec_update_identity _ _ _ _ _ E) as (_ & _ & _ & _ & A & B & C & D);
      rewrite (exec_update_row_identity _ _ _ _ _ E);
      repeat split; assumption || reflexivity.
  - unfold updateWorkout. rewrite U. apply Same. reflexivity.
Qed.

(** [updateWorkout], the row returned. For a resolved caller, a row that is
    returned is the caller's stored workout with that id after the update:
    it is in the store, keeps id, owner and both timestamps, takes each of
    name, duration and notes from the payload when the payload has it and
    keeps the old value when not, and keeps its date when the payload has
    none. *)
Theorem updateWorkout_writes_the_payload
    (w : World) (u : string) (workoutId : Z) (data : UpdateData) (r' : Workout.t) :
  session w = Some u -> u <> EmptyString ->
  fst (updateWorkout workoutId data w) = Returned (Some r') ->
  exists r,
    (In r (workouts (db w)) /\ Workout.id r = workoutId /\ Workout.userId r = u)
    /\ In r' (workouts (db (snd (updateWorkout workoutId data w))))
    /\ Workout.id r' = workoutId /\ Workout.userId r' = u
    /\ Workout.createdAt r' = Workout.createdAt r
    /\ Workout.updatedAt r' = Workout.updatedAt r
    /\ Workout.name r'
       = match u_name data with Some n => Some n | None => Workout.name r end
    /\ Workout.durationMinutes r'
       = match u_durationMinutes data with
         | Some n => Some n
         | None => Workout.durationMinutes r
         end
    /\ Workout.notes r'
       = match u_notes data with Some n => Some n | None => Workout.notes r end
    /\ (u_date data = None -> Workout.date r' = Workout.date r).
Proof.
  intros S N. rewrite (updateWorkout_run w u workoutId data S N).
  set (wh := [eq_id workoutId; eq_userId u]).
  assert (Main : forall day,
            (u_date data = None -> day = None) ->
            fst (bind (Db.update (WorkoutUpdate.mk (u_name data) day
                                    (u_durationMinutes data) (u_notes data)) wh)
                   (fun rows => ret (first rows)) w) = Returned (Some r') ->
            exists r,
              (In r (workouts (db w)) /\ Workout.id r = workoutId /\ Workout.userId r = u)
              /\ In r' (workouts (db (snd (bind (Db.update
                                                    (WorkoutUpdate.mk (u_name data) day
                                                       (u_durationMinutes data)
                                                       (u_notes data)) wh)
                                            (fun rows => ret (first rows)) w))))
              /\ Workout.id r' = workoutId /\ Workout.userId r' = u
              /\ Workout.createdAt r' = Workout.createdAt r
              /\ Workout.updatedAt r' = Workout.updatedAt r
              /\ Workout.name r'
                 = match u_name data with Some n => Some n | None => Workout.name r end
              /\ Workout.durationMinutes r'
                 = match u_durationMinutes data with
                   | Some n => Some n
                   | None => Workout.durationMinutes r
                   end
              /\ Workout.notes r'
                 = match u_notes data with Some n => Some n | None => Workout.notes r end
              /\ (u_date data = None -> Workout.date r' = Workout.date r)).
  { intros day Hd. rewrite update_sent.
    destruct (Db.no_values _); [discriminate|].
    destruct (exec_update (db w) _ wh) as [[rows d1]|] eqn:E; [|discriminate].
    cbn [fst snd on_store db]. intros [= F].
    destruct (exec_update_rows _ _ _ _ _ E) as (c & R & W & Cn & _).
    cbn [WorkoutUpdate.date] in Cn.
    unfold first, Js.index in F. rewrite R in F.
    destruct (filter (matches wh) (workouts (db w))) as [|r rs] eqn:Fl;
      [discriminate|].
    cbn [map nth_error] in F. injection F as <-.
    assert (I : In r (filter (matches wh) (workouts (db w)))) by (rewrite Fl; left; reflexivity).
    apply filter_In in I. destruct I as (I & T).
    pose proof T as T'. apply (targets_spec u workoutId r) in T'. destruct T' as (Ei & Eu).
    exists r. split; [tauto|]. split.
    { rewrite W. apply in_map_iff. exists r. rewrite T. auto. }
    cbn [updated_row Workout.id Workout.userId Workout.createdAt Workout.updatedAt
           Workout.name Workout.durationMinutes Workout.notes Workout.date
           WorkoutUpdate.name WorkoutUpdate.durationMinutes WorkoutUpdate.notes].
    repeat (split; [assumption || reflexivity
                    || (unfold override;
                        match goal with |- context [match ?x with _ => _ end] =>
                          destruct x end; reflexivity)|]).
    intros Dn. rewrite (Cn (Hd Dn)). reflexivity. }
  destruct (u_date data) as [dt|] eqn:D.
  - destruct (toISOString dt) as [s|]; [|discriminate].
    intros H. destruct (Main (Some (hd EmptyString (Js.split "T" s)))) as (r & P).
    + discriminate.
    + exact H.
    + exists r. exact P.
  - intros H. destruct (Main None (fun _ => eq_refl) H) as (r & P). exists r. exact P.
Qed.

(** Alice renames her workout 1 and leaves everything else out. *)
Lemma updateWorkout_writes_the_payload_witness :
  let w := Sample.world (Some "alice") 0 Sample.store in
  let data := mkUpdateData (Some "Chest day") None None None in
  let r' := Workout.mk 1 "alice" "2025-09-01" (Some "Chest day") (Some 60) None 1000 1000 in
  fst (updateWorkout 1 data w) = Returned (Some r')
  /\ exists r,
       (In r (workouts (db w)) /\ Workout.id r = 1 /\ Workout.userId r = "alice")
       /\ In r' (workouts (db (snd (updateWorkout 1 data w))))
       /\ Workout.id r' = 1 /\ Workout.userId r' = "alice"
       /\ Workout.createdAt r' = Workout.createdAt r
       /\ Workout.updatedAt r' = Workout.updatedAt r
       /\ Workout.name r'
          = match u_name data with Some n => Some n | None => Workout.name r end
       /\ Workout.durationMinutes r'
          = match u_durationMinutes data with
            | Some n => Some n
            | None => Workout.durationMinutes r
            end
       /\ Workout.notes r'
          = match u_notes data with Some n => Some n | None => Workout.notes r end
       /\ (u_date data = None -> Workout.date r' = Workout.date r).
Proof.
  split; [reflexivity|].
  apply (updateWorkout_writes_the_payload
           (Sample.world (Some "alice") 0 Sample.store) "alice" 1
           (mkUpdateData (Some "Chest day") None None None)
           (Workout.mk 1 "alice" "2025-09-01" (Some "Chest day") (Some 60) None 1000 1000)).
  - reflexivity.
  - discriminate.
  - reflexivity.
Defined.

End StoreWrites.

(** ** How the helpers and the actions end *)

Module Outcomes.
Import SrcData RunFacts WriteFacts WriteRuns ActionFacts Validation StoreWrites
  TableFacts.

Lemma onError_plain {A} fallback e w :
  plain e -> @onError A fallback e w = (Returned (Failure (Zod.Text fallback)), w).
Proof. destruct e; simpl; intros H; try contradiction; reflexivity. Qed.

Lemma createWorkout_outcome data w :
  match createWorkout data w with
  | (Returned (Some _), w') => revalidated w' = revalidated w
  | (Returned None, _) => False
  | (Thrown e, w') => plain e /\ db w' = db w /\ revalidated w' = revalidated w
  end.
Proof.
  unfold createWorkout.
  destruct (session_cases w) as [(u & S & N)|U]; [|rewrite U; simpl; auto].
  rewrite (user_resolved _ w u S N). unfold isoDay.
  destruct (JsDate.toISOString (date data)) as [s|]; [|simpl; auto].
  unfold bind at 1, ret at 1.
  unfold bind, Db.insert, send, exec_insert.
  cbn [NewWorkout.date NewWorkout.durationMinutes].
  destruct (Pg.opt_int4 _); [destruct (Pg.date_in _)|]; simpl; auto.
Qed.

Lemma updateWorkout_outcome workoutId data w :
  match updateWorkout workoutId data w with
  | (Returned (Some _), w') => revalidated w' = revalidated w
  | (Returned None, w') => db w' = db w /\ revalidated w' = revalidated w
  | (Thrown e, w') => plain e /\ db w' = db w /\ revalidated w' = revalidated w
  end.
Proof.
  destruct (session_cases w) as [(u & S & N)|U];
    [|unfold updateWorkout; rewrite U; simpl; auto].
  rewrite (updateWorkout_run w u workoutId data S N).
  destruct (u_date data) as [dt|]; [destruct (JsDate.toISOString dt) as [s|]|];
    try (simpl; auto; fail);
    rewrite update_sent;
    match goal with
    | |- context [Db.no_values ?upd] => destruct (Db.no_values upd)
    end;
    try (simpl; auto; fail);
    match goal with
    | |- context [exec_update ?d ?upd ?wh] =>
        destruct (exec_update d upd wh) as [[rows d1]|] eqn:E; [|simpl; auto];
        destruct (exec_update_rows _ _ _ _ _ E) as (c & R & W & _);
        destruct (filter (matches wh) (workouts d)) as [|r rs] eqn:F;
        [|subst rows; reflexivity]
    end;
    subst rows; cbn [map first Js.index nth_error on_store logged db revalidated];
    (split; [|reflexivity]);
    (assert (H : forall r, In r (workouts (db w)) -> targets u workoutId r = false)
       by (intros r I; destruct (targets u workoutId r) eqn:T; [|reflexivity];
           assert (X : In r (filter (matches [eq_id workoutId; eq_userId u])
                               (workouts (db w))))
             by (apply filter_In; split; [exact I|exact T]);
           rewrite F in X; contradiction));
    rewrite (exec_update_no_target u workoutId _ (db w) H) in E;
    cbn [WorkoutUpdate.date] in E;
    repeat match type of E with
           | context [match ?x with _ => _ end] => destruct x
           end; congruence.
Qed.

Lemma deleteWorkout_outcome workoutId w :
  match deleteWorkout workoutId w with
  | (Returned (Some _), w') => revalidated w' = revalidated w
  | (Returned None, w') => db w' = db w /\ revalidated w' = revalidated w
  | (Thrown e, w') => plain e /\ db w' = db w /\ revalidated w' = revalidated w
  end.
Proof.
  destruct (session_cases w) as [(u & S & N)|U];
    [|unfold deleteWorkout; rewrite U; simpl; auto].
  rewrite (deleteWorkout_run w u workoutId S N).
  destruct (Pg.int4 workoutId); [|simpl; auto].
  destruct (filter (targets u workoutId) (workouts (db w))) as [|r rs] eqn:F;
    [|reflexivity].
  cbn [first Js.index nth_error on_store logged db revalidated].
  split; [|reflexivity].
  apply delete_cascade_no_target. intros r I.
  destruct (targets u workoutId r) eqn:T; [|reflexivity].
  assert (X : In r (filter (targets u workoutId) (workouts (db w))))
    by (apply filter_In; auto).
  rewrite F in X. contradiction.
Qed.

(** How each action ends: with an answer. A success has revalidated the
    paths of the action; a failure has left the store and the revalidated
    paths alone. *)
Lemma createWorkoutAction_outcome input w :
  match NewActions.createWorkoutAction input w with
  | (Returned (Success _), w') => revalidated w' = revalidated w ++ ["/dashboard"]
  | (Returned (Failure _), w') => db w' = db w /\ revalidated w' = revalidated w
  | (Thrown _, _) => False
  end.
Proof.
  destruct (NewActions.createWorkoutSchema input) as [|m rest] eqn:V.
  - rewrite (createWorkoutAction_valid input w V). unfold try_catch, bind at 1.
    pose proof (createWorkout_outcome
                  (mkCreateData (NewActions.name input)
                     (JsDate.parse (NewActions.date input))
                     (option_map Zod.toInteger (NewActions.durationMinutes input))
                     (NewActions.notes input)) w) as O.
    destruct (createWorkout _ w) as [[[r|]|e] w']; [|contradiction|].
    + simpl. rewrite O. reflexivity.
    + destruct O as (P & D & R). rewrite (onError_plain _ e w' P). auto.
  - rewrite (createWorkoutAction_invalid input w m rest V). auto.
Qed.

Lemma updateWorkoutAction_outcome input w :
  match EditActions.updateWorkoutAction input w with
  | (Returned (Success _), w') =>
      revalidated w'
      = revalidated w
        ++ ["/dashboard";
            "/dashboard/workout/" +++ Js.String_of (Zod.toInteger (EditActions.id input))]
  | (Returned (Failure _), w') => db w' = db w /\ revalidated w' = revalidated w
  | (Thrown _, _) => False
  end.
Proof.
  destruct (EditActions.updateWorkoutSchema input) as [|m rest] eqn:V.
  - rewrite (updateWorkoutAction_valid input w V).
    pose proof (updateWorkout_outcome (Zod.toInteger (EditActions.id input))
                  (mkUpdateData (Some (EditActions.name input))
                     (Some (JsDate.parse (EditActions.date input)))
                     (option_map Zod.toInteger (EditActions.durationMinutes input))
                     (EditActions.notes input)) w) as O.
    destruct (updateWorkout _ _ w) as [[[r|]|e] w'].
    + simpl. rewrite O, <- List.app_assoc. reflexivity.
    + exact O.
    + destruct O as (P & D & R). rewrite (onError_plain _ e w' P). auto.
  - rewrite (updateWorkoutAction_invalid input w m rest V). auto.
Qed.

Lemma deleteWorkoutAction_outcome input w :
  match EditActions.deleteWorkoutAction input w with
  | (Returned (Success _), w') => revalidated w' = revalidated w ++ ["/dashboard"]
  | (Returned (Failure _), w') => db w' = db w /\ revalidated w' = revalidated w
  | (Thrown _, _) => False
  end.
Proof.
  destruct (EditActions.deleteWorkoutSchema input) as [|m rest] eqn:V.
  - rewrite (deleteWorkoutAction_valid input w V).
    pose proof (deleteWorkout_outcome (Zod.toInteger (EditActions.d_id input)) w) as O.
    destruct (deleteWorkout _ w) as [[[r|]|e] w'].
    + simpl. rewrite O. reflexivity.
    + exact O.
    + destruct O as (P & D & R). rewrite (onError_plain _ e w' P). auto.
  - rewrite (deleteWorkoutAction_invalid input w m rest V). auto.
Qed.

(** The validated server actions never throw. Whatever the session, the
    store and the request, each of them returns an answer: a missing
    session, a date the store rejects and a date that is no date all come
    back as a failure. *)
Theorem server_actions_always_answer (w : World) :
  (forall input, exists r, fst (NewActions.createWorkoutAction input w) = Returned r)
  /\ (forall input, exists r, fst (EditActions.updateWorkoutAction input w) = Returned r)
  /\ (forall input, exists r, fst (EditActions.deleteWorkoutAction input w) = Returned r).
Proof.
  split; [|split]; intros input.
  - pose proof (createWorkoutAction_outcome input w) as O.
    destruct (NewActions.createWorkoutAction input w) as [[r|e] w'];
      [exists r; reflexivity|contradiction].
  - pose proof (updateWorkoutAction_outcome input w) as O.
    destruct (EditActions.updateWorkoutAction input w) as [[r|e] w'];
      [exists r; reflexivity|contradiction].
  - pose proof (deleteWorkoutAction_outcome input w) as O.
    destruct (EditActions.deleteWorkoutAction input w) as [[r|e] w'];
      [exists r; reflexivity|contradiction].
Qed.

(** Revalidation follows success. An action that answers with a failure has
    changed neither the store nor the revalidated paths; one that answers
    with a success has revalidated the dashboard, and the update action the
    page of the workout as well, and nothing else. *)
Theorem actions_revalidate_on_success_only (w : World) :
  (forall input m,
     fst (NewActions.createWorkoutAction input w) = Returned (Failure m) ->
     db (snd (NewActions.createWorkoutAction input w)) = db w
     /\ revalidated (snd (NewActions.createWorkoutAction input w)) = revalidated w)
  /\ (forall input m,
        fst (EditActions.updateWorkoutAction input w) = Returned (Failure m) ->
        db (snd (EditActions.updateWorkoutAction input w)) = db w
        /\ revalidated (snd (EditActions.updateWorkoutAction input w)) = revalidated w)
  /\ (forall input m,
        fst (EditActions.deleteWorkoutAction input w) = Returned (Failure m) ->
        db (snd (EditActions.deleteWorkoutAction input w)) = db w
        /\ revalidated (snd (EditActions.deleteWorkoutAction input w)) = revalidated w)
  /\ (forall input r,
        fst (NewActions.createWorkoutAction input w) = Returned (Success r) ->
        revalidated (snd (NewActions.createWorkoutAction input w))
        = revalidated w ++ ["/dashboard"])
  /\ (forall input r,
        fst (EditActions.updateWorkoutAction input w) = Returned (Success r) ->
        revalidated (snd (EditActions.updateWorkoutAction input w))
        = revalidated w
          ++ ["/dashboard";
              "/dashboard/workout/"
                +++ Js.String_of (Zod.toInteger (EditActions.id input))])
  /\ (forall input r,
        fst (EditActions.deleteWorkoutAction input w) = Returned (Success r) ->
        revalidated (snd (EditActions.deleteWorkoutAction input w))
        = revalidated w ++ ["/dashboard"]).
Proof.
  split; [|split; [|split; [|split; [|split]]]]; intros input x.
  - pose proof (createWorkoutAction_outcome input w) as O.
    destruct (NewActions.createWorkoutAction input w) as [[[r|m]|e] w'];
      try discriminate. intros _. exact O.
  - pose proof (updateWorkoutAction_outcome input w) as O.
    destruct (EditActions.updateWorkoutAction input w) as [[[r|m]|e] w'];
      try discriminate. intros _. exact O.
  - pose proof (deleteWorkoutAction_outcome input w) as O.
    destruct (EditActions.deleteWorkoutAction input w) as [[[r|m]|e] w'];
      try discriminate. intros _. exact O.
  - pose proof (createWorkoutAction_outcome input w) as O.
    destruct (NewActions.createWorkoutAction input w) as [[[r|m]|e] w'];
      try discriminate. intros _. exact O.
  - pose proof (updateWorkoutAction_outcome input w) as O.
    destruct (EditActions.updateWorkoutAction input w) as [[[r|m]|e] w'];
      try discriminate. intros _. exact O.
  - pose proof (deleteWorkoutAction_outcome input w) as O.
    destruct (EditActions.deleteWorkoutAction input w) as [[[r|m]|e] w'];
      try discriminate. intros _. exact O.
Qed.

(** The quick-create action never returns: it leaves by throwing. When what
    it throws is a redirect, one row was added, the dashboard was
    revalidated and the redirect goes to the edit page of that row; when it
    is anything else, the store and the revalidated paths are as before. *)
Theorem quick_create_leaves_by_throwing (w : World) (date : string) (name : option string) :
  exists e,
    fst (LibActions.createWorkout date name w) = Thrown e
    /\ match e with
       | Redirect url =>
           exists row,
             workouts (db (snd (LibActions.createWorkout date name w)))
             = workouts (db w) ++ [row]
             /\ url = "/workout/" +++ Js.String_of (Workout.id row) +++ "/edit"
             /\ Workout.id row = workouts_id_seq (db w) + 1
             /\ revalidated (snd (LibActions.createWorkout date name w))
                = revalidated w ++ ["/dashboard"]
       | _ =>
           db (snd (LibActions.createWorkout date name w)) = db w
           /\ revalidated (snd (LibActions.createWorkout date name w)) = revalidated w
       end.
Proof.
  destruct (session_cases w) as [(u & S & N)|U].
  - destruct (Pg.date_in date) as [c|] eqn:D.
    + rewrite (QuickCreate.quick_create_run w u date name c S N D).
      eexists. split; [reflexivity|]. eexists. cbn [fst snd db workouts revalidated].
      repeat split; reflexivity.
    + unfold LibActions.createWorkout. rewrite (user_resolved _ w u S N).
      unfold bind at 1, Db.insert, send, exec_insert. cbn [NewWorkout.date].
      rewrite D. eexists. split; [reflexivity|]. simpl. auto.
  - unfold LibActions.createWorkout. rewrite U.
    eexists. split; [reflexivity|]. simpl. auto.
Qed.

End Outcomes.

(** ** Date texts and the dates they stand for *)

Module DateTexts.
Import Js JsDate JsFacts DateFacts DateUtilsFacts PgFacts IsoFacts MonthDates.

(** A year of four digits prints the same with and without padding. *)
Lemma pad4_String_of y : 1000 <= y <= 9999 -> pad 4 y = String_of y.
Proof.
  intros H.
  assert (C : forallb (fun v => String.eqb (pad 4 (Z.of_nat v)) (String_of (Z.of_nat v)))
                (seq (Z.to_nat 1000) (Z.to_nat 9000)) = true) by (vm_compute; reflexivity).
  rewrite forallb_forall in C. specialize (C (Z.to_nat y)).
  rewrite Z2Nat.id in C by lia. apply String.eqb_eq, C, in_seq. lia.
Qed.

(** From the year 1000 to the year 9999 the formatter prints the text the
    store prints. *)
Lemma formatDateForDb_canonical tza t :
  1000 <= YearFromTime (LocalTime tza t) <= 9999 ->
  formatDateForDb tza (Some t) = Pg.date_out (localDay tza t).
Proof.
  intros Hy. rewrite formatDateForDb_valid. unfold Pg.date_out, localDay.
  rewrite (pad4_String_of _ Hy). reflexivity.
Qed.

(** Parsing the text of a calendar date: local midnight of that day. *)
Lemma parseDateFromDb_date_out tza y m d :
  Z.abs tza <= msPerDay -> Pg.valid_date y m d = true -> 100 <= y <= 9999 ->
  parseDateFromDb tza (Pg.date_out (y, m, d))
  = Some (MakeDay y (m - 1) d * msPerDay - tza)
  /\ Z.abs (MakeDay y (m - 1) d * msPerDay - tza) <= maxTime
  /\ localDay tza (MakeDay y (m - 1) d * msPerDay - tza) = (y, m, d).
Proof.
  intros Hz V Hy. destruct (valid_date_bounds y m d V) as (By & Bm & Bd & Bd').
  destruct (newDate_local tza y (m - 1) d Hz Hy ltac:(lia)
              ltac:(replace (m - 1 + 1) with m by lia; lia)) as (D & B).
  split; [|split; [exact B|]].
  - unfold parseDateFromDb, Pg.date_out, pad.
    rewrite split_app_sep by (apply no_char_padStart; [apply dash_not_digit|lia]).
    rewrite split_app_sep by (apply no_char_padStart; [apply dash_not_digit|lia]).
    rewrite split_no_char by (apply no_char_padStart; [apply dash_not_digit|lia]).
    cbn [map index nth_error]. rewrite !Number_padStart by lia.
    cbn [option_map]. apply newDate_value; [lia|exact B].
  - set (t := MakeDay y (m - 1) d * msPerDay - tza) in *.
    assert (El : LocalTime tza t = MakeDay y (m - 1) d * msPerDay)
      by (unfold LocalTime, t; lia).
    destruct (fields_of_MakeDay y m d (LocalTime tza t) Bm Bd) as (Fy & Fm & Fd);
      [rewrite El; apply Day_of_day|].
    unfold localDay. rewrite Fy, Fm, Fd. f_equal. f_equal. lia.
Qed.

Lemma format_parse_date_out tza y m d :
  Z.abs tza <= msPerDay -> Pg.valid_date y m d = true -> 1000 <= y <= 9999 ->
  formatDateForDb tza (parseDateFromDb tza (Pg.date_out (y, m, d)))
  = Pg.date_out (y, m, d).
Proof.
  intros Hz V Hy.
  destruct (parseDateFromDb_date_out tza y m d Hz V ltac:(lia)) as (P & B & L).
  rewrite P. rewrite formatDateForDb_canonical; [rewrite L; reflexivity|].
  unfold localDay in L. injection L as -> _ _. exact Hy.
Qed.

(** The stored text back into a [Date] and out again. For a calendar date
    of the years 1000 to 9999, wherever the host is, parsing the store's
    text gives local midnight of that day, and formatting that gives the
    text back. *)
Theorem formatDateForDb_parseDateFromDb (tza y m d : Z) :
  Z.abs tza <= msPerDay -> Pg.valid_date y m d = true -> 1000 <= y <= 9999 ->
  parseDateFromDb tza (Pg.date_out (y, m, d))
  = Some (MakeDay y (m - 1) d * msPerDay - tza)
  /\ formatDateForDb tza (parseDateFromDb tza (Pg.date_out (y, m, d)))
     = Pg.date_out (y, m, d).
Proof.
  intros Hz V Hy. split.
  - apply (parseDateFromDb_date_out tza y m d Hz V). lia.
  - apply (format_parse_date_out tza y m d Hz V Hy).
Qed.

(** 29 February 2024, eleven hours east of UTC. *)
Lemma formatDateForDb_parseDateFromDb_witness :
  Pg.date_out (2024, 2, 29) = "2024-02-29"
  /\ parseDateFromDb 39600000 (Pg.date_out (2024, 2, 29))
     = Some (MakeDay 2024 (2 - 1) 29 * msPerDay - 39600000)
  /\ formatDateForDb 39600000 (parseDateFromDb 39600000 (Pg.date_out (2024, 2, 29)))
     = Pg.date_out (2024, 2, 29).
Proof.
  split; [reflexivity|].
  apply (formatDateForDb_parseDateFromDb 39600000 2024 2 29).
  - vm_compute. discriminate.
  - reflexivity.
  - lia.
Defined.

(** A text with fewer than three fields is no date. *)
Lemma parseDateFromDb_short tza s :
  (List.length (split "-" s) < 3)%nat -> parseDateFromDb tza s = None.
Proof.
  unfold parseDateFromDb. intros H.
  destruct (split "-" s) as [|a [|b [|c r]]]; cbn [List.length] in H; try lia;
    cbn [map index nth_error]; unfold newDate;
    repeat match goal with
           | |- context [match ?x with _ => _ end] => destruct x
           end; reflexivity.
Qed.

Lemma formatDateForDb_invalid tza : formatDateForDb tza None = "NaN-NaN-NaN".
Proof. reflexivity. Qed.

Lemma date_in_NaN : Pg.date_in "NaN-NaN-NaN" = None.
Proof. reflexivity. Qed.

(** The days of a month, among calendar dates. *)
Lemma in_month y m c :
  (let '(cy, cm, cd) := c in Pg.valid_date cy cm cd = true) ->
  Pg.date_leb (y, m, 1) c = true /\ Pg.date_leb c (y, m, Pg.daysInMonth y m) = true
  <-> exists d, c = (y, m, d).
Proof.
  destruct c as [[cy cm] cd]. intros V.
  destruct (valid_date_bounds cy cm cd V) as (By & Bm & Bd & _).
  unfold Pg.date_leb.
  rewrite !orb_true_iff, !andb_true_iff, !orb_true_iff, !andb_true_iff,
    !Z.ltb_lt, !Z.eqb_eq, !Z.leb_le.
  split.
  - intros H. exists cd. assert (cy = y /\ cm = m) as (-> & ->) by lia. reflexivity.
  - intros (d & [= -> -> ->]). lia.
Qed.

End DateTexts.

(** ** The dashboard page *)

Module DashboardPageFacts.
Import Js JsDate JsFacts DateFacts DateUtilsFacts PgFacts IsoFacts MonthDates
  RunFacts ReadFacts Ordering DateTexts.

(** What the page does once the selected date is known to be a valid one
    from the year 100 to the year 9999. *)
Lemma DashboardPage_selected w u date t :
  session w = Some u -> u <> EmptyString -> Z.abs (tza w) <= msPerDay ->
  Z.abs t <= maxTime -> 100 <= YearFromTime (LocalTime (tza w) t) <= 9999 ->
  match date with
  | Some s => if String.eqb s EmptyString then Some (clock w)
              else parseDateFromDb (tza w) s
  | None => Some (clock w)
  end = Some t ->
  exists props rows ds,
    fst (Page.DashboardPage date w) = Returned props
    /\ Page.selectedDate props = Some t
    /\ map WorkoutView.id (Page.workouts props) = map Workout.id rows
    /\ (forall r, In r rows <->
          In r (workouts (db w)) /\ ownedOn u (localDay (tza w) t) r)
    /\ StronglySorted (fun a b => Workout.createdAt b <= Workout.createdAt a) rows
    /\ Page.workoutDates props = map (parseDateFromDb (tza w)) ds
    /\ NoDup ds
    /\ (forall s, In s ds <->
          exists r d, In r (workouts (db w)) /\ Workout.userId r = u
            /\ Workout.date r = s
            /\ Pg.date_in s
               = Some (YearFromTime (LocalTime (tza w) t),
                       MonthFromTime (LocalTime (tza w) t) + 1, d)).
Proof.
  intros S N Hz Ht Hy Sel.
  pose proof (date_in_formatDateForDb (tza w) t Ht Hz ltac:(lia)) as D.
  pose proof (getWorkoutsByDate_run w u (Some t) _ S N D) as R. cbv zeta in R.
  set (ds0 := formatDateForDb (tza w) (Some t)) in *.
  set (rows := workoutsOn u ds0 (db w)) in *.
  set (views := map (Data.workoutView
                       (map (fun i => (i, exercise_data (db w) i)) (map Workout.id rows)))
                  rows) in *.
  set (w1 := logged w (select_workouts [eq_userId u; eq_date ds0] (Some desc_createdAt) None
                       :: map select_exercise_data (map Workout.id rows))) in *.
  pose proof (MonthFromTime_range (LocalTime (tza w) t)) as Hm.
  destruct (getWorkoutDatesForMonth_dates w1 u (YearFromTime (LocalTime (tza w) t))
              (MonthFromTime (LocalTime (tza w) t)) S N Hz Hy Hm) as (ds & Fd & Nd & Id).
  assert (Run : Page.DashboardPage date w
                = bind (Data.getWorkoutDatesForMonth
                          (YearFromTime (LocalTime (tza w) t))
                          (MonthFromTime (LocalTime (tza w) t)))
                    (fun workoutDates => ret (Page.mkProps views (Some t) workoutDates))
                    w1).
  { unfold Page.DashboardPage. unfold bind at 1, host_tza.
    assert (E : (match date with
                 | Some s => if String.eqb s EmptyString then Page.now
                             else ret (parseDateFromDb (tza w) s)
                 | None => Page.now
                 end) w = (Returned (Some t), w)).
    { destruct date as [s|]; [destruct (String.eqb s EmptyString)|];
        unfold Page.now, ret; rewrite <- Sel; reflexivity. }
    rewrite (bind_returned _ _ w _ w E).
    rewrite (bind_returned _ _ w _ w1 R). reflexivity. }
  exists (Page.mkProps views (Some t) (map (parseDateFromDb (tza w)) ds)), rows, ds.
  split.
  { rewrite Run. unfold bind.
    destruct (Data.getWorkoutDatesForMonth _ _ w1) as [o w2]. cbn [fst] in Fd.
    subst o. reflexivity. }
  cbn [Page.selectedDate Page.workouts Page.workoutDates].
  split; [reflexivity|]. split; [unfold views; rewrite map_map; reflexivity|].
  split; [intros r; apply workoutsOn_In, D|].
  split; [apply workoutsOn_sorted|]. split; [reflexivity|]. split; [exact Nd|].
  intros s. rewrite Id. change (db w1) with (db w).
  split.
  - intros (r & c & I & O & E & Dc & G & L).
    assert (V : let '(cy, cm, cd) := c in Pg.valid_date cy cm cd = true).
    { destruct c as [[cy cm] cd]. exact (date_in_valid s cy cm cd Dc). }
    destruct (proj1 (in_month _ _ c V) (conj G L)) as (d & ->).
    exists r, d. auto.
  - intros (r & d & I & O & E & Dc).
    exists r, (YearFromTime (LocalTime (tza w) t),
               MonthFromTime (LocalTime (tza w) t) + 1, d).
    pose proof (date_in_valid s _ _ _ Dc) as V.
    destruct (proj2 (in_month (YearFromTime (LocalTime (tza w) t))
                       (MonthFromTime (LocalTime (tza w) t) + 1)
                       (YearFromTime (LocalTime (tza w) t),
                        MonthFromTime (LocalTime (tza w) t) + 1, d) V)
                (ex_intro _ d eq_refl)) as (G & L).
    auto 10.
Qed.

(** The page for a date in the URL. For a resolved caller and the text of a
    calendar date of the years 100 to 9999 as the [date] parameter,
    wherever the host is: the selected date is local midnight of that day,
    the workouts are the caller's rows stored under that date, newest
    first, and the calendar marks are the dates of the caller's workouts in
    the month of that date, each once. *)
Theorem DashboardPage_shows_the_requested_day (w : World) (u : string) (y m d : Z) :
  session w = Some u -> u <> EmptyString -> Z.abs (tza w) <= msPerDay ->
  Pg.valid_date y m d = true -> 100 <= y <= 9999 ->
  exists props rows ds,
    fst (Page.DashboardPage (Some (Pg.date_out (y, m, d))) w) = Returned props
    /\ Page.selectedDate props = Some (MakeDay y (m - 1) d * msPerDay - tza w)
    /\ map WorkoutView.id (Page.workouts props) = map Workout.id rows
    /\ (forall r, In r rows <-> In r (workouts (db w)) /\ ownedOn u (y, m, d) r)
    /\ StronglySorted (fun a b => Workout.createdAt b <= Workout.createdAt a) rows
    /\ Page.workoutDates props = map (parseDateFromDb (tza w)) ds
    /\ NoDup ds
    /\ (forall s, In s ds <->
          exists r d', In r (workouts (db w)) /\ Workout.userId r = u
            /\ Workout.date r = s /\ Pg.date_in s = Some (y, m, d')).
Proof.
  intros S N Hz V Hy.
  destruct (parseDateFromDb_date_out (tza w) y m d Hz V Hy) as (P & B & L).
  set (t := MakeDay y (m - 1) d * msPerDay - tza w) in *.
  assert (Ly : YearFromTime (LocalTime (tza w) t) = y
               /\ MonthFromTime (LocalTime (tza w) t) + 1 = m).
  { unfold localDay in L. injection L as -> -> _. auto. }
  destruct Ly as (Ey & Em).
  assert (Ne : String.eqb (Pg.date_out (y, m, d)) EmptyString = false).
  { apply String.eqb_neq. intros E.
    pose proof (date_out_roundtrip y m d w V ltac:(lia)) as (_ & Di).
    rewrite E in Di. discriminate Di. }
  destruct (DashboardPage_selected w u (Some (Pg.date_out (y, m, d))) t S N Hz B
              ltac:(lia)) as (props & rows & ds & H).
  { rewrite Ne. exact P. }
  rewrite L, Ey, Em in H. exists props, rows, ds. exact H.
Qed.

(** Alice opens the dashboard for 1 September 2025, five hours west of
    UTC. *)
Lemma DashboardPage_shows_the_requested_day_witness :
  let w := Sample.world (Some "alice") (-18000000) Sample.store in
  Pg.date_out (2025, 9, 1) = "2025-09-01"
  /\ exists props rows ds,
       fst (Page.DashboardPage (Some (Pg.date_out (2025, 9, 1))) w) = Returned props
       /\ Page.selectedDate props = Some (MakeDay 2025 (9 - 1) 1 * msPerDay - tza w)
       /\ map WorkoutView.id (Page.workouts props) = map Workout.id rows
       /\ (forall r, In r rows <->
             In r (workouts (db w)) /\ ownedOn "alice" (2025, 9, 1) r)
       /\ StronglySorted (fun a b => Workout.createdAt b <= Workout.createdAt a) rows
       /\ Page.workoutDates props = map (parseDateFromDb (tza w)) ds
       /\ NoDup ds
       /\ (forall s, In s ds <->
             exists r d', In r (workouts (db w)) /\ Workout.userId r = "alice"
               /\ Workout.date r = s /\ Pg.date_in s = Some (2025, 9, d')).
Proof.
  split; [reflexivity|].
  apply (DashboardPage_shows_the_requested_day
           (Sample.world (Some "alice") (-18000000) Sample.store) "alice" 2025 9 1).
  - reflexivity.
  - discriminate.
  - vm_compute. discriminate.
  - reflexivity.
  - lia.
Defined.

(** The page without a date. For a resolved caller, when the [date]
    parameter is absent or empty and the host's clock shows a year from 100
    to 9999, the selected date is the clock's instant and the workouts are
    the caller's rows of the host's local day, newest first. *)
Theorem DashboardPage_defaults_to_today (w : World) (u : string) (date : option string) :
  session w = Some u -> u <> EmptyString -> Z.abs (tza w) <= msPerDay ->
  Z.abs (clock w) <= maxTime ->
  100 <= YearFromTime (LocalTime (tza w) (clock w)) <= 9999 ->
  date = None \/ date = Some EmptyString ->
  exists props rows,
    fst (Page.DashboardPage date w) = Returned props
    /\ Page.selectedDate props = Some (clock w)
    /\ map WorkoutView.id (Page.workouts props) = map Workout.id rows
    /\ (forall r, In r rows <->
          In r (workouts (db w)) /\ ownedOn u (localDay (tza w) (clock w)) r)
    /\ StronglySorted (fun a b => Workout.createdAt b <= Workout.createdAt a) rows.
Proof.
  intros S N Hz Ht Hy Hd.
  destruct (DashboardPage_selected w u date (clock w) S N Hz Ht Hy)
    as (props & rows & ds & F & Sd & Ws & Rs & So & _).
  { destruct Hd as [-> | ->]; reflexivity. }
  exists props, rows. auto.
Qed.

(** Alice opens the dashboard without a date when the host's clock shows
    noon of 1 September 2025. *)
Lemma DashboardPage_defaults_to_today_witness :
  let w := mkWorld (Some "alice") 0 Sample.noon Sample.store [] [] (fun _ => 0) in
  localDay (tza w) (clock w) = (2025, 9, 1)
  /\ exists props rows,
       fst (Page.DashboardPage None w) = Returned props
       /\ Page.selectedDate props = Some (clock w)
       /\ map WorkoutView.id (Page.workouts props) = map Workout.id rows
       /\ (forall r, In r rows <->
             In r (workouts (db w)) /\ ownedOn "alice" (localDay (tza w) (clock w)) r)
       /\ StronglySorted (fun a b => Workout.createdAt b <= Workout.createdAt a) rows.
Proof.
  split; [reflexivity|].
  apply (DashboardPage_defaults_to_today
           (mkWorld (Some "alice") 0 Sample.noon Sample.store [] [] (fun _ => 0)) "alice" None).
  - reflexivity.
  - discriminate.
  - vm_compute. discriminate.
  - vm_compute. discriminate.
  - vm_compute. split; discriminate.
  - left. reflexivity.
Defined.

(** The page for a [date] parameter with too few fields. For a resolved
    caller and a non-empty text that splits at its dashes into fewer than
    three fields, so that the day is missing, the page does not fall back to
    today: the selected date is an Invalid Date, the first query is sent
    with the text NaN-NaN-NaN, the store rejects it, and the page throws
    with nothing read or changed. *)
Theorem DashboardPage_rejects_a_malformed_date (w : World) (u s : string) :
  session w = Some u -> u <> EmptyString ->
  s <> EmptyString -> (List.length (split "-" s) < 3)%nat ->
  Page.DashboardPage (Some s) w
  = (Thrown DbError,
     logged w [select_workouts [eq_userId u; eq_date "NaN-NaN-NaN"]
                 (Some desc_createdAt) None]).
Proof.
  intros S N Ns Hs. pose proof (parseDateFromDb_short (tza w) s Hs) as P.
  unfold Page.DashboardPage. unfold bind at 1, host_tza.
  destruct (String.eqb_spec s EmptyString) as [E|_]; [contradiction|].
  unfold bind at 1, ret at 1. rewrite P.
  erewrite bind_thrown; [reflexivity|].
  apply (getWorkoutsByDate_rejected w u None S N). reflexivity.
Qed.

(** Alice opens the dashboard with a month for a date. *)
Lemma DashboardPage_rejects_a_malformed_date_witness :
  let w := Sample.world (Some "alice") 0 Sample.store in
  split "-" "2025-09" = ["2025"; "09"]
  /\ Page.DashboardPage (Some "2025-09") w
     = (Thrown DbError,
        logged w [select_workouts [eq_userId "alice"; eq_date "NaN-NaN-NaN"]
                    (Some desc_createdAt) None]).
Proof.
  split; [reflexivity|].
  apply (DashboardPage_rejects_a_malformed_date
           (Sample.world (Some "alice") 0 Sample.store) "alice" "2025-09").
  - reflexivity.
  - discriminate.
  - discriminate.
  - simpl. lia.
Defined.

End DashboardPageFacts.

(** ** The dates of the views, and a workout from form to dashboard *)

Module ViewDates.
Import Js JsDate JsFacts DateFacts DateUtilsFacts PgFacts IsoFacts MonthDates
  RunFacts ReadFacts Ordering DateTexts SrcData ActionFacts Validation StoreWrites.

Lemma Day_shift D z : 0 <= z < msPerDay -> Day (D * msPerDay + z) = D.
Proof.
  intros H. unfold Day. symmetry. apply (Z.div_unique _ _ D z); [left; exact H|].
  unfold msPerDay. lia.
Qed.

Lemma same_day_same_text tza a b :
  Day (LocalTime tza a) = Day (LocalTime tza b) ->
  formatDateForDb tza (Some a) = formatDateForDb tza (Some b).
Proof.
  intros E. rewrite !formatDateForDb_valid.
  rewrite (YearFromTime_day _ _ E), (MonthFromTime_day _ _ E), (DateFromTime_day _ _ E).
  reflexivity.
Qed.

(** The [date] of a view. For a resolved caller, a valid date whose local
    year is from 100 to 9999 and a store whose dates read back as the store
    prints them, every view [getWorkoutsByDate] returns carries midnight
    UTC of the day asked for, not local midnight. On a host at or east of
    UTC that instant falls on the same local day; on a host west of UTC it
    falls on the local day before. *)
Theorem getWorkoutsByDate_view_dates (w : World) (u : string) (t : Z) :
  session w = Some u -> u <> EmptyString ->
  Z.abs t <= maxTime -> Z.abs (tza w) <= msPerDay ->
  100 <= YearFromTime (LocalTime (tza w) t) <= 9999 ->
  (forall r, In r (workouts (db w)) -> canonical_date (Workout.date r)) ->
  exists views,
    fst (Data.getWorkoutsByDate (Some t) w) = Returned views
    /\ forall v, In v views ->
         WorkoutView.date v = Some (Day (LocalTime (tza w) t) * msPerDay)
         /\ (0 <= tza w < msPerDay ->
             formatDateForDb (tza w) (WorkoutView.date v)
             = formatDateForDb (tza w) (Some t))
         /\ (tza w < 0 ->
             formatDateForDb (tza w) (WorkoutView.date v)
             = formatDateForDb (tza w) (Some (t - msPerDay))).
Proof.
  intros S N Ht Hz Hy C.
  pose proof (date_in_formatDateForDb (tza w) t Ht Hz ltac:(lia)) as D.
  rewrite (getWorkoutsByDate_run w u (Some t) _ S N D). cbv zeta.
  eexists. split; [reflexivity|].
  intros v Iv. apply in_map_iff in Iv. destruct Iv as (r & <- & Ir).
  apply (workoutsOn_In u _ _ (db w) r D) in Ir. destruct Ir as (Ir & _ & Dr).
  destruct (C r Ir) as (y & m & d & V & E).
  assert (Dc : Pg.date_in (Pg.date_out (y, m, d)) = Some (y, m, d))
    by (unfold Pg.date_out, pad; apply date_in_fields; [left; lia|exact V]).
  rewrite E, Dc in Dr. unfold localDay in Dr. injection Dr as Ey Em Ed.
  assert (P : WorkoutView.date (Data.workoutView
                (map (fun i => (i, exercise_data (db w) i))
                   (map Workout.id (workoutsOn u (formatDateForDb (tza w) (Some t)) (db w))))
                r)
              = Some (Day (LocalTime (tza w) t) * msPerDay)).
  { cbn [Data.workoutView WorkoutView.date]. rewrite E.
    rewrite (parse_date_out y m d V ltac:(lia)).
    rewrite <- (MakeDay_fields (LocalTime (tza w) t)).
    rewrite <- Ey, <- Ed. replace (m - 1) with (MonthFromTime (LocalTime (tza w) t)) by lia.
    reflexivity. }
  rewrite P. split; [reflexivity|]. split.
  - intros Hp. apply same_day_same_text. unfold LocalTime at 1.
    apply Day_shift, Hp.
  - intros Hn. apply same_day_same_text. unfold LocalTime at 1.
    replace (Day (LocalTime (tza w) t) * msPerDay + tza w)
      with ((Day (LocalTime (tza w) t) - 1) * msPerDay + (tza w + msPerDay)) by lia.
    rewrite Day_shift by (unfold msPerDay in *; lia).
    unfold LocalTime. replace (t - msPerDay + tza w) with (t + tza w + (-1) * msPerDay) by lia.
    unfold Day. rewrite Z.div_add by (unfold msPerDay; lia). lia.
Qed.

(** Alice reads 1 September 2025 five hours west of UTC: the views are
    dated midnight UTC of the 1st, which is the evening of 31 August
    there. *)
Lemma getWorkoutsByDate_view_dates_witness :
  let w := Sample.world (Some "alice") (-18000000) Sample.store in
  let t := Sample.noon in
  (formatDateForDb (tza w) (Some t) = "2025-09-01"
   /\ formatDateForDb (tza w) (Some (t - msPerDay)) = "2025-08-31")
  /\ exists views,
       fst (Data.getWorkoutsByDate (Some t) w) = Returned views
       /\ forall v, In v views ->
            WorkoutView.date v = Some (Day (LocalTime (tza w) t) * msPerDay)
            /\ (0 <= tza w < msPerDay ->
                formatDateForDb (tza w) (WorkoutView.date v)
                = formatDateForDb (tza w) (Some t))
            /\ (tza w < 0 ->
                formatDateForDb (tza w) (WorkoutView.date v)
                = formatDateForDb (tza w) (Some (t - msPerDay))).
Proof.
  split; [split; reflexivity|].
  apply (getWorkoutsByDate_view_dates
           (Sample.world (Some "alice") (-18000000) Sample.store) "alice" Sample.noon).
  - reflexivity.
  - discriminate.
  - vm_compute. discriminate.
  - vm_compute. discriminate.
  - vm_compute. split; discriminate.
  - intros r I. simpl in I.
    destruct I as [<-|[<-|[<-|[<-|[]]]]];
      [exists 2025, 9, 1|exists 2025, 9, 1|exists 2025, 9, 1|exists 2025, 8, 31];
      split; reflexivity.
Defined.




End ViewDates.

(** ** [src/db/queries]: the reads that take the user as an argument *)

Module RelationalReads.
Import RunFacts PgFacts Ordering MonthDates DateOrder.

Lemma leb_sorted {A} (f : A -> Z) l :
  StronglySorted (fun a b => f a <= f b) (stable_sort (fun a b => f a <=? f b) l).
Proof.
  eapply StronglySorted_weaken; [|apply stable_sort_sorted].
  - intros a b H. apply Z.leb_le, H.
  - intros a b. rewrite !Z.leb_le. lia.
  - intros a b c. rewrite !Z.leb_le. lia.
Qed.

(** [getWorkoutsByUserAndDate]. For a date text the store accepts, and with
    no look at the session, the query asks for the workouts of the user it
    is given on that date, newest first, each with its exercise entries by
    rising [order] and each entry with its exercise and with its sets by
    rising set number. What comes back is exactly those workouts, in
    falling creation time; each with exactly its own exercise entries, in
    rising [order]; each entry with exactly its own sets, in rising set
    number, and with the exercise its [exerciseId] names when the catalogue
    has it. *)
Theorem getWorkoutsByUserAndDate_nested (w : World) (userId date : string)
    (c : Pg.CalDate) :
  Pg.date_in date = Some c ->
  exists res,
    Queries.getWorkoutsByUserAndDate userId date w
    = (Returned res,
       logged w
         [findMany_workouts [eq_userId userId; eq_date date] (Some desc_createdAt)
            (Some (With.mk (Some asc_order) true
                     (Some (With.mkSets (Some asc_setNumber)))))])
    /\ (forall r, In r (map WorkoutWithDetails.row res) <->
          In r (workouts (db w)) /\ ownedOn userId c r)
    /\ Permutation (map WorkoutWithDetails.row res)
         (filter (matches [eq_userId userId; eq_date date]) (workouts (db w)))
    /\ StronglySorted (fun a b => Workout.createdAt b <= Workout.createdAt a)
         (map WorkoutWithDetails.row res)
    /\ forall x, In x res ->
         StronglySorted
           (fun a b => WorkoutExercise.order a <= WorkoutExercise.order b)
           (map WorkoutExerciseWithDetails.row (WorkoutWithDetails.workoutExercises x))
         /\ (forall we,
               In we (map WorkoutExerciseWithDetails.row
                        (WorkoutWithDetails.workoutExercises x)) <->
               In we (workoutExercises (db w))
               /\ WorkoutExercise.workoutId we = Workout.id (WorkoutWithDetails.row x))
         /\ forall e, In e (WorkoutWithDetails.workoutExercises x) ->
              StronglySorted (fun a b => SetRow.setNumber a <= SetRow.setNumber b)
                (WorkoutExerciseWithDetails.sets e)
              /\ (forall s, In s (WorkoutExerciseWithDetails.sets e) <->
                    In s (sets (db w))
                    /\ SetRow.workoutExerciseId s
                       = WorkoutExercise.id (WorkoutExerciseWithDetails.row e))
              /\ (forall ex, WorkoutExerciseWithDetails.exercise e = Some ex ->
                    In ex (exercises (db w))
                    /\ Exercise.id ex
                       = WorkoutExercise.exerciseId (WorkoutExerciseWithDetails.row e)).
Proof.
  intros D.
  set (cfg := Some (With.mk (Some asc_order) true
                      (Some (With.mkSets (Some asc_setNumber))))).
  exists (map (with_details (db w) cfg) (workoutsOn userId date (db w))).
  assert (Rows : map WorkoutWithDetails.row
                   (map (with_details (db w) cfg) (workoutsOn userId date (db w)))
                 = workoutsOn userId date (db w)).
  { rewrite map_map. cbn [with_details WorkoutWithDetails.row]. apply map_id. }
  rewrite Rows.
  split; [|split; [|split; [|split]]].
  - unfold Queries.getWorkoutsByUserAndDate, Db.findMany, send, read_only, exec_findMany.
    cbn [forallb cond_ok]. rewrite D. reflexivity.
  - intros r. apply workoutsOn_In, D.
  - apply stable_sort_perm.
  - apply workoutsOn_sorted.
  - intros x Ix. apply in_map_iff in Ix. destruct Ix as (r & <- & _).
    cbn [cfg with_details WorkoutWithDetails.workoutExercises WorkoutWithDetails.row
           With.orderBy With.exercise With.sets With.sets_orderBy
           order_entries order_sets].
    rewrite map_map. cbn [WorkoutExerciseWithDetails.row]. rewrite map_id.
    split; [apply (leb_sorted WorkoutExercise.order)|]. split.
    + intros we.
      split.
      * intros I. apply (Permutation_in _ (stable_sort_perm _ _)) in I.
        apply filter_In in I. rewrite Z.eqb_eq in I. exact I.
      * intros I. apply (Permutation_in _ (Permutation_sym (stable_sort_perm _ _))).
        apply filter_In. rewrite Z.eqb_eq. exact I.
    + intros e Ie. apply in_map_iff in Ie. destruct Ie as (we & <- & _).
      cbn [WorkoutExerciseWithDetails.sets WorkoutExerciseWithDetails.row
             WorkoutExerciseWithDetails.exercise].
      split; [apply (leb_sorted SetRow.setNumber)|]. split.
      * intros s. split.
        -- intros I. apply (Permutation_in _ (stable_sort_perm _ _)) in I.
           apply filter_In in I. rewrite Z.eqb_eq in I. exact I.
        -- intros I. apply (Permutation_in _ (Permutation_sym (stable_sort_perm _ _))).
           apply filter_In. rewrite Z.eqb_eq. exact I.
      * intros ex F. apply find_some in F. rewrite Z.eqb_eq in F. exact F.
Qed.

(** The workouts of Alice on 1 September 2025, asked for without a
    session. *)
Lemma getWorkoutsByUserAndDate_nested_witness :
  let w := Sample.world None 0 Sample.store in
  map (fun x => Workout.id (WorkoutWithDetails.row x))
    (match fst (Queries.getWorkoutsByUserAndDate "alice" "2025-09-01" w) with
     | Returned l => l
     | Thrown _ => []
     end) = [2; 1]
  /\ exists res,
       Queries.getWorkoutsByUserAndDate "alice" "2025-09-01" w
       = (Returned res,
          logged w
            [findMany_workouts [eq_userId "alice"; eq_date "2025-09-01"] (Some desc_createdAt)
               (Some (With.mk (Some asc_order) true
                        (Some (With.mkSets (Some asc_setNumber)))))])
       /\ (forall r, In r (map WorkoutWithDetails.row res) <->
             In r (workouts (db w)) /\ ownedOn "alice" (2025, 9, 1) r)
       /\ Permutation (map WorkoutWithDetails.row res)
            (filter (matches [eq_userId "alice"; eq_date "2025-09-01"]) (workouts (db w)))
       /\ StronglySorted (fun a b => Workout.createdAt b <= Workout.createdAt a)
            (map WorkoutWithDetails.row res)
       /\ forall x, In x res ->
            StronglySorted
              (fun a b => WorkoutExercise.order a <= WorkoutExercise.order b)
              (map WorkoutExerciseWithDetails.row (WorkoutWithDetails.workoutExercises x))
            /\ (forall we,
                  In we (map WorkoutExerciseWithDetails.row
                           (WorkoutWithDetails.workoutExercises x)) <->
                  In we (workoutExercises (db w))
                  /\ WorkoutExercise.workoutId we = Workout.id (WorkoutWithDetails.row x))
            /\ forall e, In e (WorkoutWithDetails.workoutExercises x) ->
                 StronglySorted (fun a b => SetRow.setNumber a <= SetRow.setNumber b)
                   (WorkoutExerciseWithDetails.sets e)
                 /\ (forall s, In s (WorkoutExerciseWithDetails.sets e) <->
                       In s (sets (db w))
                       /\ SetRow.workoutExerciseId s
                          = WorkoutExercise.id (WorkoutExerciseWithDetails.row e))
                 /\ (forall ex, WorkoutExerciseWithDetails.exercise e = Some ex ->
                       In ex (exercises (db w))
                       /\ Exercise.id ex
                          = WorkoutExercise.exerciseId (WorkoutExerciseWithDetails.row e)).
Proof.
  split; [reflexivity|].
  apply (getWorkoutsByUserAndDate_nested
           (Sample.world None 0 Sample.store) "alice" "2025-09-01" (2025, 9, 1)).
  reflexivity.
Defined.

(** [getWorkoutDatesForUser]. For two date texts the store accepts, and
    with no look at the session, the query returns the dates of the user's
    workouts between the two, both included: each date once, in rising
    order. *)
Theorem getWorkoutDatesForUser_ascending (w : World) (userId startDate endDate : string)
    (cs ce : Pg.CalDate) :
  Pg.date_in startDate = Some cs -> Pg.date_in endDate = Some ce ->
  exists dates,
    Queries.getWorkoutDatesForUser userId startDate endDate w
    = (Returned dates,
       logged w [selectDistinct_date
                   [eq_userId userId; gte_date startDate; lte_date endDate]
                   (Some asc_date)])
    /\ NoDup dates
    /\ StronglySorted not_after dates
    /\ forall s, In s dates <->
         exists r c, In r (workouts (db w)) /\ Workout.userId r = userId
           /\ Workout.date r = s /\ Pg.date_in s = Some c
           /\ Pg.date_leb cs c = true /\ Pg.date_leb c ce = true.
Proof.
  intros Ds De.
  set (wh := [eq_userId userId; gte_date startDate; lte_date endDate]).
  set (ds := distinct (map Workout.date (filter (matches wh) (workouts (db w))))).
  assert (Mem : forall s, In s ds <->
            exists r c, In r (workouts (db w)) /\ Workout.userId r = userId
              /\ Workout.date r = s /\ Pg.date_in s = Some c
              /\ Pg.date_leb cs c = true /\ Pg.date_leb c ce = true).
  { intros s. unfold ds. rewrite distinct_In, in_map_iff. split.
    - intros (r & <- & Hr). apply filter_In in Hr. destruct Hr as (I & M).
      unfold wh, matches in M. cbn [forallb holds] in M.
      rewrite !andb_true_iff, String.eqb_eq in M. destruct M as (O & G & L & _).
      unfold Pg.date_cmp in G, L. rewrite Ds in G. rewrite De in L.
      destruct (Pg.date_in (Workout.date r)) as [c|] eqn:Dr; [|discriminate].
      exists r, c. auto 10.
    - intros (r & c & I & O & <- & Dr & G & L). exists r. split; [reflexivity|].
      apply filter_In. split; [exact I|].
      unfold wh, matches. cbn [forallb holds]. unfold Pg.date_cmp. rewrite Ds, De, Dr.
      rewrite G, L. rewrite (proj2 (String.eqb_eq _ _) O). reflexivity. }
  exists (stable_sort (date_text_order asc_date) ds).
  split; [|split; [|split]].
  - unfold Queries.getWorkoutDatesForUser, Db.selectDistinct_date, send, read_only,
      exec_selectDistinct_date.
    cbn [forallb cond_ok]. rewrite Ds, De. reflexivity.
  - apply (Permutation_NoDup (Permutation_sym (stable_sort_perm _ ds))).
    apply distinct_NoDup.
  - apply (stable_sort_on (date_text_order asc_date) (fun s => Pg.date_in s <> None)).
    + intros a b Ha Hb. apply (not_after_total a b Ha Hb).
    + intros a b c0 _ _ _. apply not_after_trans.
    + apply Forall_forall. intros s I. apply Mem in I.
      destruct I as (r & c & _ & _ & _ & Dc & _). congruence.
  - intros s. rewrite <- Mem. split; intros I.
    + apply (Permutation_in _ (stable_sort_perm _ _)) in I. exact I.
    + apply (Permutation_in _ (Permutation_sym (stable_sort_perm _ _))). exact I.
Qed.

(** Alice's September, stored with the 15th before the 1st. *)
Lemma getWorkoutDatesForUser_ascending_witness :
  let w := Sample.world None 0 Sample.september in
  fst (Queries.getWorkoutDatesForUser "alice" "2025-09-01" "2025-09-30" w)
  = Returned ["2025-09-01"; "2025-09-15"]
  /\ exists dates,
       Queries.getWorkoutDatesForUser "alice" "2025-09-01" "2025-09-30" w
       = (Returned dates,
          logged w [selectDistinct_date
                      [eq_userId "alice"; gte_date "2025-09-01"; lte_date "2025-09-30"]
                      (Some asc_date)])
       /\ NoDup dates
       /\ StronglySorted not_after dates
       /\ forall s, In s dates <->
            exists r c, In r (workouts (db w)) /\ Workout.userId r = "alice"
              /\ Workout.date r = s /\ Pg.date_in s = Some c
              /\ Pg.date_leb (2025, 9, 1) c = true /\ Pg.date_leb c (2025, 9, 30) = true.
Proof.
  split; [reflexivity|].
  apply (getWorkoutDatesForUser_ascending
           (Sample.world None 0 Sample.september) "alice" "2025-09-01" "2025-09-30"
           (2025, 9, 1) (2025, 9, 30)).
  - reflexivity.
  - reflexivity.
Defined.

End RelationalReads.

(** ** The figures of a workout card *)

Module CardFigures.
Import Data RunFacts ReadFacts GroupingFacts Ownership Ordering PgFacts.

Lemma length_flat_map_sum {A B} (f : A -> list B) l :
  List.length (flat_map f l) = list_sum (map (fun x => List.length (f x)) l).
Proof.
  induction l as [|x t IH]; simpl; [reflexivity|].
  rewrite length_app, IH. reflexivity.
Qed.

(** A key that occurs once in [ks] is counted once. *)
Lemma sum_one_key (k : Z) (c : nat) ks :
  NoDup ks -> In k ks ->
  list_sum (map (fun k' => if k =? k' then c else 0%nat) ks) = c.
Proof.
  induction ks as [|a t IH]; simpl; [contradiction|].
  intros ND I. inversion ND as [|? ? Na Nt]; subst.
  destruct (Z.eqb_spec k a) as [->|Ne].
  - assert (Z0 : list_sum (map (fun k' => if a =? k' then c else 0%nat) t) = 0%nat).
    { clear IH I ND Nt. induction t as [|b t IH]; simpl; [reflexivity|].
      destruct (Z.eqb_spec a b) as [->|_]; [exfalso; apply Na; left; reflexivity|].
      apply IH. intros H. apply Na. right. exact H. }
    rewrite Z0. lia.
  - destruct I as [E|I]; [congruence|]. rewrite (IH Nt I). reflexivity.
Qed.

Lemma list_sum_add {A} (f g : A -> nat) l :
  list_sum (map (fun x => (f x + g x)%nat) l)
  = (list_sum (map f l) + list_sum (map g l))%nat.
Proof. induction l as [|x t IH]; simpl; [reflexivity|]. rewrite IH. lia. Qed.

(** Summing over the groups of a partition by key sums over the rows. *)
Lemma sum_over_groups (f : Joined.t -> nat) ks rows :
  NoDup ks -> (forall r, In r rows -> In (exerciseKey r) ks) ->
  list_sum (map (fun k => list_sum (map f (rowsOf k rows))) ks)
  = list_sum (map f rows).
Proof.
  intros ND. induction rows as [|r rs IH]; intros K.
  - simpl. clear. induction ks as [|k t IHk]; simpl; [reflexivity|exact IHk].
  - change (list_sum (map f (r :: rs))) with (f r + list_sum (map f rs))%nat.
    rewrite <- IH by (intros x Hx; apply K; right; exact Hx).
    rewrite <- (sum_one_key (exerciseKey r) (f r) ks ND (K r (or_introl eq_refl))) at 1.
    rewrite <- list_sum_add. f_equal. apply map_ext. intros k.
    unfold rowsOf. cbn [filter]. destruct (exerciseKey r =? k); reflexivity.
Qed.

Lemma fold_sum {A} (f : A -> nat) l a :
  fold_left (fun sum x => sum + Z.of_nat (f x)) l a = a + Z.of_nat (list_sum (map f l)).
Proof.
  revert a. induction l as [|x t IH]; intros a; simpl; [lia|].
  rewrite IH. lia.
Qed.

Lemma setViews_count rows :
  List.length (flat_map setViews rows)
  = List.length (filter (fun r => match Joined.set r with
                                  | Some _ => true
                                  | None => false
                                  end) rows).
Proof.
  induction rows as [|r t IH]; simpl; [reflexivity|].
  unfold setViews at 1. destruct (Joined.set r); simpl; rewrite IH; reflexivity.
Qed.

(** What the grouping keeps: the number of sets and of exercises. *)
Lemma groupExercises_counts rows :
  list_sum (map (fun e => List.length (ExerciseView.sets e)) (groupExercises rows))
  = List.length (flat_map setViews rows)
  /\ List.length (groupExercises rows)
     = List.length (nodup Z.eq_dec (map exerciseKey rows)).
Proof.
  rewrite groupExercises_values.
  pose proof (fold_addItem_grouped rows) as (ND & K & E).
  set (m := fold_left addItem rows []) in *. clearbody m.
  split.
  - unfold JsMap.values. rewrite !map_map.
    rewrite length_flat_map_sum.
    rewrite <- (sum_over_groups (fun r => List.length (setViews r)) (JsMap.keys m) rows ND)
      by (intros r I; apply K, in_map, I).
    unfold JsMap.keys. rewrite map_map. f_equal. apply map_ext_in.
    intros [k v] I. cbn [fst snd sortSets ExerciseView.sets].
    rewrite (Permutation_length (stable_sort_perm _ _)).
    destruct (E k v I) as (S & _). rewrite S. apply length_flat_map_sum.
  - rewrite length_map. unfold JsMap.values. rewrite length_map.
    rewrite <- (length_map fst m). fold (JsMap.keys m).
    apply Permutation_length, NoDup_Permutation; [exact ND|apply NoDup_nodup|].
    intros k. rewrite K, nodup_In. reflexivity.
Qed.

(** The badges of a workout card. For a resolved caller and a valid date
    whose local year is 100 or later, every workout [getWorkoutsByDate]
    returns shows on its card, as its number of sets, the number of joined
    rows of that workout that carry a set, and as its number of exercises
    the number of distinct exercises among those rows: the grouping loses
    no set and counts none twice. *)
Theorem card_figures_count_the_stored_rows (w : World) (u : string) (t : Z) :
  session w = Some u -> u <> EmptyString ->
  Z.abs t <= JsDate.maxTime -> Z.abs (tza w) <= JsDate.msPerDay ->
  100 <= JsDate.YearFromTime (JsDate.LocalTime (tza w) t) ->
  exists views,
    fst (getWorkoutsByDate (Some t) w) = Returned views
    /\ forall v, In v views ->
         Content.totalSets v
         = Z.of_nat
             (List.length
                (filter (fun r => match Joined.set r with
                                  | Some _ => true
                                  | None => false
                                  end)
                   (exercise_data (db w) (WorkoutView.id v))))
         /\ Content.exerciseCount v
            = Z.of_nat
                (List.length
                   (nodup Z.eq_dec
                      (map exerciseKey (exercise_data (db w) (WorkoutView.id v))))).
Proof.
  intros S N Ht Hz Hy.
  pose proof (date_in_formatDateForDb (tza w) t Ht Hz Hy) as D.
  rewrite (getWorkoutsByDate_run w u (Some t) _ S N D). cbv zeta.
  eexists. split; [reflexivity|].
  intros v Iv. apply in_map_iff in Iv. destruct Iv as (r & <- & Ir).
  rewrite (workoutView_found (exercise_data (db w)) _ r) by (apply in_map, Ir).
  unfold Content.totalSets, Content.exerciseCount.
  cbn [WorkoutView.exercises WorkoutView.id].
  destruct (groupExercises_counts (exercise_data (db w) (Workout.id r))) as (A & B).
  rewrite fold_sum, A, B, setViews_count. split; reflexivity.
Qed.

(** Alice's workout 1 has two exercises and three sets; her workout 2 has
    none. *)
Lemma card_figures_count_the_stored_rows_witness :
  let w := Sample.world (Some "alice") 0 Sample.store in
  map (fun v => (WorkoutView.id v, Content.exerciseCount v, Content.totalSets v))
    (match fst (getWorkoutsByDate (Some Sample.noon) w) with
     | Returned l => l
     | Thrown _ => []
     end) = [(2, 0, 0); (1, 2, 3)]
  /\ exists views,
       fst (getWorkoutsByDate (Some Sample.noon) w) = Returned views
       /\ forall v, In v views ->
            Content.totalSets v
            = Z.of_nat
                (List.length
                   (filter (fun r => match Joined.set r with
                                     | Some _ => true
                                     | None => false
                                     end)
                      (exercise_data (db w) (WorkoutView.id v))))
            /\ Content.exerciseCount v
               = Z.of_nat
                   (List.length
                      (nodup Z.eq_dec
                         (map exerciseKey (exercise_data (db w) (WorkoutView.id v))))).
Proof.
  split; [vm_compute; reflexivity|].
  apply (card_figures_count_the_stored_rows
           (Sample.world (Some "alice") 0 Sample.store) "alice" Sample.noon).
  - reflexivity.
  - discriminate.
  - vm_compute. discriminate.
  - vm_compute. discriminate.
  - vm_compute. discriminate.
Defined.

End CardFigures.

(** ** The calendar marks, the statements of a read, and callers without a
    session *)

Module Dashboard.
Import Js JsDate JsFacts DateFacts DateUtilsFacts PgFacts IsoFacts MonthDates
  RunFacts ReadFacts Ordering DateTexts SrcData ActionFacts Validation StoreWrites.

(** The calendar marks. For a resolved caller, a year from 1000 to 9999, a
    month from 0 to 11 and a store whose dates read back as the store
    prints them, wherever the host is: every date [getWorkoutDatesForMonth]
    returns is a valid [Date], and read in the host's local time the dates
    are the days of that month on which the caller has a workout, each
    once. *)
Theorem getWorkoutDatesForMonth_marks_the_stored_days
    (w : World) (u : string) (year month : Z) :
  session w = Some u -> u <> EmptyString -> Z.abs (tza w) <= msPerDay ->
  1000 <= year <= 9999 -> 0 <= month <= 11 ->
  (forall r, In r (workouts (db w)) -> canonical_date (Workout.date r)) ->
  exists dates,
    fst (Data.getWorkoutDatesForMonth year month w) = Returned dates
    /\ Forall (fun d => d <> None) dates
    /\ NoDup (map (formatDateForDb (tza w)) dates)
    /\ forall s, In s (map (formatDateForDb (tza w)) dates) <->
         exists r d, In r (workouts (db w)) /\ Workout.userId r = u
           /\ Workout.date r = s /\ Pg.date_in s = Some (year, month + 1, d).
Proof.
  intros S N Hz Hy Hm C.
  destruct (getWorkoutDatesForMonth_dates w u year month S N Hz ltac:(lia) Hm)
    as (ds & F & ND & I).
  assert (Can : forall s, In s ds ->
            exists d, Pg.valid_date year (month + 1) d = true
                      /\ s = Pg.date_out (year, month + 1, d)
                      /\ Pg.date_in s = Some (year, month + 1, d)).
  { intros s Is. apply I in Is. destruct Is as (r & c & Ir & _ & E & Dc & G & L).
    destruct (C r Ir) as (y' & m' & d' & V & E').
    assert (Es : s = Pg.date_out (y', m', d')) by congruence.
    assert (Dc' : Pg.date_in (Pg.date_out (y', m', d')) = Some (y', m', d'))
      by (unfold Pg.date_out, pad; apply date_in_fields; [left; lia|exact V]).
    rewrite Es, Dc' in Dc. injection Dc as <-.
    destruct (proj1 (in_month year (month + 1) (y', m', d') V) (conj G L)) as (d & Q).
    injection Q as -> -> ->. exists d. rewrite Es. auto. }
  assert (Back : map (formatDateForDb (tza w)) (map (parseDateFromDb (tza w)) ds) = ds).
  { rewrite map_map. rewrite <- (map_id ds) at 2. apply map_ext_in. intros s Is.
    destruct (Can s Is) as (d & V & -> & _).
    apply (format_parse_date_out (tza w) year (month + 1) d Hz V Hy). }
  exists (map (parseDateFromDb (tza w)) ds).
  split; [exact F|]. split; [|split].
  - apply Forall_forall. intros x Ix. apply in_map_iff in Ix.
    destruct Ix as (s & <- & Is). destruct (Can s Is) as (d & V & -> & _).
    destruct (parseDateFromDb_date_out (tza w) year (month + 1) d Hz V ltac:(lia))
      as (P & _). rewrite P. discriminate.
  - rewrite Back. exact ND.
  - intros s. rewrite Back. split.
    + intros Is. destruct (Can s Is) as (d & V & _ & Dc).
      apply I in Is. destruct Is as (r & c & Ir & O & Er & _). exists r, d. auto.
    + intros (r & d & Ir & O & Er & Dc). apply I.
      pose proof (date_in_valid s _ _ _ Dc) as V2.
      destruct (proj2 (in_month year (month + 1) (year, month + 1, d) V2)
                  (ex_intro _ d eq_refl)) as (G & L).
      exists r, (year, month + 1, d). auto 10.
Qed.

(** Alice's September, five hours west of UTC. *)
Lemma getWorkoutDatesForMonth_marks_the_stored_days_witness :
  let w := Sample.world (Some "alice") (-18000000) Sample.september in
  Permutation
    (map (formatDateForDb (tza w))
       (match fst (Data.getWorkoutDatesForMonth 2025 8 w) with
        | Returned l => l
        | Thrown _ => []
        end))
    ["2025-09-01"; "2025-09-15"]
  /\ exists dates,
       fst (Data.getWorkoutDatesForMonth 2025 8 w) = Returned dates
       /\ Forall (fun d => d <> None) dates
       /\ NoDup (map (formatDateForDb (tza w)) dates)
       /\ forall s, In s (map (formatDateForDb (tza w)) dates) <->
            exists r d, In r (workouts (db w)) /\ Workout.userId r = "alice"
              /\ Workout.date r = s /\ Pg.date_in s = Some (2025, 8 + 1, d).
Proof.
  split; [vm_compute; apply perm_swap|].
  apply (getWorkoutDatesForMonth_marks_the_stored_days
           (Sample.world (Some "alice") (-18000000) Sample.september) "alice" 2025 8).
  - reflexivity.
  - discriminate.
  - vm_compute. discriminate.
  - lia.
  - lia.
  - intros r I. simpl in I.
    destruct I as [<-|[<-|[<-|[<-|[<-|[]]]]]];
      [exists 2025, 9, 15|exists 2025, 9, 1|exists 2025, 9, 15|exists 2025, 8, 31
      |exists 2025, 9, 7]; split; reflexivity.
Defined.

(** The statements of a read. For a resolved caller and a valid date whose
    local year is 100 or later, [getWorkoutsByDate] sends one statement for
    the workouts of the day and then one per workout found, for its
    exercise rows, in the order of the result; on a day without workouts it
    sends the first statement only. *)
Theorem getWorkoutsByDate_sends_one_query_per_workout
    (w : World) (u : string) (t : Z) :
  session w = Some u -> u <> EmptyString ->
  Z.abs t <= maxTime -> Z.abs (tza w) <= msPerDay ->
  100 <= YearFromTime (LocalTime (tza w) t) ->
  exists views,
    fst (Data.getWorkoutsByDate (Some t) w) = Returned views
    /\ log (snd (Data.getWorkoutsByDate (Some t) w))
       = log w
         ++ select_workouts [eq_userId u; eq_date (formatDateForDb (tza w) (Some t))]
              (Some desc_createdAt) None
            :: map select_exercise_data (map WorkoutView.id views)
    /\ (views = [] ->
        log (snd (Data.getWorkoutsByDate (Some t) w))
        = log w
          ++ [select_workouts [eq_userId u; eq_date (formatDateForDb (tza w) (Some t))]
                (Some desc_createdAt) None]).
Proof.
  intros S N Ht Hz Hy.
  pose proof (date_in_formatDateForDb (tza w) t Ht Hz Hy) as D.
  rewrite (getWorkoutsByDate_run w u (Some t) _ S N D). cbv zeta.
  eexists. split; [reflexivity|]. cbn [snd logged log].
  rewrite !map_map. cbn [Data.workoutView WorkoutView.id].
  split; [reflexivity|].
  intros E. apply map_eq_nil in E. rewrite E. reflexivity.
Qed.

(** Alice reads 1 September 2025: one statement for the day, one for each of
    her two workouts. *)
Lemma getWorkoutsByDate_sends_one_query_per_workout_witness :
  let w := Sample.world (Some "alice") 0 Sample.store in
  let t := Sample.noon in
  log (snd (Data.getWorkoutsByDate (Some t) w))
  = [select_workouts [eq_userId "alice"; eq_date "2025-09-01"] (Some desc_createdAt) None;
     select_exercise_data 2; select_exercise_data 1]
  /\ exists views,
       fst (Data.getWorkoutsByDate (Some t) w) = Returned views
       /\ log (snd (Data.getWorkoutsByDate (Some t) w))
          = log w
            ++ select_workouts
                 [eq_userId "alice"; eq_date (formatDateForDb (tza w) (Some t))]
                 (Some desc_createdAt) None
               :: map select_exercise_data (map WorkoutView.id views)
       /\ (views = [] ->
           log (snd (Data.getWorkoutsByDate (Some t) w))
           = log w
             ++ [select_workouts
                   [eq_userId "alice"; eq_date (formatDateForDb (tza w) (Some t))]
                   (Some desc_createdAt) None]).
Proof.
  split; [vm_compute; reflexivity|].
  apply (getWorkoutsByDate_sends_one_query_per_workout
           (Sample.world (Some "alice") 0 Sample.store) "alice" Sample.noon).
  - reflexivity.
  - discriminate.
  - vm_compute. discriminate.
  - vm_compute. discriminate.
  - vm_compute. discriminate.
Defined.

(** Callers without a session, at the server actions. When the identity
    provider resolves no caller, or an empty id, a request that passes the
    schema is answered by each validated action with the action's own
    failure text, not with the authorization error, and the world is left
    as it was: nothing is sent, changed or revalidated. *)
Theorem unauthenticated_actions_fail_quietly (w : World) :
  session w = None \/ session w = Some EmptyString ->
  (forall input, createViolation input = None ->
     NewActions.createWorkoutAction input w
     = (Returned (Failure (Zod.Text "Failed to create workout")), w))
  /\ (forall input, updateViolation input = None ->
        EditActions.updateWorkoutAction input w
        = (Returned (Failure (Zod.Text "Failed to update workout")), w))
  /\ (forall input, deleteViolation input = None ->
        EditActions.deleteWorkoutAction input w
        = (Returned (Failure (Zod.Text "Failed to delete workout")), w)).
Proof.
  intros S.
  assert (U : forall B (k : string -> M B),
            bind auth (fun s => bind (requireUser s) k) w
            = (Thrown (Error "Unauthorized"), w)).
  { intros B k. destruct S as [S|S]; [apply user_missing, S|apply user_empty, S]. }
  split; [|split]; intros input V.
  - rewrite <- createWorkoutSchema_first in V. apply no_issue in V.
    rewrite (createWorkoutAction_valid input w V).
    unfold try_catch, bind at 1, createWorkout. rewrite U. reflexivity.
  - rewrite <- updateWorkoutSchema_first in V. apply no_issue in V.
    rewrite (updateWorkoutAction_valid input w V).
    unfold updateWorkout. rewrite U. reflexivity.
  - rewrite <- deleteWorkoutSchema_first in V. apply no_issue in V.
    rewrite (deleteWorkoutAction_valid input w V).
    unfold deleteWorkout. rewrite U. reflexivity.
Qed.

(** A request whose session resolved to the empty id. *)
Lemma unauthenticated_actions_fail_quietly_witness :
  let w := Sample.world (Some EmptyString) 0 Sample.store in
  (session w = None \/ session w = Some EmptyString)
  /\ ((forall input, createViolation input = None ->
         NewActions.createWorkoutAction input w
         = (Returned (Failure (Zod.Text "Failed to create workout")), w))
      /\ (forall input, updateViolation input = None ->
            EditActions.updateWorkoutAction input w
            = (Returned (Failure (Zod.Text "Failed to update workout")), w))
      /\ (forall input, deleteViolation input = None ->
            EditActions.deleteWorkoutAction input w
            = (Returned (Failure (Zod.Text "Failed to delete workout")), w))).
Proof.
  split; [right; reflexivity|].
  apply (unauthenticated_actions_fail_quietly
           (Sample.world (Some EmptyString) 0 Sample.store)).
  right. reflexivity.
Defined.



End Dashboard.

